(** * A.I.R.A. agentic control layer: shallow embedding and verified properties

    The development embeds the Python sources of the agent
    ([app/agent/react.py], [app/agent/reflection.py],
    [app/agent/orchestrator.py]), the capability registry
    ([app/tools/registry.py], [app/tools/base.py], the wrappers in
    [app/tools/ticker_extractor.py] and [app/tools/news_retriever.py]),
    the monitor store ([app/storage/monitor_state.py]) and the monitoring
    task ([app/scheduler/tasks.py]), and, around them, the alert and job
    stores ([app/storage/alert_store.py], [app/storage/job_store.py]), the
    scheduler wrapper ([app/scheduler/scheduler.py]) and the routes that
    drive monitors and analysis jobs ([app/api/routes.py]).

    Conventions.
    - A Python [str] is a Rocq [string] holding its UTF-8 bytes.
    - A Python [float] is a primitive binary64 [float].
    - A Python value of dynamic type (what [json.loads] returns, what a
      tool puts in [ToolResult.data]) is a [pyval].
    - A Python computation that may raise is an [outcome]; the faults
      modelled are instances of [Exception].
    - Calls that leave the process (model inference, tools, clock) thread
      an abstract [World] through the computation; an [async] function is
      the sequence of its awaited calls.
    - Next to its result a run returns a list of [event]s, a ghost record
      of the model calls, tool calls, loop runs and gate verdicts it made,
      which the properties speak of. *)

From Stdlib Require Import ZArith Floats String Ascii List Lia Bool.
From stdpp Require Import gmap strings list pretty sorting.

Open Scope Z_scope.

Set Warnings "-register-all,-inexact-float".

(** ** Dynamic values *)

Inductive pyval : Type :=
| VNone
| VBool (b : bool)
| VInt (z : Z)
| VFloat (f : float)
| VStr (s : string)
| VList (l : list pyval)
| VDict (d : list (string * pyval)).

(** A raised [Exception]: its class name and [str(e)]. *)
Record exn : Type := Exn { exn_type : string; exn_msg : string }.

Inductive outcome (A : Type) : Type :=
| Ret (a : A)
| Raise (e : exn).
Arguments Ret {A} a.
Arguments Raise {A} e.

#[export] Instance outcome_ret : MRet outcome := fun A a => Ret a.

#[export] Instance outcome_bind : MBind outcome := fun A B k m =>
  match m with
  | Ret a => k a
  | Raise e => Raise e
  end.

(** [bool(v)] *)
Definition truthy (v : pyval) : bool :=
  match v with
  | VNone => false
  | VBool b => b
  | VInt z => negb (z =? 0)
  | VFloat f => negb (PrimFloat.eqb f 0%float)
  | VStr s => negb (String.eqb s "")
  | VList l => match l with [] => false | _ => true end
  | VDict d => match d with [] => false | _ => true end
  end.

(** [type(v).__name__] *)
Definition type_name (v : pyval) : string :=
  match v with
  | VNone => "NoneType"
  | VBool _ => "bool"
  | VInt _ => "int"
  | VFloat _ => "float"
  | VStr _ => "str"
  | VList _ => "list"
  | VDict _ => "dict"
  end.

Fixpoint dict_lookup (d : list (string * pyval)) (k : string) : option pyval :=
  match d with
  | [] => None
  | (k', v) :: d' => if String.eqb k' k then Some v else dict_lookup d' k
  end.

(** [d[k] = v]: an existing key keeps its position. *)
Fixpoint dict_set (d : list (string * pyval)) (k : string) (v : pyval)
  : list (string * pyval) :=
  match d with
  | [] => [(k, v)]
  | (k', v') :: d' =>
      if String.eqb k' k then (k', v) :: d' else (k', v') :: dict_set d' k v
  end.

(** [v.get(k, default)]: only a dict has the method. *)
Definition py_get (v : pyval) (k : string) (default : pyval) : outcome pyval :=
  match v with
  | VDict d =>
      Ret (match dict_lookup d k with Some x => x | None => default end)
  | _ =>
      Raise (Exn "AttributeError"
               ("'" +:+ type_name v +:+ "' object has no attribute 'get'"))
  end.

(** [v == s] for a string literal [s]. *)
Definition py_eq_str (v : pyval) (s : string) : bool :=
  match v with
  | VStr s' => String.eqb s' s
  | _ => false
  end.

(** [iter(v)]: the items a [for] loop visits. A text yields one-character
    texts (here one per byte: the loops of the program read a map off
    every item, so of a text only its emptiness matters). *)
Definition py_iter (v : pyval) : outcome (list pyval) :=
  match v with
  | VList l => Ret l
  | VDict d => Ret (map (fun kv => VStr (fst kv)) d)
  | VStr s => Ret (map (fun c => VStr (String c EmptyString)) (list_ascii_of_string s))
  | _ =>
      Raise (Exn "TypeError" ("'" +:+ type_name v +:+ "' object is not iterable"))
  end.

(** [range(a, b)] *)
Definition py_range (a b : Z) : list Z :=
  map (fun i => a + Z.of_nat i) (seq 0 (Z.to_nat (b - a))).

(** [sep.join(parts)] *)
Fixpoint join (sep : string) (parts : list string) : string :=
  match parts with
  | [] => ""
  | [p] => p
  | p :: rest => p +:+ sep +:+ join sep rest
  end.

(** ** Floats *)

(** [min(a, b)] and [max(a, b)] of the builtins: the first argument is
    kept unless the second compares strictly below (above) it. *)
Definition py_min (a b : float) : float := if PrimFloat.ltb b a then b else a.
Definition py_max (a b : float) : float := if PrimFloat.ltb a b then b else a.

(** The binary64 nearest to [m * 10^e] (round to nearest, ties to even),
    as [float(str)] and [json.loads] compute it from a decimal literal. *)
Definition float_of_decimal (neg : bool) (m e : Z) : float :=
  let sf :=
    if (m =? 0) then S754_zero neg
    else if (0 <=? e) then
      binary_normalize prec emax (cond_Zopp neg (m * 10 ^ e)) 0 neg
    else
      let d := 10 ^ (- e) in
      let s := 55 + Z.log2_up d in
      let q := (m * 2 ^ s) / d in
      let r := (m * 2 ^ s) mod d in
      let sticky := if (r =? 0) then 0 else 1 in
      binary_normalize prec emax (cond_Zopp neg (2 * q + sticky)) (- (s + 1)) neg
  in SF2Prim sf.

(** [float(z)] for an [int]: the nearest binary64, [OverflowError] when
    it does not fit. *)
Definition float_of_int (z : Z) : outcome float :=
  let f := float_of_decimal (z <? 0) (Z.abs z) 0 in
  if PrimFloat.eqb (abs f) infinity
  then Raise (Exn "OverflowError" "int too large to convert to float")
  else Ret f.

(** ** Text *)

Definition code (c : ascii) : Z := Z.of_N (N_of_ascii c).

Definition dquote : ascii := "034"%char.
Definition backslash : ascii := "092"%char.

(** Examples write JSON with an apostrophe where the text has a double
    quote; [dq] puts the double quotes back. *)
Fixpoint dq (s : string) : string :=
  match s with
  | EmptyString => EmptyString
  | String c r => String (if Ascii.eqb c "'"%char then dquote else c) (dq r)
  end.

(** [str.isspace] on the code points below 128. *)
Definition ascii_space (c : ascii) : bool :=
  let n := code c in
  ((9 <=? n) && (n <=? 13)) || ((28 <=? n) && (n <=? 32)).

(** The two-byte encodings of U+0085 and U+00A0. *)
Definition space2 (c d : ascii) : bool :=
  (code c =? 194) && ((code d =? 133) || (code d =? 160)).

(** The three-byte encodings of U+1680, U+2000..U+200A, U+2028, U+2029,
    U+202F, U+205F and U+3000. *)
Definition space3 (c d e : ascii) : bool :=
  ((code c =? 225) && (code d =? 154) && (code e =? 128))
  || ((code c =? 226) && (code d =? 128)
      && (((128 <=? code e) && (code e <=? 138))
          || (code e =? 168) || (code e =? 169) || (code e =? 175)))
  || ((code c =? 226) && (code d =? 129) && (code e =? 159))
  || ((code c =? 227) && (code d =? 128) && (code e =? 128)).

(** What the regex [\s*] consumes: the longest run of white space at the
    head of the text. The rest is returned. *)
Fixpoint skip_ws (s : string) : string :=
  match s with
  | EmptyString => s
  | String c r =>
      if ascii_space c then skip_ws r
      else
        match r with
        | EmptyString => s
        | String d r2 =>
            if space2 c d then skip_ws r2
            else
              match r2 with
              | EmptyString => s
              | String e r3 => if space3 c d e then skip_ws r3 else s
              end
        end
  end.

Definition is_empty (s : string) : bool :=
  match s with EmptyString => true | _ => false end.

Fixpoint rstrip (s : string) : string :=
  match s with
  | EmptyString => EmptyString
  | String c r => if is_empty (skip_ws s) then EmptyString else String c (rstrip r)
  end.

(** [text.strip()] *)
Definition strip (s : string) : string := rstrip (skip_ws s).

Fixpoint strip_prefix (p s : string) : option string :=
  match p, s with
  | EmptyString, _ => Some s
  | String a p', String b s' => if Ascii.eqb a b then strip_prefix p' s' else None
  | String _ _, EmptyString => None
  end.

Definition starts_with (p s : string) : bool :=
  match strip_prefix p s with Some _ => true | None => false end.

Definition fence : string := "```".

(** ** json.loads

    The grammar is the one of the [json] module's scanner: objects, arrays,
    strings (strict: no raw control character), numbers, [true], [false],
    [null] and the constants [NaN], [Infinity], [-Infinity]. [None] is a
    [JSONDecodeError]. Outside the model: the interpreter's limits on the
    nesting depth and on the number of digits of an integer literal. *)

Definition json_space (c : ascii) : bool :=
  (code c =? 32) || (code c =? 9) || (code c =? 10) || (code c =? 13).

Fixpoint json_ws (s : string) : string :=
  match s with
  | String c r => if json_space c then json_ws r else s
  | EmptyString => s
  end.

Definition digit_val (c : ascii) : option Z :=
  let n := code c in
  if (48 <=? n) && (n <=? 57) then Some (n - 48) else None.

Definition hex_val (c : ascii) : option Z :=
  let n := code c in
  if (48 <=? n) && (n <=? 57) then Some (n - 48)
  else if (65 <=? n) && (n <=? 70) then Some (n - 55)
  else if (97 <=? n) && (n <=? 102) then Some (n - 87)
  else None.

(** Reads the digits at the head of [s] onto [acc]; returns the value, the
    number of digits read and the rest. *)
Fixpoint read_digits (s : string) (acc count : Z) : Z * Z * string :=
  match s with
  | EmptyString => (acc, count, s)
  | String c r =>
      match digit_val c with
      | Some d => read_digits r (10 * acc + d) (count + 1)
      | None => (acc, count, s)
      end
  end.

Definition head_is_digit (s : string) : bool :=
  match s with
  | String c _ => match digit_val c with Some _ => true | None => false end
  | EmptyString => false
  end.

(** A number literal: an optional minus sign, an integer part without
    leading zero, then an optional fraction (a dot and digits) and an
    optional exponent (e or E, an optional sign, digits). The value is an
    [int] when there is neither fraction nor exponent, a [float]
    otherwise. *)
Definition parse_number (s : string) : option (pyval * string) :=
  let '(neg, s1) :=
    match s with
    | String c r => if Ascii.eqb c "-"%char then (true, r) else (false, s)
    | EmptyString => (false, s)
    end in
  match s1 with
  | EmptyString => None
  | String c r =>
      match digit_val c with
      | None => None
      | Some d =>
          let '(ip, _, s2) := if d =? 0 then (0, 1, r) else read_digits r d 1 in
          let '(m, fd, s3) :=
            match s2 with
            | String p t =>
                if Ascii.eqb p "."%char && head_is_digit t
                then read_digits t ip 0 else (ip, 0, s2)
            | EmptyString => (ip, 0, s2)
            end in
          let '(ex, has_exp, s4) :=
            match s3 with
            | String e0 t =>
                if Ascii.eqb e0 "e"%char || Ascii.eqb e0 "E"%char then
                  let '(eneg, t1) :=
                    match t with
                    | String g u =>
                        if Ascii.eqb g "-"%char then (true, u)
                        else if Ascii.eqb g "+"%char then (false, u)
                        else (false, t)
                    | EmptyString => (false, t)
                    end in
                  if head_is_digit t1 then
                    let '(v, _, rest) := read_digits t1 0 0 in
                    (if eneg : bool then - v else v, true, rest)
                  else (0, false, s3)
                else (0, false, s3)
            | EmptyString => (0, false, s3)
            end in
          if (0 <? fd) || has_exp
          then Some (VFloat (float_of_decimal neg m (ex - fd)), s4)
          else Some (VInt (if neg : bool then - ip else ip), s4)
      end
  end.

Definition byte (n : Z) : ascii := ascii_of_N (Z.to_N n).

(** UTF-8 encoding of a code point (a lone surrogate is encoded like any
    other three-byte code point). *)
Definition utf8_encode (cp : Z) : string :=
  if cp <? 128 then String (byte cp) EmptyString
  else if cp <? 2048 then
    String (byte (192 + cp / 64)) (String (byte (128 + cp mod 64)) EmptyString)
  else if cp <? 65536 then
    String (byte (224 + cp / 4096))
      (String (byte (128 + (cp / 64) mod 64))
         (String (byte (128 + cp mod 64)) EmptyString))
  else
    String (byte (240 + cp / 262144))
      (String (byte (128 + (cp / 4096) mod 64))
         (String (byte (128 + (cp / 64) mod 64))
            (String (byte (128 + cp mod 64)) EmptyString))).

(** Four hexadecimal digits at the head of [s]. *)
Definition read_hex4 (s : string) : option (Z * string) :=
  match s with
  | String a (String b (String c (String d r))) =>
      match hex_val a, hex_val b, hex_val c, hex_val d with
      | Some x, Some y, Some z, Some w => Some (4096 * x + 256 * y + 16 * z + w, r)
      | _, _, _, _ => None
      end
  | _ => None
  end.

Definition simple_escape (c : ascii) : option ascii :=
  if Ascii.eqb c dquote then Some dquote
  else if Ascii.eqb c backslash then Some backslash
  else if Ascii.eqb c "/"%char then Some "/"%char
  else if Ascii.eqb c "b"%char then Some "008"%char
  else if Ascii.eqb c "f"%char then Some "012"%char
  else if Ascii.eqb c "n"%char then Some "010"%char
  else if Ascii.eqb c "r"%char then Some "013"%char
  else if Ascii.eqb c "t"%char then Some "009"%char
  else None.

(** The body of a string literal, after its opening quote. *)
Fixpoint parse_string (n : nat) (s : string) : option (string * string) :=
  match n with
  | O => None
  | S n' =>
      match s with
      | EmptyString => None
      | String c r =>
          if Ascii.eqb c dquote then Some (EmptyString, r)
          else if Ascii.eqb c backslash then
            match r with
            | EmptyString => None
            | String e r' =>
                if Ascii.eqb e "u"%char then
                  match read_hex4 r' with
                  | None => None
                  | Some (hi, r4) =>
                      let pair :=
                        if (55296 <=? hi) && (hi <=? 56319) then
                          match r4 with
                          | String b1 (String b2 r6) =>
                              if Ascii.eqb b1 backslash && Ascii.eqb b2 "u"%char then
                                match read_hex4 r6 with
                                | Some (lo, r10) =>
                                    if (56320 <=? lo) && (lo <=? 57343)
                                    then Some (65536 + (hi - 55296) * 1024 + (lo - 56320), r10)
                                    else None
                                | None => None
                                end
                              else None
                          | _ => None
                          end
                        else None in
                      let '(cp, rest) :=
                        match pair with Some p => p | None => (hi, r4) end in
                      match parse_string n' rest with
                      | Some (str, out) => Some (utf8_encode cp +:+ str, out)
                      | None => None
                      end
                  end
                else
                  match simple_escape e with
                  | None => None
                  | Some b =>
                      match parse_string n' r' with
                      | Some (str, out) => Some (String b str, out)
                      | None => None
                      end
                  end
            end
          else if code c <? 32 then None
          else
            match parse_string n' r with
            | Some (str, out) => Some (String c str, out)
            | None => None
            end
      end
  end.

Definition parse_literal (s : string) : option (pyval * string) :=
  match strip_prefix "null" s with
  | Some r => Some (VNone, r)
  | None =>
  match strip_prefix "true" s with
  | Some r => Some (VBool true, r)
  | None =>
  match strip_prefix "false" s with
  | Some r => Some (VBool false, r)
  | None =>
  match parse_number s with
  | Some res => Some res
  | None =>
  match strip_prefix "NaN" s with
  | Some r => Some (VFloat nan, r)
  | None =>
  match strip_prefix "Infinity" s with
  | Some r => Some (VFloat infinity, r)
  | None =>
  match strip_prefix "-Infinity" s with
  | Some r => Some (VFloat neg_infinity, r)
  | None => None
  end end end end end end end.

Fixpoint parse_value (n : nat) (s : string) {struct n} : option (pyval * string) :=
  match n with
  | O => None
  | S n' =>
      match s with
      | EmptyString => None
      | String c r =>
          if Ascii.eqb c dquote then
            match parse_string n' r with
            | Some (str, rest) => Some (VStr str, rest)
            | None => None
            end
          else if Ascii.eqb c "{"%char then
            match json_ws r with
            | String c1 rest as r1 =>
                if Ascii.eqb c1 "}"%char then Some (VDict [], rest)
                else parse_members n' r1 []
            | EmptyString => None
            end
          else if Ascii.eqb c "["%char then
            match json_ws r with
            | String c1 rest as r1 =>
                if Ascii.eqb c1 "]"%char then Some (VList [], rest)
                else parse_elements n' r1 []
            | EmptyString => None
            end
          else parse_literal s
      end
  end

(** The members of an object, from the opening quote of a key on. A key
    that occurs again replaces the earlier value, as [dict(pairs)] does. *)
with parse_members (n : nat) (s : string) (acc : list (string * pyval))
  {struct n} : option (pyval * string) :=
  match n with
  | O => None
  | S n' =>
      match s with
      | EmptyString => None
      | String c r =>
          if Ascii.eqb c dquote then
            match parse_string n' r with
            | None => None
            | Some (key, r1) =>
                match json_ws r1 with
                | EmptyString => None
                | String c2 r2 =>
                    if Ascii.eqb c2 ":"%char then
                      match parse_value n' (json_ws r2) with
                      | None => None
                      | Some (v, r3) =>
                          let acc' := dict_set acc key v in
                          match json_ws r3 with
                          | EmptyString => None
                          | String c4 r4 =>
                              if Ascii.eqb c4 "}"%char then Some (VDict acc', r4)
                              else if Ascii.eqb c4 ","%char
                              then parse_members n' (json_ws r4) acc'
                              else None
                          end
                      end
                    else None
                end
            end
          else None
      end
  end

(** The elements of an array, from the first character of an element on. *)
with parse_elements (n : nat) (s : string) (acc : list pyval)
  {struct n} : option (pyval * string) :=
  match n with
  | O => None
  | S n' =>
      match parse_value n' s with
      | None => None
      | Some (v, r1) =>
          match json_ws r1 with
          | EmptyString => None
          | String c2 r2 =>
              if Ascii.eqb c2 "]"%char then Some (VList (acc ++ [v]), r2)
              else if Ascii.eqb c2 ","%char
              then parse_elements n' (json_ws r2) (acc ++ [v])
              else None
          end
      end
  end.

(** [json.loads(s)]: one value, white space around it, nothing else. *)
Definition json_loads (s : string) : option pyval :=
  match parse_value (S (String.length s)) (json_ws s) with
  | Some (v, rest) => if is_empty (json_ws rest) then Some v else None
  | None => None
  end.

(** ** _extract_json (react.py, reflection.py) *)

(** The lazy group [\{.*?\}] followed by [\s*```], read after the opening
    brace: the text up to the first closing brace after which only white
    space precedes a fence. *)
Fixpoint find_fence_close (s : string) : option string :=
  match s with
  | EmptyString => None
  | String c r =>
      if Ascii.eqb c "}"%char && starts_with fence (skip_ws r)
      then Some (String c EmptyString)
      else
        match find_fence_close r with
        | Some g => Some (String c g)
        | None => None
        end
  end.

(** The first regex, anchored at the head of [s]: a fence, an optional
    [json], white space, then the group. Returns the group. *)
Definition match_fence_at (s : string) : option string :=
  match strip_prefix fence s with
  | None => None
  | Some r =>
      let r1 := match strip_prefix "json" r with Some r' => r' | None => r end in
      match skip_ws r1 with
      | EmptyString => None
      | String c r2 =>
          if Ascii.eqb c "{"%char then
            match find_fence_close r2 with
            | Some g => Some (String c g)
            | None => None
            end
          else None
      end
  end.

(** [re.search] of the first regex: the leftmost position where it
    matches. *)
Fixpoint search_fence (s : string) : option string :=
  match match_fence_at s with
  | Some g => Some g
  | None =>
      match s with
      | EmptyString => None
      | String _ r => search_fence r
      end
  end.

(** The longest prefix of [s] that ends with a closing brace. *)
Fixpoint upto_last_brace (s : string) : option string :=
  match s with
  | EmptyString => None
  | String c r =>
      match upto_last_brace r with
      | Some p => Some (String c p)
      | None => if Ascii.eqb c "}"%char then Some (String c EmptyString) else None
      end
  end.

(** [re.search] of the greedy regex [\{.*\}] (DOTALL). *)
Fixpoint search_braces (s : string) : option string :=
  match s with
  | EmptyString => None
  | String c r =>
      if Ascii.eqb c "{"%char then
        match upto_last_brace r with
        | Some p => Some (String c p)
        | None => None
        end
      else search_braces r
  end.

Definition tier_fenced (text : string) : option pyval :=
  match search_fence text with
  | Some g => json_loads g
  | None => None
  end.

Definition tier_whole (text : string) : option pyval := json_loads (strip text).

Definition tier_braces (text : string) : option pyval :=
  match search_braces text with
  | Some g => json_loads g
  | None => None
  end.

Definition _extract_json (text : string) : pyval :=
  match tier_fenced text with
  | Some v => v
  | None =>
      match tier_whole text with
      | Some v => v
      | None =>
          match tier_braces text with
          | Some v => v
          | None => VNone
          end
      end
  end.

(** *** The third tier as the specification words it *)

(** The text from an opening brace (already read, [depth] braces open) to
    the closing brace that balances it. *)
Fixpoint balanced_from (depth : nat) (s : string) : option string :=
  match s with
  | EmptyString => None
  | String c r =>
      if Ascii.eqb c "{"%char then
        match balanced_from (S depth) r with
        | Some g => Some (String c g)
        | None => None
        end
      else if Ascii.eqb c "}"%char then
        match depth with
        | O => Some (String c EmptyString)
        | S d =>
            match balanced_from d r with
            | Some g => Some (String c g)
            | None => None
            end
        end
      else
        match balanced_from depth r with
        | Some g => Some (String c g)
        | None => None
        end
  end.

(** The first brace-balanced substring of the text. *)
Fixpoint first_balanced (s : string) : option string :=
  match s with
  | EmptyString => None
  | String c r =>
      if Ascii.eqb c "{"%char then
        match balanced_from O r with
        | Some g => Some (String c g)
        | None => first_balanced r
        end
      else first_balanced r
  end.

Definition spec_tier_balanced (text : string) : option pyval :=
  match first_balanced text with
  | Some g => json_loads g
  | None => None
  end.

(** The extraction with its third tier replaced by the specification's. *)
Definition spec_extract_json (text : string) : pyval :=
  match tier_fenced text with
  | Some v => v
  | None =>
      match tier_whole text with
      | Some v => v
      | None =>
          match spec_tier_balanced text with
          | Some v => v
          | None => VNone
          end
      end
  end.

(** ** Records of the program *)

Definition datetime : Type := Z.
Definition kwargs : Type := list (string * pyval).

(** tools/base.py *)
Module ToolResult.
Record t : Type := mk {
  success : bool;
  data : pyval;
  error : option string
}.
End ToolResult.

(** services/ticker_extractor.py *)
Module TickerExtractionResult.
Record t : Type := mk {
  ticker : option string;
  company_name : option string;
  confidence : string;
  method : string
}.
End TickerExtractionResult.

(** tools/news_retriever.py *)
Module NewsArticleSchema.
Record t : Type := mk {
  title : string;
  description : option string;
  url : string;
  source : string;
  author : option string;
  published_at : string;
  content : option string;
  image_url : option string
}.
End NewsArticleSchema.

Module NewsRetrieverResult.
Record t : Type := mk {
  query : string;
  ticker : string;
  total_results : Z;
  articles : list NewsArticleSchema.t;
  articles_saved : Z;
  from_date : string;
  to_date : string
}.
End NewsRetrieverResult.

(** agent/react.py *)
Module ReActStep.
Record t : Type := mk {
  step_number : Z;
  thought : pyval;
  action : pyval;
  action_input : pyval;
  observation : option string;
  error : option string
}.
End ReActStep.

Module ReActResult.
Record t : Type := mk {
  success : bool;
  steps : list ReActStep.t;
  final_answer : option pyval;
  tools_used : list string;
  sources : list pyval;
  error : option string
}.
End ReActResult.

(** agent/reflection.py; the dataclass does not check its field types,
    so the fields read from the parsed map stay dynamic. *)
Module ReflectionResult.
Record t : Type := mk {
  quality_score : float;
  is_acceptable : pyval;
  improvements : list pyval;
  refined_summary : pyval
}.
End ReflectionResult.

(** schemas/responses.py *)
Module AnalysisReport.
Record t : Type := mk {
  company_ticker : string;
  analysis_summary : string;
  sentiment_score : float;
  key_findings : list string;
  tools_used : list string;
  citation_sources : list string;
  generated_at : datetime
}.
End AnalysisReport.

Inductive AlertType : Type := PROACTIVE_ALERT | USER_REQUESTED.

(** database/models.py: a row of the [alerts] table. *)
Module Alert.
Record t : Type := mk {
  id : string;
  alert_type : AlertType;
  ticker : string;
  triggered_at : datetime;
  report : AnalysisReport.t
}.
End Alert.

(** database/models.py: a row of the [monitors] table; the JSON column of
    seen hashes is nullable. *)
Module Monitor.
Record t : Type := mk {
  ticker : string;
  interval_hours : float;
  last_run : option datetime;
  next_run : option datetime;
  seen_article_hashes : option (list string);
  is_active : bool;
  created_at : datetime
}.
End Monitor.

(** storage/monitor_state.py *)
Module MonitorState.
Record t : Type := mk {
  ticker : string;
  interval_hours : float;
  last_run : option datetime;
  next_run : option datetime;
  seen_article_hashes : gset string;
  is_active : bool
}.
End MonitorState.

(** The JSON schema a tool declares for its parameters. *)
Module ParametersSchema.
Record t : Type := mk {
  properties : list (string * option string);
  required : list string
}.
End ParametersSchema.

(** ** What lies outside the program

    The model call, the services behind the tools, the clock, and the
    builtins of which only the result type matters here. *)
Class Env : Type := {
  World : Type;
  (** services/llm.py: [generate_content(prompt, model, temperature)] *)
  generate_content :
    string -> option string -> option float -> World -> outcome string * World;
  (** the body of the [try] of [TickerExtractorTool.execute] *)
  extract_ticker : pyval -> World -> outcome TickerExtractionResult.t * World;
  (** the body of [NewsRetrieverTool.execute] on its bound arguments
      (query, ticker, days_back, max_articles): an error text or the
      validated result *)
  news_retriever_body :
    pyval -> pyval -> pyval -> pyval -> World ->
    outcome (string + NewsRetrieverResult.t) * World;
  sentiment_analyzer_execute : kwargs -> World -> outcome ToolResult.t * World;
  findata_fetcher_execute : kwargs -> World -> outcome ToolResult.t * World;
  tool_descriptions : string -> string;
  tool_parameters : string -> ParametersSchema.t;
  (** [repr(v)] *)
  py_repr : pyval -> string;
  (** [json.dumps(v, indent=2)] *)
  json_dumps : pyval -> string;
  (** [float(s)] on a [str]; [None] is a [ValueError] *)
  float_of_str : string -> option float;
  (** [hashlib.md5(s.encode()).hexdigest()] *)
  md5_hexdigest : string -> string;
  (** [s.upper()] *)
  str_upper : string -> string;
  (** [datetime.utcnow()] *)
  utcnow : World -> datetime * World;
  (** [t + timedelta(hours=h)], for the validated intervals *)
  add_hours : datetime -> float -> datetime;
  (** [str(uuid.uuid4())] *)
  uuid4 : World -> string * World;
  SYSTEM_PROMPT : string;
  (** [REACT_PROMPT_TEMPLATE.format(ticker, company_name, query,
      tools_description, history)] *)
  REACT_PROMPT_TEMPLATE_format :
    string -> string -> string -> string -> string -> string;
  (** [REFLECTION_PROMPT.format(ticker, analysis_summary, sentiment_score,
      key_findings, tools_used, sources_count)] *)
  REFLECTION_PROMPT_format :
    string -> string -> string -> string -> string -> string -> string;
  (** config.py *)
  gemini_react_model : string;
  monitor_min_articles : Z
}.

Section Program.
Context {E : Env}.

(** [str(v)] *)
Definition py_str (v : pyval) : string :=
  match v with
  | VStr s => s
  | _ => py_repr v
  end.

(** [o or d] for an optional text. *)
Definition or_default (o : option string) (d : string) : string :=
  match o with
  | Some s => if is_empty s then d else s
  | None => d
  end.

Definition str_opt (o : option string) : string :=
  match o with
  | Some s => s
  | None => "None"
  end.

(** [float(v)] *)
Definition py_float (v : pyval) : outcome float :=
  match v with
  | VFloat f => Ret f
  | VInt z => float_of_int z
  | VBool b => Ret (if b then 1%float else 0%float)
  | VStr s =>
      match float_of_str s with
      | Some f => Ret f
      | None =>
          Raise (Exn "ValueError" ("could not convert string to float: " +:+ py_repr v))
      end
  | _ =>
      Raise (Exn "TypeError"
               ("float() argument must be a string or a real number, not '"
                +:+ type_name v +:+ "'"))
  end.

(** ** tools/base.py, tools/registry.py *)

Record BaseTool : Type := {
  name : string;
  description : string;
  execute : kwargs -> World -> outcome ToolResult.t * World;
  _get_parameters_schema : ParametersSchema.t
}.

(** The registry's [_tools]: a dict in insertion order. *)
Record ToolRegistry : Type := { _tools : list (string * BaseTool) }.

Fixpoint tools_lookup (l : list (string * BaseTool)) (k : string) : option BaseTool :=
  match l with
  | [] => None
  | (k', v) :: l' => if String.eqb k' k then Some v else tools_lookup l' k
  end.

Fixpoint tools_set (l : list (string * BaseTool)) (k : string) (v : BaseTool)
  : list (string * BaseTool) :=
  match l with
  | [] => [(k, v)]
  | (k', v') :: l' =>
      if String.eqb k' k then (k', v) :: l' else (k', v') :: tools_set l' k v
  end.

Definition register (self : ToolRegistry) (tool : BaseTool) : ToolRegistry :=
  {| _tools := tools_set (_tools self) (name tool) tool |}.

Definition unregister (self : ToolRegistry) (nm : string) : ToolRegistry * bool :=
  match tools_lookup (_tools self) nm with
  | Some _ =>
      ({| _tools := filter (fun kv => negb (String.eqb (fst kv) nm)) (_tools self) |},
       true)
  | None => (self, false)
  end.

Definition get (self : ToolRegistry) (nm : string) : option BaseTool :=
  tools_lookup (_tools self) nm.

Definition list_tools (self : ToolRegistry) : list string :=
  map fst (_tools self).

Definition describe_tool (tool : BaseTool) : string :=
  let params := _get_parameters_schema tool in
  let param_desc :=
    map (fun p : string * option string =>
           "    - " +:+ fst p +:+ " "
           +:+ (if existsb (String.eqb (fst p)) (ParametersSchema.required params)
               then "(required)" else "(optional)")
           +:+ ": "
           +:+ (match snd p with Some d => d | None => "No description" end))
        (ParametersSchema.properties params) in
  "- " +:+ name tool +:+ ": " +:+ description tool
  +:+ String "010" "  Parameters:" +:+ String "010" (join (String "010" "") param_desc).

Definition get_tools_description (self : ToolRegistry) : string :=
  join (String "010" (String "010" "")) (map (fun kv => describe_tool (snd kv)) (_tools self)).

(** [name in registry]: a list or a map cannot be hashed. *)
Definition registry_contains (self : ToolRegistry) (nm : pyval) : outcome bool :=
  match nm with
  | VStr s => Ret (match get self s with Some _ => true | None => false end)
  | VList _ | VDict _ =>
      Raise (Exn "TypeError" ("unhashable type: '" +:+ type_name nm +:+ "'"))
  | _ => Ret false
  end.

Definition bind_error (fn msg : string) : exn :=
  Exn "TypeError" (fn +:+ "() " +:+ msg).

(** The first key of an unpacked parameter map that names a parameter
    which [execute(self, tool_name, **kwargs)] has bound already. Python
    binds the keywords in the order of the map and raises at the first
    such key. *)
Definition rebound (kw : kwargs) : option string :=
  List.find (fun k => String.eqb k "self" || String.eqb k "tool_name") (map fst kw).

(** [ToolRegistry.execute], called as [registry.execute(tool_name, **kw)].
    The arguments are bound before the body runs, so a fault of the
    binding is raised to the caller: the [try] of the body does not cover
    it. *)
Definition registry_execute (self : ToolRegistry) (tool_name : string) (kw : kwargs)
  (w : World) : outcome ToolResult.t * World :=
  match rebound kw with
  | Some k =>
      (Raise (bind_error "ToolRegistry.execute"
                ("got multiple values for argument '" +:+ k +:+ "'")), w)
  | None =>
      match get self tool_name with
      | None =>
          (Ret (ToolResult.mk false VNone
                  (Some ("Tool '" +:+ tool_name +:+ "' not found. Available tools: "
                         +:+ join ", " (list_tools self)))), w)
      | Some tool =>
          match execute tool kw w with
          | (Ret result, w') => (Ret result, w')
          | (Raise e, w') =>
              (Ret (ToolResult.mk false VNone
                      (Some ("Tool execution failed: " +:+ exn_msg e))), w')
          end
      end
  end.

(** A call that unpacks a map into keyword arguments of a function taking
    no variadic keywords: every key must name a parameter. *)
Definition unexpected_keyword (allowed : list string) (kw : kwargs) : option string :=
  match filter (fun kv => negb (existsb (String.eqb (fst kv)) allowed)) kw with
  | [] => None
  | kv :: _ => Some (fst kv)
  end.

(** tools/ticker_extractor.py *)
Definition ticker_extractor_execute (kw : kwargs) (w : World)
  : outcome ToolResult.t * World :=
  match unexpected_keyword ["text"] kw with
  | Some k =>
      (Raise (bind_error "TickerExtractorTool.execute"
                ("got an unexpected keyword argument '" +:+ k +:+ "'")), w)
  | None =>
      match dict_lookup kw "text" with
      | None =>
          (Raise (bind_error "TickerExtractorTool.execute"
                    "missing 1 required positional argument: 'text'"), w)
      | Some text =>
          match extract_ticker text w with
          | (Ret result, w') =>
              (Ret (ToolResult.mk true
                      (VDict
                         [("ticker",
                           match TickerExtractionResult.ticker result with
                           | Some s => VStr s | None => VNone end);
                          ("company_name",
                           match TickerExtractionResult.company_name result with
                           | Some s => VStr s | None => VNone end);
                          ("confidence", VStr (TickerExtractionResult.confidence result));
                          ("method", VStr (TickerExtractionResult.method result))])
                      None), w')
          | (Raise e, w') =>
              (Ret (ToolResult.mk false VNone
                      (Some ("Failed to extract ticker: " +:+ exn_msg e))), w')
          end
      end
  end.

Definition ticker_extractor_tool : BaseTool :=
  {| name := "ticker_extractor";
     description := tool_descriptions "ticker_extractor";
     execute := ticker_extractor_execute;
     _get_parameters_schema := tool_parameters "ticker_extractor" |}.

(** tools/news_retriever.py *)
Definition opt_str (o : option string) : pyval :=
  match o with
  | Some s => VStr s
  | None => VNone
  end.

Definition article_dump (a : NewsArticleSchema.t) : pyval :=
  VDict [("title", VStr (NewsArticleSchema.title a));
         ("description", opt_str (NewsArticleSchema.description a));
         ("url", VStr (NewsArticleSchema.url a));
         ("source", VStr (NewsArticleSchema.source a));
         ("author", opt_str (NewsArticleSchema.author a));
         ("published_at", VStr (NewsArticleSchema.published_at a));
         ("content", opt_str (NewsArticleSchema.content a));
         ("image_url", opt_str (NewsArticleSchema.image_url a))].

(** [result.model_dump()] *)
Definition model_dump (r : NewsRetrieverResult.t) : pyval :=
  VDict [("query", VStr (NewsRetrieverResult.query r));
         ("ticker", VStr (NewsRetrieverResult.ticker r));
         ("total_results", VInt (NewsRetrieverResult.total_results r));
         ("articles", VList (map article_dump (NewsRetrieverResult.articles r)));
         ("articles_saved", VInt (NewsRetrieverResult.articles_saved r));
         ("from_date", VStr (NewsRetrieverResult.from_date r));
         ("to_date", VStr (NewsRetrieverResult.to_date r))].

Definition kw_or_none (kw : kwargs) (k : string) : pyval :=
  match dict_lookup kw k with
  | Some v => v
  | None => VNone
  end.

(** The method on bound arguments. *)
Definition news_retriever_call (query ticker days_back max_articles : pyval)
  (w : World) : outcome ToolResult.t * World :=
  match news_retriever_body query ticker days_back max_articles w with
  | (Ret (inl err), w') => (Ret (ToolResult.mk false VNone (Some err)), w')
  | (Ret (inr result), w') => (Ret (ToolResult.mk true (model_dump result) None), w')
  | (Raise e, w') => (Raise e, w')
  end.

Definition news_retriever_execute (kw : kwargs) (w : World)
  : outcome ToolResult.t * World :=
  match unexpected_keyword ["query"; "ticker"; "days_back"; "max_articles"] kw with
  | Some k =>
      (Raise (bind_error "NewsRetrieverTool.execute"
                ("got an unexpected keyword argument '" +:+ k +:+ "'")), w)
  | None =>
      match dict_lookup kw "query" with
      | None =>
          (Raise (bind_error "NewsRetrieverTool.execute"
                    "missing 1 required positional argument: 'query'"), w)
      | Some query =>
          news_retriever_call query (kw_or_none kw "ticker")
            (kw_or_none kw "days_back") (kw_or_none kw "max_articles") w
      end
  end.

Definition news_retriever_tool : BaseTool :=
  {| name := "news_retriever";
     description := tool_descriptions "news_retriever";
     execute := news_retriever_execute;
     _get_parameters_schema := tool_parameters "news_retriever" |}.

Definition sentiment_analyzer_tool : BaseTool :=
  {| name := "sentiment_analyzer";
     description := tool_descriptions "sentiment_analyzer";
     execute := sentiment_analyzer_execute;
     _get_parameters_schema := tool_parameters "sentiment_analyzer" |}.

Definition findata_fetcher_tool : BaseTool :=
  {| name := "findata_fetcher";
     description := tool_descriptions "findata_fetcher";
     execute := findata_fetcher_execute;
     _get_parameters_schema := tool_parameters "findata_fetcher" |}.

(** [register_all_tools()] on the global registry. *)
Definition register_all_tools (tool_registry : ToolRegistry) : ToolRegistry :=
  register
    (register
       (register (register tool_registry ticker_extractor_tool) news_retriever_tool)
       sentiment_analyzer_tool)
    findata_fetcher_tool.

End Program.

(** ** agent/react.py *)

(** What a run did outside the process, in order: a ghost record kept
    next to the result, which the program itself does not build. *)
Inductive event : Type :=
| EvModel (prompt : string) (reply : outcome string)
| EvTool (action : string) (action_input : pyval) (result : outcome ToolResult.t)
| EvLoop (result : outcome ReActResult.t)
| EvReflection (verdict : ReflectionResult.t).

(** How one pass through the body of the [for] loop ends. *)
Inductive flow : Type :=
| Continue (steps : list ReActStep.t) (tools_used : list string) (sources : list pyval)
| Return (r : ReActResult.t)
| Fault (e : exn).

(** [list(set(l))]: the distinct elements, in an order of the set's own. *)
Definition list_set (l : list string) : list string :=
  elements (list_to_set l : gset string).

Definition newline : string := String "010" EmptyString.

(** The first [n] code points of a text. *)
Fixpoint take_chars (n : nat) (s : string) : string :=
  match s with
  | EmptyString => EmptyString
  | String c r =>
      if (128 <=? code c) && (code c <? 192) then String c (take_chars n r)
      else
        match n with
        | O => EmptyString
        | S n' => String c (take_chars n' r)
        end
  end.

(** [len(s)] in code points. *)
Fixpoint char_count (s : string) : Z :=
  match s with
  | EmptyString => 0
  | String c r =>
      (if (128 <=? code c) && (code c <? 192) then 0 else 1) + char_count r
  end.

Section Agent.
Context {E : Env}.

Definition format_step (step : ReActStep.t) : string :=
  let parts :=
    ["Step " +:+ pretty (ReActStep.step_number step) +:+ ":";
     "  Thought: " +:+ py_str (ReActStep.thought step);
     "  Action: " +:+ py_str (ReActStep.action step);
     "  Action Input: " +:+ json_dumps (ReActStep.action_input step)]
    ++ (match ReActStep.observation step with
        | Some obs =>
            if is_empty obs then []
            else
              ["  Observation: "
               +:+ (if 2000 <? char_count obs
                   then take_chars 2000 obs +:+ "... [truncated]" else obs)]
        | None => []
        end)
    ++ (match ReActStep.error step with
        | Some err => if is_empty err then [] else ["  Error: " +:+ err]
        | None => []
        end) in
  join newline parts.

Definition _format_history (steps : list ReActStep.t) : string :=
  match steps with
  | [] => "No previous steps yet."
  | _ => join (newline +:+ newline) (map format_step steps)
  end.

Definition _format_observation (result_data : pyval) : string :=
  match result_data with
  | VDict _ => json_dumps result_data
  | _ => py_str result_data
  end.

(** The [except Exception] of the tool call: the fault goes on the step. *)
Definition step_failed (step : ReActStep.t) (e : exn) : ReActStep.t :=
  ReActStep.mk (ReActStep.step_number step) (ReActStep.thought step)
    (ReActStep.action step) (ReActStep.action_input step)
    (Some ("Tool execution failed: " +:+ exn_msg e)) (Some (exn_msg e)).

Definition step_observed (step : ReActStep.t) (obs : string) : ReActStep.t :=
  ReActStep.mk (ReActStep.step_number step) (ReActStep.thought step)
    (ReActStep.action step) (ReActStep.action_input step)
    (Some obs) (ReActStep.error step).

(** The identifier under which a successful call is recorded. *)
Definition usage_id (action : string) (result_data : pyval) : outcome string :=
  if String.eqb action "ticker_extractor" && truthy result_data then
    method ← py_get result_data "method" (VStr "unknown");
    Ret ("ticker_extractor:" +:+ py_str method)
  else Ret action.

(** The loop over the articles: each truthy [url] is appended; a fault
    leaves what was appended before it. *)
Fixpoint collect_urls (articles : list pyval) (sources : list pyval)
  : list pyval * option exn :=
  match articles with
  | [] => (sources, None)
  | article :: rest =>
      match py_get article "url" VNone with
      | Raise e => (sources, Some e)
      | Ret url => collect_urls rest (if truthy url then sources ++ [url] else sources)
      end
  end.

(** The branch [if result.success] inside the [try]. *)
Definition on_tool_success (action : string) (result : ToolResult.t)
  (step : ReActStep.t) (tools_used : list string) (sources : list pyval)
  : ReActStep.t * list string * list pyval :=
  let result_data := ToolResult.data result in
  let step1 := step_observed step (_format_observation result_data) in
  match usage_id action result_data with
  | Raise e => (step_failed step1 e, tools_used, sources)
  | Ret used =>
      let tools_used1 := tools_used ++ [used] in
      if String.eqb action "news_retriever" && truthy result_data then
        match py_get result_data "articles" (VList []) with
        | Raise e => (step_failed step1 e, tools_used1, sources)
        | Ret articles =>
            match py_iter articles with
            | Raise e => (step_failed step1 e, tools_used1, sources)
            | Ret items =>
                match collect_urls items sources with
                | (sources1, None) => (step1, tools_used1, sources1)
                | (sources1, Some e) => (step_failed step1 e, tools_used1, sources1)
                end
            end
        end
      else (step1, tools_used1, sources)
  end.

(** [registry.execute(action, **action_input)] as the loop calls it: what
    is unpacked must be a map. The fault of unpacking names the callee
    with its module. *)
Definition call_tool (registry : ToolRegistry) (action : string)
  (action_input : pyval) (w : World) : outcome ToolResult.t * World :=
  match action_input with
  | VDict kw => registry_execute registry action kw w
  | _ =>
      (Raise (bind_error "app.tools.registry.ToolRegistry.execute"
                ("argument after ** must be a mapping, not " +:+ type_name action_input)),
       w)
  end.

(** The steps of the body after a known tool was named. *)
Definition run_tool (registry : ToolRegistry) (action : string) (step : ReActStep.t)
  (steps : list ReActStep.t) (tools_used : list string) (sources : list pyval)
  (w : World) : flow * World * list event :=
  match call_tool registry action (ReActStep.action_input step) w with
  | (Raise e, w') =>
      (Continue (steps ++ [step_failed step e]) tools_used sources, w',
       [EvTool action (ReActStep.action_input step) (Raise e)])
  | (Ret result, w') =>
      let ev := EvTool action (ReActStep.action_input step) (Ret result) in
      if ToolResult.success result then
        let '(step1, tools_used1, sources1) :=
          on_tool_success action result step tools_used sources in
        (Continue (steps ++ [step1]) tools_used1 sources1, w', [ev])
      else
        (Continue
           (steps ++
            [ReActStep.mk (ReActStep.step_number step) (ReActStep.thought step)
               (ReActStep.action step) (ReActStep.action_input step)
               (Some ("Tool error: " +:+ str_opt (ToolResult.error result)))
               (ToolResult.error result)])
           tools_used sources, w', [ev])
  end.

(** Reading [thought], [action], [action_input] off the parsed value. *)
Definition read_step (step_num : Z) (parsed : pyval) : outcome ReActStep.t :=
  thought ← py_get parsed "thought" (VStr "");
  action ← py_get parsed "action" (VStr "");
  action_input ← py_get parsed "action_input" (VDict []);
  Ret (ReActStep.mk step_num thought action action_input None None).

Definition unknown_tool (registry : ToolRegistry) (step : ReActStep.t) : ReActStep.t :=
  let msg :=
    "Unknown tool: " +:+ py_str (ReActStep.action step) +:+ ". Available tools: "
    +:+ py_repr (VList (map VStr (list_tools registry))) in
  ReActStep.mk (ReActStep.step_number step) (ReActStep.thought step)
    (ReActStep.action step) (ReActStep.action_input step) (Some msg) (Some msg).

(** The prompt of an iteration. *)
Definition react_prompt (registry : ToolRegistry) (ticker company query : string)
  (steps : list ReActStep.t) : string :=
  let react_section :=
    REACT_PROMPT_TEMPLATE_format ticker company query
      (get_tools_description registry) (_format_history steps) in
  SYSTEM_PROMPT +:+ newline +:+ newline +:+ react_section.

(** One pass through the body of [for step_num in range(1, max_steps + 1)]. *)
Definition loop_body (registry : ToolRegistry) (ticker company query : string)
  (step_num : Z) (steps : list ReActStep.t) (tools_used : list string)
  (sources : list pyval) (w : World) : flow * World * list event :=
  let prompt := react_prompt registry ticker company query steps in
  match generate_content prompt (Some gemini_react_model) (Some 0.3%float) w with
  | (Raise e, w1) =>
      (Return (ReActResult.mk false steps None tools_used sources
                 (Some ("LLM call failed: " +:+ exn_msg e))),
       w1, [EvModel prompt (Raise e)])
  | (Ret response, w1) =>
      let ev := EvModel prompt (Ret response) in
      let parsed := _extract_json response in
      if negb (truthy parsed) then (Continue steps tools_used sources, w1, [ev])
      else
        match read_step step_num parsed with
        | Raise e => (Fault e, w1, [ev])
        | Ret step =>
            if py_eq_str (ReActStep.action step) "final_answer" then
              (Return (ReActResult.mk true (steps ++ [step])
                         (Some (ReActStep.action_input step))
                         (list_set tools_used) sources None),
               w1, [ev])
            else
              match registry_contains registry (ReActStep.action step),
                    ReActStep.action step with
              | Raise e, _ => (Fault e, w1, [ev])
              | Ret true, VStr action =>
                  let '(fl, w2, evs) :=
                    run_tool registry action step steps tools_used sources w1 in
                  (fl, w2, ev :: evs)
              | Ret _, _ =>
                  (Continue (steps ++ [unknown_tool registry step]) tools_used sources,
                   w1, [ev])
              end
        end
  end.

Fixpoint react_loop (registry : ToolRegistry) (ticker company query : string)
  (max_steps : Z) (step_nums : list Z) (steps : list ReActStep.t)
  (tools_used : list string) (sources : list pyval) (w : World)
  : outcome ReActResult.t * World * list event :=
  match step_nums with
  | [] =>
      (Ret (ReActResult.mk false steps None (list_set tools_used) sources
              (Some ("Analysis incomplete after " +:+ pretty max_steps +:+ " steps"))),
       w, [])
  | step_num :: rest =>
      match loop_body registry ticker company query step_num steps tools_used sources w with
      | (Continue steps1 tools_used1 sources1, w1, evs) =>
          let '(r, w2, evs') :=
            react_loop registry ticker company query max_steps rest
              steps1 tools_used1 sources1 w1 in
          (r, w2, evs ++ evs')
      | (Return r, w1, evs) => (Ret r, w1, evs)
      | (Fault e, w1, evs) => (Raise e, w1, evs)
      end
  end.

(** [tool_registry] is the global registry as the call finds it;
    [register_all_tools] puts the four tools in it before the loop. *)
Definition run_react_loop (tool_registry : ToolRegistry) (ticker query : string)
  (company_name : option string) (max_steps : Z) (w : World)
  : outcome ReActResult.t * World * list event :=
  let registry := register_all_tools tool_registry in
  let company := or_default company_name ticker in
  react_loop registry ticker company query max_steps
    (py_range 1 (max_steps + 1)) [] [] [] w.

End Agent.

(** ** agent/reflection.py *)

Section Reflection.
Context {E : Env}.

(** The verdict returned when the evaluation did not complete. *)
Definition default_reflection : ReflectionResult.t :=
  ReflectionResult.mk 0.5%float (VBool true)
    [VStr "Reflection assessment could not be completed"] VNone.

(** The branch [if parsed] of the [try]. *)
Definition read_reflection (min_quality_score : float) (parsed : pyval)
  : outcome ReflectionResult.t :=
  raw ← py_get parsed "quality_score" (VFloat 0.5%float);
  quality_score ← py_float raw;
  is_acceptable ←
    py_get parsed "is_acceptable"
      (VBool (PrimFloat.leb min_quality_score quality_score));
  improvements ← py_get parsed "improvements" (VList []);
  refined_summary ← py_get parsed "refined_summary" VNone;
  Ret (ReflectionResult.mk quality_score is_acceptable
         (match improvements with VList l => l | _ => [] end)
         refined_summary).

(** The evaluation prompt. *)
Definition reflection_prompt (ticker : string) (analysis_summary : pyval)
  (sentiment_score : float) (key_findings tools_used : list string)
  (sources_count : Z) : string :=
  let findings_str := join newline (map (fun f => "- " +:+ f) key_findings) in
  let tools_str :=
    match tools_used with
    | [] => "None"
    | _ => join ", " tools_used
    end in
  REFLECTION_PROMPT_format ticker (py_str analysis_summary)
    (py_repr (VFloat sentiment_score)) findings_str tools_str
    (pretty sources_count).

Definition reflect_on_analysis (ticker : string) (analysis_summary : pyval)
  (sentiment_score : float) (key_findings tools_used : list string)
  (sources_count : Z) (min_quality_score : float) (w : World)
  : ReflectionResult.t * World :=
  let prompt :=
    reflection_prompt ticker analysis_summary sentiment_score key_findings
      tools_used sources_count in
  match generate_content prompt None (Some 0.2%float) w with
  | (Raise _, w') => (default_reflection, w')
  | (Ret response, w') =>
      let parsed := _extract_json response in
      if truthy parsed then
        match read_reflection min_quality_score parsed with
        | Ret verdict => (verdict, w')
        | Raise _ => (default_reflection, w')
        end
      else (default_reflection, w')
  end.

End Reflection.

(** ** agent/orchestrator.py *)

Section Orchestrator.
Context {E : Env}.

Definition placeholder_finding : string :=
  "Analysis completed but no specific findings extracted".

(** Reading and sanitising the fields of the final answer. *)
Definition sanitize (final : pyval) : outcome (pyval * float * list string) :=
  analysis_summary ← py_get final "analysis_summary" (VStr "");
  raw ← py_get final "sentiment_score" (VFloat 0%float);
  sentiment_score ← py_float raw;
  key_findings ← py_get final "key_findings" (VList []);
  let sentiment_score := py_max (-1)%float (py_min 1%float sentiment_score) in
  let key_findings :=
    match key_findings with
    | VList l => l
    | _ => [VStr (py_str key_findings)]
    end in
  Ret (analysis_summary, sentiment_score, map py_str (take 5 key_findings)).

Fixpoint all_str (l : list pyval) : option (list string) :=
  match l with
  | [] => Some []
  | VStr s :: r =>
      match all_str r with
      | Some r' => Some (s :: r')
      | None => None
      end
  | _ :: _ => None
  end.

(** The constructor of the pydantic model, with its validation. *)
Definition new_AnalysisReport (company_ticker : string) (analysis_summary : pyval)
  (sentiment_score : float) (key_findings tools_used : list string)
  (citation_sources : list pyval) (generated_at : datetime)
  : outcome AnalysisReport.t :=
  match analysis_summary, all_str citation_sources with
  | VStr summary, Some cited =>
      if PrimFloat.leb (-1)%float sentiment_score
         && PrimFloat.leb sentiment_score 1%float
         && (1 <=? Z.of_nat (length key_findings))
         && (Z.of_nat (length key_findings) <=? 5)
      then Ret (AnalysisReport.mk company_ticker summary sentiment_score
                  key_findings tools_used cited generated_at)
      else Raise (Exn "ValidationError" "validation error for AnalysisReport")
  | _, _ => Raise (Exn "ValidationError" "validation error for AnalysisReport")
  end.

Definition build_report (ticker : string) (analysis_summary : pyval)
  (sentiment_score : float) (key_findings : list string)
  (react_result : ReActResult.t) (w : World) : outcome AnalysisReport.t * World :=
  let '(now, w') := utcnow w in
  (new_AnalysisReport ticker analysis_summary sentiment_score
     (match key_findings with [] => [placeholder_finding] | _ => key_findings end)
     (ReActResult.tools_used react_result) (ReActResult.sources react_result) now,
   w').

Definition falsy_opt (o : option pyval) : bool :=
  match o with
  | Some v => negb (truthy v)
  | None => true
  end.

Definition with_events {A : Type} (evs : list event) (r : A * World * list event)
  : A * World * list event :=
  let '(a, w, evs') := r in (a, w, evs ++ evs').

(** The body of [for attempt in range(max_retries + 1)], and what follows
    the loop when no attempt returned. *)
Fixpoint attempts_loop (tool_registry : ToolRegistry) (query ticker : string)
  (company_name : option string) (max_steps : Z) (enable_reflection : bool)
  (max_retries : Z) (attempts : list Z) (last_error : option string) (w : World)
  : outcome AnalysisReport.t * World * list event :=
  match attempts with
  | [] =>
      (Raise (Exn "ValueError"
                ("Analysis failed after " +:+ pretty (max_retries + 1)
                 +:+ " attempts: " +:+ str_opt last_error)), w, [])
  | attempt :: rest =>
      let again := attempts_loop tool_registry query ticker company_name max_steps
                     enable_reflection max_retries rest in
      let '(res, w1, evs) := run_react_loop tool_registry ticker query company_name max_steps w in
      with_events (evs ++ [EvLoop res])
        match res with
        | Raise e => (Raise e, w1, [])
        | Ret react_result =>
            if negb (ReActResult.success react_result) then
              again (Some (or_default (ReActResult.error react_result) "ReAct loop failed")) w1
            else if falsy_opt (ReActResult.final_answer react_result) then
              again (Some "No final answer generated") w1
            else
              let final :=
                match ReActResult.final_answer react_result with
                | Some v => v
                | None => VNone
                end in
              match sanitize final with
              | Raise e => (Raise e, w1, [])
              | Ret (analysis_summary, sentiment_score, key_findings) =>
                  if enable_reflection then
                    let '(reflection, w2) :=
                      reflect_on_analysis ticker analysis_summary sentiment_score
                        key_findings (ReActResult.tools_used react_result)
                        (Z.of_nat (length (ReActResult.sources react_result)))
                        0.7%float w1 in
                    let acceptable := truthy (ReflectionResult.is_acceptable reflection) in
                    let analysis_summary1 :=
                      if truthy (ReflectionResult.refined_summary reflection) && acceptable
                      then ReflectionResult.refined_summary reflection
                      else analysis_summary in
                    with_events [EvReflection reflection]
                      (if negb acceptable && (attempt <? max_retries) then
                         again
                           (Some ("Quality score too low: "
                                  +:+ py_repr (VFloat (ReflectionResult.quality_score reflection))))
                           w2
                       else
                         let '(r, w3) :=
                           build_report ticker analysis_summary1 sentiment_score
                             key_findings react_result w2 in
                         (r, w3, []))
                  else
                    let '(r, w2) :=
                      build_report ticker analysis_summary sentiment_score
                        key_findings react_result w1 in
                    (r, w2, [])
              end
        end
  end.

Definition run_agent (tool_registry : ToolRegistry) (query ticker : string)
  (company_name : option string) (max_steps : Z) (enable_reflection : bool)
  (max_retries : Z) (w : World) : outcome AnalysisReport.t * World * list event :=
  attempts_loop tool_registry query ticker company_name max_steps enable_reflection
    max_retries (py_range 0 (max_retries + 1)) None w.

Definition run_quick_analysis (tool_registry : ToolRegistry) (ticker : string)
  (company_name : option string) (w : World)
  : outcome AnalysisReport.t * World * list event :=
  run_agent tool_registry ("Provide a brief market update for " +:+ ticker)
    ticker company_name 6 false 0 w.

End Orchestrator.

(** ** storage/monitor_state.py, storage/alert_store.py

    The [monitors] table is a finite map from its primary key, the ticker,
    to the row. A failing database operation is outside the model. *)

Section Stores.
Context {E : Env}.

(** [monitor.seen_article_hashes or []] *)
Definition seen_or_empty (monitor : Monitor.t) : list string :=
  match Monitor.seen_article_hashes monitor with
  | Some l => l
  | None => []
  end.

Definition _to_monitor_state (monitor : Monitor.t) : MonitorState.t :=
  MonitorState.mk (Monitor.ticker monitor) (Monitor.interval_hours monitor)
    (Monitor.last_run monitor) (Monitor.next_run monitor)
    (list_to_set (seen_or_empty monitor)) (Monitor.is_active monitor).

Definition create_monitor (db : gmap string Monitor.t) (ticker : string)
  (interval_hours : float) (next_run : datetime) (w : World)
  : MonitorState.t * gmap string Monitor.t * World :=
  match db !! str_upper ticker with
  | Some monitor =>
      let monitor1 :=
        Monitor.mk (Monitor.ticker monitor) interval_hours (Monitor.last_run monitor)
          (Some next_run) (Monitor.seen_article_hashes monitor) true
          (Monitor.created_at monitor) in
      (_to_monitor_state monitor1, <[str_upper ticker := monitor1]> db, w)
  | None =>
      let '(now, w') := utcnow w in
      let monitor :=
        Monitor.mk (str_upper ticker) interval_hours None (Some next_run) (Some [])
          true now in
      (_to_monitor_state monitor, <[str_upper ticker := monitor]> db, w')
  end.

Definition get_monitor (db : gmap string Monitor.t) (ticker : string)
  : option MonitorState.t :=
  _to_monitor_state <$> db !! str_upper ticker.

Definition update_last_run (db : gmap string Monitor.t) (ticker : string)
  (last_run next_run : datetime) : option MonitorState.t * gmap string Monitor.t :=
  match db !! str_upper ticker with
  | Some monitor =>
      let monitor1 :=
        Monitor.mk (Monitor.ticker monitor) (Monitor.interval_hours monitor)
          (Some last_run) (Some next_run) (Monitor.seen_article_hashes monitor)
          (Monitor.is_active monitor) (Monitor.created_at monitor) in
      (Some (_to_monitor_state monitor1), <[str_upper ticker := monitor1]> db)
  | None => (None, db)
  end.

(** [list(existing)] lists the set in an order Python does not fix. The
    model stores the listing [elements] gives; the order carries no
    meaning, since every reader takes the column back as a set
    ([_to_monitor_state]), and the properties below speak of that set. *)
Definition add_seen_articles (db : gmap string Monitor.t) (ticker : string)
  (article_hashes : gset string) : gmap string Monitor.t :=
  match db !! str_upper ticker with
  | Some monitor =>
      let existing : gset string := list_to_set (seen_or_empty monitor) in
      let existing1 := existing ∪ article_hashes in
      <[str_upper ticker :=
          Monitor.mk (Monitor.ticker monitor) (Monitor.interval_hours monitor)
            (Monitor.last_run monitor) (Monitor.next_run monitor)
            (Some (elements existing1)) (Monitor.is_active monitor)
            (Monitor.created_at monitor)]> db
  | None => db
  end.

Definition stop_monitor (db : gmap string Monitor.t) (ticker : string)
  : option MonitorState.t * gmap string Monitor.t :=
  match db !! str_upper ticker with
  | Some monitor =>
      let monitor1 :=
        Monitor.mk (Monitor.ticker monitor) (Monitor.interval_hours monitor)
          (Monitor.last_run monitor) None (Monitor.seen_article_hashes monitor)
          false (Monitor.created_at monitor) in
      (Some (_to_monitor_state monitor1), <[str_upper ticker := monitor1]> db)
  | None => (None, db)
  end.

Definition delete_monitor (db : gmap string Monitor.t) (ticker : string)
  : bool * gmap string Monitor.t :=
  match db !! str_upper ticker with
  | Some _ => (true, delete (str_upper ticker) db)
  | None => (false, db)
  end.

Definition list_active_monitors (db : gmap string Monitor.t) : list MonitorState.t :=
  map _to_monitor_state
    (filter (fun m => Monitor.is_active m = true) (map snd (map_to_list db))).

Definition list_all_monitors (db : gmap string Monitor.t) : list MonitorState.t :=
  map _to_monitor_state (map snd (map_to_list db)).

(** [alert_store.create_alert]: the identifier is the primary key. The
    value given back is the stored row; the code hands it to its caller
    through [_to_alert_data], after the commit. *)
Definition create_alert (alerts : list Alert.t) (alert_id ticker : string)
  (report : AnalysisReport.t) (alert_type : AlertType) (w : World)
  : outcome Alert.t * list Alert.t * World :=
  let '(now, w') := utcnow w in
  if existsb (fun a => String.eqb (Alert.id a) alert_id) alerts then
    (Raise (Exn "IntegrityError" "UNIQUE constraint failed: alerts.id"), alerts, w')
  else
    let alert := Alert.mk alert_id alert_type (str_upper ticker) now report in
    (Ret alert, alerts ++ [alert], w').

(** ** scheduler/tasks.py *)

Record Stores : Type := {
  monitors : gmap string Monitor.t;
  alerts : list Alert.t
}.

Definition _hash_article (title url : pyval) : string :=
  md5_hexdigest (py_str title +:+ ":" +:+ py_str url).

(** The loop that sorts the fetched articles into seen and new. *)
Fixpoint filter_new (articles : list pyval) (seen : gset string)
  (new_articles : list pyval) (new_hashes : gset string)
  : outcome (list pyval * gset string) :=
  match articles with
  | [] => Ret (new_articles, new_hashes)
  | article :: rest =>
      title ← py_get article "title" (VStr "");
      url ← py_get article "url" (VStr "");
      let article_hash := _hash_article title url in
      if decide (article_hash ∈ seen)
      then filter_new rest seen new_articles new_hashes
      else filter_new rest seen (new_articles ++ [article]) (new_hashes ∪ {[article_hash]})
  end.

(** Steps 4 and 5 of the task, with their own [try]. *)
Definition escalate (tool_registry : ToolRegistry) (ticker : string) (st : Stores)
  (w : World) : Stores * World :=
  match run_quick_analysis tool_registry ticker None w with
  | (Raise _, w1, _) => (st, w1)
  | (Ret report, w1, _) =>
      let '(alert_id, w2) := uuid4 w1 in
      let '(_, alerts1, w3) :=
        create_alert (alerts st) alert_id ticker report PROACTIVE_ALERT w2 in
      ({| monitors := monitors st; alerts := alerts1 |}, w3)
  end.

(** What the outer [try] does once the fetch has returned. *)
Definition process_news (tool_registry : ToolRegistry) (ticker : string)
  (monitor : MonitorState.t) (news_result : ToolResult.t) (st : Stores) (w : World)
  : Stores * World :=
  if negb (ToolResult.success news_result) then (st, w)
  else
    match py_get (ToolResult.data news_result) "articles" (VList []) with
    | Raise _ => (st, w)
    | Ret articles =>
        if negb (truthy articles) then (st, w)
        else
          match items ← py_iter articles;
                filter_new items (MonitorState.seen_article_hashes monitor) [] ∅ with
          | Raise _ => (st, w)
          | Ret (new_articles, new_hashes) =>
              let st1 :=
                if decide (new_hashes = ∅) then st
                else {| monitors := add_seen_articles (monitors st) ticker new_hashes;
                        alerts := alerts st |} in
              if Z.of_nat (length new_articles) <? monitor_min_articles
              then (st1, w)
              else escalate tool_registry ticker st1 w
          end
    end.

Definition monitoring_task (tool_registry : ToolRegistry) (ticker : string)
  (st : Stores) (w : World) : Stores * World :=
  match get_monitor (monitors st) ticker with
  | None => (st, w)
  | Some monitor =>
      if negb (MonitorState.is_active monitor) then (st, w)
      else
        let '(now, w1) := utcnow w in
        let next_run := add_hours now (MonitorState.interval_hours monitor) in
        let st1 :=
          {| monitors := snd (update_last_run (monitors st) ticker now next_run);
             alerts := alerts st |} in
        match news_retriever_call (VStr ticker) (VStr ticker) (VInt 1) (VInt 10) w1 with
        | (Raise _, w2) => (st1, w2)
        | (Ret news_result, w2) =>
            process_news tool_registry ticker monitor news_result st1 w2
        end
  end.

End Stores.

(** ** More of the registry (tools/registry.py) *)

Section RegistryMore.
Context {E : Env}.

(** [len(registry)] *)
Definition registry_len (self : ToolRegistry) : Z :=
  Z.of_nat (length (_tools self)).

End RegistryMore.

(** ** storage/alert_store.py: reading alerts *)

(** schemas/responses.py *)
Module AlertData.
Record t : Type := mk {
  alert_id : string;
  alert_type : AlertType;
  ticker : string;
  report : AnalysisReport.t;
  triggered_at : datetime
}.
End AlertData.

Section Alerts.
Context {E : Env}.

(** [_to_alert_data]: the report is rebuilt, and validated, from the
    report columns of the row; its [generated_at], which the table does
    not store, is the time of the conversion. *)
Definition _to_alert_data (alert : Alert.t) (w : World)
  : outcome AlertData.t * World :=
  let stored := Alert.report alert in
  let '(now, w') := utcnow w in
  (report ←
     new_AnalysisReport (AnalysisReport.company_ticker stored)
       (VStr (AnalysisReport.analysis_summary stored))
       (AnalysisReport.sentiment_score stored)
       (AnalysisReport.key_findings stored)
       (AnalysisReport.tools_used stored)
       (map VStr (AnalysisReport.citation_sources stored)) now;
   Ret (AlertData.mk (Alert.id alert) (Alert.alert_type alert) (Alert.ticker alert)
          report (Alert.triggered_at alert)), w').

(** [scalar_one_or_none] refuses more than one row. *)
Definition get_alert (alerts : list Alert.t) (alert_id : string) (w : World)
  : outcome (option AlertData.t) * World :=
  match List.filter (fun a => String.eqb (Alert.id a) alert_id) alerts with
  | [] => (Ret None, w)
  | [alert] =>
      let '(d, w') := _to_alert_data alert w in
      (x ← d; Ret (Some x), w')
  | _ :: _ :: _ =>
      (Raise (Exn "MultipleResultsFound"
                "Multiple rows were found when one or none was required"), w)
  end.

Definition delete_alert (alerts : list Alert.t) (alert_id : string)
  : outcome bool * list Alert.t :=
  match List.filter (fun a => String.eqb (Alert.id a) alert_id) alerts with
  | [] => (Ret false, alerts)
  | [_] =>
      (Ret true, List.filter (fun a => negb (String.eqb (Alert.id a) alert_id)) alerts)
  | _ :: _ :: _ =>
      (Raise (Exn "MultipleResultsFound"
                "Multiple rows were found when one or none was required"), alerts)
  end.

End Alerts.

(** ** storage/job_store.py

    The [jobs] table is a finite map from its primary key, the job
    identifier, to the row. *)

Inductive JobStatus : Type := PENDING | RUNNING | COMPLETED | FAILED.

(** database/models.py: a row of the [jobs] table; the report columns
    are nullable. *)
Module Job.
Record t : Type := mk {
  id : string;
  status : JobStatus;
  query : string;
  created_at : datetime;
  completed_at : option datetime;
  error : option string;
  company_ticker : option string;
  analysis_summary : option string;
  sentiment_score : option float;
  key_findings : option (list string);
  tools_used : option (list string);
  citation_sources : option (list string)
}.
End Job.

(** schemas/responses.py *)
Module JobStatusData.
Record t : Type := mk {
  job_id : string;
  status : JobStatus;
  created_at : datetime;
  completed_at : option datetime;
  report : option AnalysisReport.t;
  error : option string
}.
End JobStatusData.

(** [o or 0.0] for an optional float: zero of either sign is falsy. *)
Definition float_or_zero (o : option float) : float :=
  match o with
  | Some f => if PrimFloat.eqb f 0%float then 0%float else f
  | None => 0%float
  end.

(** [o or []] for an optional list. *)
Definition list_or_empty {A : Type} (o : option (list A)) : list A :=
  match o with
  | Some l => l
  | None => []
  end.

Section Jobs.
Context {E : Env}.

(** [_to_job_status_data]: the report is rebuilt, and validated, from the
    columns of a completed job that names a ticker. *)
Definition _to_job_status_data (job : Job.t) (w : World)
  : outcome JobStatusData.t * World :=
  let data report :=
    JobStatusData.mk (Job.id job) (Job.status job) (Job.created_at job)
      (Job.completed_at job) report (Job.error job) in
  match Job.status job, Job.company_ticker job with
  | COMPLETED, Some company_ticker =>
      if is_empty company_ticker then (Ret (data None), w)
      else
        let '(now, w') := utcnow w in
        (report ←
           new_AnalysisReport company_ticker
             (VStr (or_default (Job.analysis_summary job) ""))
             (float_or_zero (Job.sentiment_score job))
             (list_or_empty (Job.key_findings job))
             (list_or_empty (Job.tools_used job))
             (map VStr (list_or_empty (Job.citation_sources job))) now;
         Ret (data (Some report)), w')
  | _, _ => (Ret (data None), w)
  end.

Definition create_job (jobs : gmap string Job.t) (job_id query : string) (w : World)
  : outcome JobStatusData.t * gmap string Job.t * World :=
  let '(now, w1) := utcnow w in
  match jobs !! job_id with
  | Some _ =>
      (Raise (Exn "IntegrityError" "UNIQUE constraint failed: jobs.id"), jobs, w1)
  | None =>
      let job :=
        Job.mk job_id PENDING query now None None None None None None None None in
      let '(d, w2) := _to_job_status_data job w1 in
      (d, <[job_id := job]> jobs, w2)
  end.

Definition get_job (jobs : gmap string Job.t) (job_id : string) (w : World)
  : outcome (option JobStatusData.t) * World :=
  match jobs !! job_id with
  | Some job =>
      let '(d, w') := _to_job_status_data job w in
      (x ← d; Ret (Some x), w')
  | None => (Ret None, w)
  end.

(** The tail of the three updates: the row is committed, then
    converted. *)
Definition commit_job (jobs : gmap string Job.t) (job_id : string) (job : Job.t)
  (w : World) : outcome (option JobStatusData.t) * gmap string Job.t * World :=
  let '(d, w') := _to_job_status_data job w in
  (x ← d; Ret (Some x), <[job_id := job]> jobs, w').

Definition update_status (jobs : gmap string Job.t) (job_id : string)
  (status : JobStatus) (w : World)
  : outcome (option JobStatusData.t) * gmap string Job.t * World :=
  match jobs !! job_id with
  | Some job =>
      let '(completed_at, w1) :=
        match status with
        | COMPLETED | FAILED => let '(now, w') := utcnow w in (Some now, w')
        | _ => (Job.completed_at job, w)
        end in
      commit_job jobs job_id
        (Job.mk (Job.id job) status (Job.query job) (Job.created_at job) completed_at
           (Job.error job) (Job.company_ticker job) (Job.analysis_summary job)
           (Job.sentiment_score job) (Job.key_findings job) (Job.tools_used job)
           (Job.citation_sources job)) w1
  | None => (Ret None, jobs, w)
  end.

Definition set_report (jobs : gmap string Job.t) (job_id : string)
  (report : AnalysisReport.t) (w : World)
  : outcome (option JobStatusData.t) * gmap string Job.t * World :=
  match jobs !! job_id with
  | Some job =>
      let '(now, w1) := utcnow w in
      commit_job jobs job_id
        (Job.mk (Job.id job) COMPLETED (Job.query job) (Job.created_at job) (Some now)
           (Job.error job)
           (Some (AnalysisReport.company_ticker report))
           (Some (AnalysisReport.analysis_summary report))
           (Some (AnalysisReport.sentiment_score report))
           (Some (AnalysisReport.key_findings report))
           (Some (AnalysisReport.tools_used report))
           (Some (AnalysisReport.citation_sources report))) w1
  | None => (Ret None, jobs, w)
  end.

Definition set_error (jobs : gmap string Job.t) (job_id error : string) (w : World)
  : outcome (option JobStatusData.t) * gmap string Job.t * World :=
  match jobs !! job_id with
  | Some job =>
      let '(now, w1) := utcnow w in
      commit_job jobs job_id
        (Job.mk (Job.id job) FAILED (Job.query job) (Job.created_at job) (Some now)
           (Some error) (Job.company_ticker job) (Job.analysis_summary job)
           (Job.sentiment_score job) (Job.key_findings job) (Job.tools_used job)
           (Job.citation_sources job)) w1
  | None => (Ret None, jobs, w)
  end.

Definition delete_job (jobs : gmap string Job.t) (job_id : string)
  : bool * gmap string Job.t :=
  match jobs !! job_id with
  | Some _ => (true, delete job_id jobs)
  | None => (false, jobs)
  end.

(** ** api/routes.py: the background task of an analysis job *)

Definition no_ticker_message : string :=
  "Could not identify a stock ticker from your query. "
  +:+ "Please include a ticker symbol (e.g., TSLA, AAPL) or company name.".

(** The body of the [try]. [extract_ticker] on a text is the service
    call; [run_agent] runs with its defaults: ten steps, reflection on,
    one retry. *)
Definition analysis_body (tool_registry : ToolRegistry) (job_id query : string)
  (jobs : gmap string Job.t) (w : World)
  : outcome unit * gmap string Job.t * World * list event :=
  match extract_ticker (VStr query) w with
  | (Raise e, w1) => (Raise e, jobs, w1, [])
  | (Ret ticker_result, w1) =>
      match TickerExtractionResult.ticker ticker_result with
      | Some (String c r as ticker) =>
          match run_agent tool_registry query ticker
                  (TickerExtractionResult.company_name ticker_result) 10 true 1 w1 with
          | (Raise e, w2, tr) => (Raise e, jobs, w2, tr)
          | (Ret report, w2, tr) =>
              let '(res, jobs1, w3) := set_report jobs job_id report w2 in
              (_ ← res; Ret tt, jobs1, w3, tr)
          end
      | _ =>
          let '(res, jobs1, w2) := set_error jobs job_id no_ticker_message w1 in
          (_ ← res; Ret tt, jobs1, w2, [])
      end
  end.

Definition run_analysis_task (tool_registry : ToolRegistry) (job_id query : string)
  (jobs : gmap string Job.t) (w : World)
  : outcome unit * gmap string Job.t * World * list event :=
  match update_status jobs job_id RUNNING w with
  | (Raise e, jobs0, w0) => (Raise e, jobs0, w0, [])
  | (Ret _, jobs0, w0) =>
      match analysis_body tool_registry job_id query jobs0 w0 with
      | (Ret _, jobs1, w1, tr) => (Ret tt, jobs1, w1, tr)
      | (Raise e, jobs1, w1, tr) =>
          let '(res, jobs2, w2) := set_error jobs1 job_id (exn_msg e) w1 in
          (_ ← res; Ret tt, jobs2, w2, tr)
      end
  end.

End Jobs.

(** ** scheduler/scheduler.py

    The jobs of the wrapped scheduler, by job identifier: the ticker the
    job fires [monitoring_task] for and the interval, in hours, of its
    trigger. The trigger is built for the validated intervals; a failing
    operation of the scheduler library is outside the model. *)

Module MonitorScheduler.

Definition job_id (ticker : string) : string := "monitor_" +:+ ticker.

(** The fault of removing a job that does not exist is swallowed. *)
Definition remove_monitor_job (self : gmap string (string * float)) (ticker : string)
  : gmap string (string * float) :=
  delete (job_id ticker) self.

Definition add_monitor_job (self : gmap string (string * float)) (ticker : string)
  (interval_hours : float) : gmap string (string * float) :=
  <[job_id ticker := (ticker, interval_hours)]> (remove_monitor_job self ticker).

Definition get_job (self : gmap string (string * float)) (ticker : string)
  : option (string * float) :=
  self !! job_id ticker.

End MonitorScheduler.

(** schemas/requests.py; the field constraints are checked before a
    route runs. *)
Module MonitorStartRequest.
Record t : Type := mk {
  ticker : string;
  interval_hours : option float
}.
End MonitorStartRequest.

Module MonitorStopRequest.
Record t : Type := mk { ticker : string }.
End MonitorStopRequest.

(** schemas/responses.py *)
Module MonitorData.
Record t : Type := mk {
  ticker : string;
  interval_hours : float;
  next_run : option datetime;
  is_active : bool;
  seen_article_hashes : list string
}.
End MonitorData.

(** How a route ends: [ApiResponse.success], which stamps the response
    with the time, or a raised [HTTPException]. *)
Inductive response (A : Type) : Type :=
| Success (message : string) (data : A) (timestamp : datetime)
| HTTPException (status_code : Z) (detail : string).
Arguments Success {A} message data timestamp.
Arguments HTTPException {A} status_code detail.

(** ** api/routes.py: the monitor routes; scheduler/tasks.py: restoring
    the monitors at startup *)

Module routes.
Section Routes.
Context {E : Env}.

(** config.py: the interval used when the request gives none. *)
Variable monitor_interval_hours : float.

Definition start_monitor (request : MonitorStartRequest.t)
  (db : gmap string Monitor.t) (scheduler : gmap string (string * float)) (w : World)
  : response MonitorData.t * gmap string Monitor.t * gmap string (string * float) * World :=
  let ticker := str_upper (MonitorStartRequest.ticker request) in
  let conflict :=
    match get_monitor db ticker with
    | Some existing => MonitorState.is_active existing
    | None => false
    end in
  if conflict then
    (HTTPException 409 ("Monitor for " +:+ ticker +:+ " is already active"),
     db, scheduler, w)
  else
    let interval_hours :=
      match MonitorStartRequest.interval_hours request with
      | Some i => i
      | None => monitor_interval_hours
      end in
    let '(now, w1) := utcnow w in
    let next_run := add_hours now interval_hours in
    let '(_, db1, w2) := create_monitor db ticker interval_hours next_run w1 in
    let scheduler1 := MonitorScheduler.add_monitor_job scheduler ticker interval_hours in
    let data := MonitorData.mk ticker interval_hours (Some next_run) true [] in
    let '(timestamp, w3) := utcnow w2 in
    (Success
       ("Started monitoring " +:+ ticker +:+ " every "
        +:+ py_repr (VFloat interval_hours) +:+ " hours")
       data timestamp,
     db1, scheduler1, w3).

(** The route; in its body [stop_monitor] is the store's. *)
Definition stop_monitor (request : MonitorStopRequest.t)
  (db : gmap string Monitor.t) (scheduler : gmap string (string * float)) (w : World)
  : response MonitorData.t * gmap string Monitor.t * gmap string (string * float) * World :=
  let ticker := str_upper (MonitorStopRequest.ticker request) in
  match get_monitor db ticker with
  | None =>
      (HTTPException 404 ("No monitor found for " +:+ ticker), db, scheduler, w)
  | Some monitor =>
      if negb (MonitorState.is_active monitor) then
        (HTTPException 400 ("Monitor for " +:+ ticker +:+ " is already stopped"),
         db, scheduler, w)
      else
        let db1 := snd (stop_monitor db ticker) in
        let scheduler1 := MonitorScheduler.remove_monitor_job scheduler ticker in
        let data :=
          MonitorData.mk ticker (MonitorState.interval_hours monitor) None false
            (elements (MonitorState.seen_article_hashes monitor)) in
        let '(timestamp, w1) := utcnow w in
        (Success ("Stopped monitoring " +:+ ticker) data timestamp, db1, scheduler1, w1)
  end.

End Routes.
End routes.

Section Restore.
Context {E : Env}.

(** scheduler/tasks.py: a job is added for every active monitor. *)
Definition check_and_restore_monitors (db : gmap string Monitor.t)
  (scheduler : gmap string (string * float)) : gmap string (string * float) :=
  foldl
    (fun scheduler monitor =>
       MonitorScheduler.add_monitor_job scheduler (MonitorState.ticker monitor)
         (MonitorState.interval_hours monitor))
    scheduler (list_active_monitors db).

End Restore.

(** ** A scripted environment

    The model's replies and the news service's answers are read off a
    script held in the world; the clock ticks at every reading. It is the
    environment of the worked examples. *)

Module Script.

Record world : Type := mk {
  replies : list (outcome string);
  news : list (outcome (string + NewsRetrieverResult.t));
  clock : Z
}.

Definition unavailable : exn := Exn "RuntimeError" "service unavailable".

Definition generate (prompt : string) (model : option string)
  (temperature : option float) (w : world) : outcome string * world :=
  match replies w with
  | [] => (Raise unavailable, w)
  | r :: rest => (r, mk rest (news w) (clock w))
  end.

Definition fetch (query ticker days_back max_articles : pyval) (w : world)
  : outcome (string + NewsRetrieverResult.t) * world :=
  match news w with
  | [] => (Raise unavailable, w)
  | r :: rest => (r, mk (replies w) rest (clock w))
  end.

Definition repr (v : pyval) : string :=
  match v with
  | VStr s => "'" +:+ s +:+ "'"
  | VInt z => pretty z
  | VNone => "None"
  | VBool true => "True"
  | VBool false => "False"
  | _ => "<" +:+ type_name v +:+ ">"
  end.

Definition env : Env := {|
  World := world;
  generate_content := generate;
  extract_ticker := fun _ w =>
    (Ret (TickerExtractionResult.mk (Some "TSLA") (Some "Tesla") "high" "regex"), w);
  news_retriever_body := fetch;
  sentiment_analyzer_execute := fun _ w =>
    (Ret (ToolResult.mk true (VDict [("overall_sentiment", VStr "positive")]) None), w);
  findata_fetcher_execute := fun _ w =>
    (Ret (ToolResult.mk true (VDict [("current_price", VInt 250)]) None), w);
  tool_descriptions := fun _ => "";
  tool_parameters := fun _ => ParametersSchema.mk [] [];
  py_repr := repr;
  json_dumps := repr;
  float_of_str := fun _ => None;
  md5_hexdigest := fun s => s;
  str_upper := fun s => s;
  utcnow := fun w => (clock w, mk (replies w) (news w) (clock w + 1));
  add_hours := fun t _ => t + 3600000000;
  uuid4 := fun w => ("alert-" +:+ pretty (clock w), w);
  SYSTEM_PROMPT := "";
  REACT_PROMPT_TEMPLATE_format := fun _ _ _ _ history => history;
  REFLECTION_PROMPT_format := fun _ summary _ _ _ _ => summary;
  gemini_react_model := "gemini-2.5-pro";
  monitor_min_articles := 5
|}.

Definition empty_registry : @ToolRegistry env := {| _tools := [] |}.

Definition article (title url : string) : NewsArticleSchema.t :=
  NewsArticleSchema.mk title None url "wire" None "2025-01-01" None None.

Definition headlines (l : list NewsArticleSchema.t) : NewsRetrieverResult.t :=
  NewsRetrieverResult.mk "TSLA" "TSLA" (Z.of_nat (length l)) l 0
    "2025-01-01" "2025-01-02".

End Script.

(** * Vocabulary of the properties

    What the statements below speak of: counts and projections of the
    ghost record of a run, the shapes of texts, the operations of the
    store as data, and the scripts of the worked examples. *)

(** ** The seen-set of a monitored subject *)

(** The operations of [MonitorStateStore] that the monitor life cycle
    uses ([delete_monitor], which removes the row itself, is not one of
    them). *)
Inductive store_op : Type :=
| OpCreate (ticker : string) (interval_hours : float) (next_run : datetime)
| OpGet (ticker : string)
| OpUpdateLastRun (ticker : string) (last_run next_run : datetime)
| OpAddSeen (ticker : string) (article_hashes : gset string)
| OpStop (ticker : string)
| OpListActive
| OpListAll.

(** ** JSON extraction *)

(** No character of the text is [c]. *)
Fixpoint lacks (c : ascii) (s : string) : bool :=
  match s with
  | EmptyString => true
  | String a r => negb (Ascii.eqb a c) && lacks c r
  end.

(** Every character is ASCII white space. *)
Fixpoint all_space (s : string) : bool :=
  match s with
  | EmptyString => true
  | String a r => ascii_space a && all_space r
  end.

(** ** The reasoning-acting loop: budget *)

(** The number of model calls a run made. *)
Fixpoint model_calls (tr : list event) : nat :=
  match tr with
  | [] => 0
  | EvModel _ _ :: r => S (model_calls r)
  | _ :: r => model_calls r
  end.

(** The event is not a model reply with JSON in it: a model call, if it is
    one, returned a text from which [_extract_json] got nothing. *)
Definition no_json (ev : event) : Prop :=
  match ev with
  | EvModel _ (Ret response) => truthy (_extract_json response) = false
  | EvModel _ (Raise _) => False
  | _ => True
  end.

(** ** The retry protocol under a gate that never accepts *)

(** The number of loop runs of a run of the orchestrator. *)
Fixpoint loop_runs (tr : list event) : nat :=
  match tr with
  | [] => 0
  | EvLoop _ :: r => S (loop_runs r)
  | _ :: r => loop_runs r
  end.

(** What the last loop run returned. *)
Fixpoint last_loop (tr : list event) : option (outcome ReActResult.t) :=
  match tr with
  | [] => None
  | ev :: r =>
      match last_loop r with
      | Some x => Some x
      | None => match ev with EvLoop x => Some x | _ => None end
      end
  end.

(** The event is not an accepting verdict of the gate. *)
Definition rejecting (ev : event) : Prop :=
  match ev with
  | EvReflection v => truthy (ReflectionResult.is_acceptable v) = false
  | _ => True
  end.

(** The event is one of the loop's own. *)
Definition plain (ev : event) : Prop :=
  match ev with
  | EvModel _ _ | EvTool _ _ _ => True
  | _ => False
  end.

(** The cause recorded for a loop run that gave no usable answer. *)
Definition failure_cause (rr : ReActResult.t) : string :=
  if ReActResult.success rr then "No final answer generated"
  else or_default (ReActResult.error rr) "ReAct loop failed".

(** The error raised when the attempts are used up. *)
Definition exhaustion_error (max_retries : Z) (cause : string) : exn :=
  Exn "ValueError"
    ("Analysis failed after " +:+ pretty (max_retries + 1) +:+ " attempts: " +:+ cause).

(** The attempt numbers: all but the last lie below the retry budget. *)
Fixpoint shaped (max_retries : Z) (l : list Z) : Prop :=
  match l with
  | [] => True
  | a :: rest =>
      (a <? max_retries) = (match rest with [] => false | _ => true end)
      /\ shaped max_retries rest
  end.

(** ** The loop's usage collection and source list *)

(** The extraction strategy a ticker-extraction result reports. *)
Definition reported_method (data : pyval) : string :=
  match data with
  | VDict d =>
      match dict_lookup d "method" with
      | Some (VStr m) => m
      | _ => "unknown"
      end
  | _ => "unknown"
  end.

(** The identifier of a capability use. *)
Definition capability_id (action : string) (data : pyval) : string :=
  if String.eqb action "ticker_extractor"
  then "ticker_extractor:" +:+ reported_method data
  else action.

(** The identifiers of the successful capability calls of a run, in the
    order of the calls, repeats included. *)
Fixpoint capabilities_used (tr : list event) : list string :=
  match tr with
  | [] => []
  | EvTool action _ (Ret result) :: r =>
      if ToolResult.success result
      then capability_id action (ToolResult.data result) :: capabilities_used r
      else capabilities_used r
  | _ :: r => capabilities_used r
  end.

(** The URL of an article, when it has one. *)
Definition url_of (article : pyval) : list pyval :=
  match article with
  | VDict d =>
      match dict_lookup d "url" with
      | Some u => if truthy u then [u] else []
      | None => []
      end
  | _ => []
  end.

(** The URLs of the articles of a news result, in order. *)
Definition article_urls (data : pyval) : list pyval :=
  match data with
  | VDict d =>
      match dict_lookup d "articles" with
      | Some (VList l) => concat (map url_of l)
      | _ => []
      end
  | _ => []
  end.

(** The URLs returned by the successful news retrievals of a run, in the
    order of the calls, repeats included. *)
Fixpoint urls_returned (tr : list event) : list pyval :=
  match tr with
  | [] => []
  | EvTool action _ (Ret result) :: r =>
      if ToolResult.success result && String.eqb action "news_retriever"
      then article_urls (ToolResult.data result) ++ urls_returned r
      else urls_returned r
  | _ :: r => urls_returned r
  end.

Section Vocabulary.
Context {E : Env}.

(** What every returned report was built from. *)
Definition report_of (ticker : string) (report : AnalysisReport.t) : Prop :=
  exists final analysis_summary sentiment_score key_findings summary1 tools sources now,
    sanitize final = Ret (analysis_summary, sentiment_score, key_findings)
    /\ new_AnalysisReport ticker summary1 sentiment_score
         (match key_findings with [] => [placeholder_finding] | _ => key_findings end)
         tools sources now
       = Ret report.

(** The set of fingerprints a row holds, as [_to_monitor_state] reads it. *)
Definition seen_of (monitor : Monitor.t) : gset string :=
  list_to_set (seen_or_empty monitor).

(** The table and the world after an operation. *)
Definition apply_op (op : store_op) (db : gmap string Monitor.t) (w : World)
  : gmap string Monitor.t * World :=
  match op with
  | OpCreate ticker interval_hours next_run =>
      let '(_, db', w') := create_monitor db ticker interval_hours next_run w in (db', w')
  | OpGet _ => (db, w)
  | OpUpdateLastRun ticker last_run next_run =>
      (snd (update_last_run db ticker last_run next_run), w)
  | OpAddSeen ticker article_hashes => (add_seen_articles db ticker article_hashes, w)
  | OpStop ticker => (snd (stop_monitor db ticker), w)
  | OpListActive => (db, w)
  | OpListAll => (db, w)
  end.

Fixpoint apply_ops (ops : list store_op) (db : gmap string Monitor.t) (w : World)
  : gmap string Monitor.t * World :=
  match ops with
  | [] => (db, w)
  | op :: rest => let '(db', w') := apply_op op db w in apply_ops rest db' w'
  end.

Definition exhausted (max_steps : Z) (steps : list ReActStep.t)
  (tools_used : list string) (sources : list pyval) : ReActResult.t :=
  ReActResult.mk false steps None (list_set tools_used) sources
    (Some ("Analysis incomplete after " +:+ pretty max_steps +:+ " steps")).

(** The fingerprint the task computes for a fetched article. *)
Definition fingerprint (a : NewsArticleSchema.t) : string :=
  _hash_article (VStr (NewsArticleSchema.title a)) (VStr (NewsArticleSchema.url a)).

(** The fetched articles whose fingerprint is not in the seen-set. *)
Definition unseen (seen : gset string) (l : list NewsArticleSchema.t)
  : list NewsArticleSchema.t :=
  filter (fun a => fingerprint a ∉ seen) l.

(** How a run under a rejecting gate ends, [n] attempts being allowed:
    - a fault of the last loop run, passed on; or
    - the last loop run gave no usable answer: all [n] runs were made and
      the exhaustion error names its cause; or
    - the last loop run succeeded and reading its answer raised; or
    - the last loop run succeeded: all [n] runs were made and the report
      is built from its answer, with the summary as the loop gave it. *)
Definition verdict (ticker : string) (max_retries : Z) (n : nat)
  (res : outcome AnalysisReport.t) (tr : list event) : Prop :=
  (loop_runs tr <= n)%nat
  /\ ((exists e, last_loop tr = Some (Raise e) /\ res = Raise e)
      \/ (exists rr,
            last_loop tr = Some (Ret rr)
            /\ (((ReActResult.success rr = false
                  \/ falsy_opt (ReActResult.final_answer rr) = true)
                 /\ loop_runs tr = n
                 /\ res = Raise (exhaustion_error max_retries (failure_cause rr)))
                \/ (exists final,
                      ReActResult.success rr = true
                      /\ ReActResult.final_answer rr = Some final
                      /\ truthy final = true
                      /\ ((exists e, sanitize final = Raise e /\ res = Raise e)
                          \/ (exists summary score findings now,
                                sanitize final = Ret (summary, score, findings)
                                /\ loop_runs tr = n
                                /\ res
                                   = new_AnalysisReport ticker summary score
                                       (match findings with
                                        | [] => [placeholder_finding]
                                        | _ => findings
                                        end)
                                       (ReActResult.tools_used rr)
                                       (ReActResult.sources rr) now)))))).

End Vocabulary.

(** ** Scripts of the worked examples *)

(** The loop ends with a score of 3 and seven findings; reflection is
    off. *)
Definition overshoot_script : Script.world :=
  Script.mk
    [Ret (dq "{'thought': 'done', 'action': 'final_answer', 'action_input': {'analysis_summary': 'fine', 'sentiment_score': 3, 'key_findings': ['a', 'b', 'c', 'd', 'e', 'f', 7]}}")]
    [] 0.

(** One retry is allowed. The first loop run succeeds and the gate
    rejects its answer; the model call of the second run fails. The
    orchestrator raises, although a loop run had returned success with a
    final answer. *)
Definition retry_script : Script.world :=
  Script.mk
    [Ret (dq "{'thought': 'done', 'action': 'final_answer', 'action_input': {'analysis_summary': 'fine', 'sentiment_score': 0.5, 'key_findings': ['up']}}");
     Ret (dq "{'quality_score': 0.1, 'is_acceptable': false}")]
    [] 0.

(** No retry is allowed. The loop run succeeds and the gate rejects its
    answer while proposing a refined summary. *)
Definition refining_gate_script : Script.world :=
  Script.mk
    [Ret (dq "{'thought': 'done', 'action': 'final_answer', 'action_input': {'analysis_summary': 'fine', 'sentiment_score': 0.5, 'key_findings': ['up']}}");
     Ret (dq "{'quality_score': 0.1, 'is_acceptable': false, 'refined_summary': 'better'}")]
    [] 0.

(** No retry is allowed. The loop run succeeds with a summary that is a
    number, and the gate rejects the answer. *)
Definition numeric_summary_script : Script.world :=
  Script.mk
    [Ret (dq "{'thought': 'done', 'action': 'final_answer', 'action_input': {'analysis_summary': 5, 'sentiment_score': 0.5, 'key_findings': ['up']}}");
     Ret (dq "{'quality_score': 0.1, 'is_acceptable': false}")]
    [] 0.

(** The scenario of the specification: financial data, news twice (the
    same two articles, one of them without URL), sentiment, ticker
    extraction, then the final answer. *)
Definition tsla_script : Script.world :=
  Script.mk
    [Ret (dq "{'thought': 'prices', 'action': 'findata_fetcher', 'action_input': {'ticker': 'TSLA'}}");
     Ret (dq "{'thought': 'news', 'action': 'news_retriever', 'action_input': {'query': 'TSLA'}}");
     Ret (dq "{'thought': 'more news', 'action': 'news_retriever', 'action_input': {'query': 'Tesla'}}");
     Ret (dq "{'thought': 'mood', 'action': 'sentiment_analyzer', 'action_input': {'ticker': 'TSLA'}}");
     Ret (dq "{'thought': 'symbol', 'action': 'ticker_extractor', 'action_input': {'text': 'Tesla'}}");
     Ret (dq "{'thought': 'done', 'action': 'final_answer', 'action_input': {'analysis_summary': 'fine', 'sentiment_score': 0.5, 'key_findings': ['up']}}")]
    [Ret (inr (Script.headlines [Script.article "a" "http://a"; Script.article "b" ""]));
     Ret (inr (Script.headlines [Script.article "a" "http://a"; Script.article "b" ""]))]
    0.

(** * Vocabulary of the further properties *)

(** ** The steps and the tool calls of a run of the loop *)

(** The unpacked input cannot be bound to the parameters of
    [ToolRegistry.execute]: it is no map, or one of its keys names a
    parameter the call already binds. *)
Definition unbindable (action_input : pyval) : Prop :=
  match action_input with
  | VDict kw => In "self" (map fst kw) \/ In "tool_name" (map fst kw)
  | _ => True
  end.

(** What the step recorded for a tool call says of the call's outcome. *)
Definition records (step : ReActStep.t) (res : outcome ToolResult.t) : Prop :=
  match res with
  | Raise e =>
      ReActStep.observation step = Some ("Tool execution failed: " +:+ exn_msg e)
      /\ ReActStep.error step = Some (exn_msg e)
  | Ret result =>
      if ToolResult.success result
      then ReActStep.observation step <> None
      else ReActStep.observation step
           = Some ("Tool error: "
                   +:+ match ToolResult.error result with
                       | Some s => s
                       | None => "None"
                       end)
           /\ ReActStep.error step = ToolResult.error result
  end.

(** A step that is not the final answer and carries an observation. *)
Definition observed (step : ReActStep.t) : Prop :=
  ReActStep.action step <> VStr "final_answer"
  /\ ReActStep.observation step <> None.

(** ** The history shown to the model *)

(** The observation of a step as the history shows it. *)
Definition shown_observation (obs : string) : string :=
  if 2000 <? char_count obs then take_chars 2000 obs +:+ "... [truncated]" else obs.

(** ** Runs of the orchestrator *)

(** The number of verdicts the reflection gate gave in a run. *)
Fixpoint reflections (tr : list event) : nat :=
  match tr with
  | [] => 0
  | EvReflection _ :: r => S (reflections r)
  | _ :: r => reflections r
  end.

(** The verdict of the gate that a run ended with, if its last act was to
    consult the gate. *)
Definition closing_verdict (tr : list event) : option ReflectionResult.t :=
  match last tr with
  | Some (EvReflection v) => Some v
  | _ => None
  end.

(** The model answers at once; the gate accepts and rewrites the
    summary. *)
Definition refine_script : Script.world :=
  Script.mk
    [Ret (dq "{'thought': 'done', 'action': 'final_answer', 'action_input': {'analysis_summary': 'fine', 'sentiment_score': 0.5, 'key_findings': ['up']}}");
     Ret (dq "{'quality_score': 0.9, 'is_acceptable': true, 'refined_summary': 'better'}")]
    [] 0.

(** The gate's reply gives neither a score nor a verdict. *)
Definition bare_verdict_script : Script.world :=
  Script.mk [Ret (dq "{'improvements': ['cite sources']}")] [] 0.

(** The gate's reply gives a score that is no number. *)
Definition odd_score_script : Script.world :=
  Script.mk [Ret (dq "{'quality_score': [1], 'is_acceptable': false}")] [] 0.

(** ** Readings of the monitors table *)

Section ReadingVocabulary.
Context {E : Env}.

(** A row as the readers of the store get it: the state that
    [_to_monitor_state] builds, in which the stored list of fingerprints
    is a set, and the time of creation, which no operation changes. *)
Definition row_reading (row : Monitor.t) : MonitorState.t * datetime :=
  (_to_monitor_state row, Monitor.created_at row).

(** Two tables have the same keys and give the same reading under each:
    they differ at most in the order and the repetitions of the stored
    fingerprint lists. *)
Definition same_readings (db1 db2 : gmap string Monitor.t) : Prop :=
  forall k, row_reading <$> db1 !! k = row_reading <$> db2 !! k.

End ReadingVocabulary.

(** ** Firings of the monitoring task *)

Section MonitoringVocabulary.
Context {E : Env}.

(** The row of a subject after [update_last_run] stamped a firing. *)
Definition stamped (row : Monitor.t) (now : datetime) : Monitor.t :=
  Monitor.mk (Monitor.ticker row) (Monitor.interval_hours row) (Some now)
    (Some (add_hours now (Monitor.interval_hours row)))
    (Monitor.seen_article_hashes row) (Monitor.is_active row)
    (Monitor.created_at row).

End MonitoringVocabulary.

(** A subject that was stopped. *)
Definition stopped_stores : Stores :=
  {| monitors :=
       <["TSLA" := Monitor.mk "TSLA" 24%float None None (Some ["a:u1"]) false 0]> ∅;
     alerts := [] |}.

(** An active subject that has seen one article. *)
Definition active_stores : Stores :=
  {| monitors :=
       <["TSLA" := Monitor.mk "TSLA" 24%float None None (Some ["a:u1"]) true 0]> ∅;
     alerts := [] |}.

(** Six articles are fetched, one of them seen before; the model then
    answers the quick analysis at once. *)
Definition breaking_script : Script.world :=
  Script.mk
    [Ret (dq "{'thought': 'done', 'action': 'final_answer', 'action_input': {'analysis_summary': 'fine', 'sentiment_score': 0.5, 'key_findings': ['up']}}")]
    [Ret (inr (Script.headlines
                 [Script.article "a" "u1"; Script.article "b" "u2";
                  Script.article "c" "u3"; Script.article "d" "u4";
                  Script.article "e" "u5"; Script.article "f" "u6"]))]
    7.

(** ** Analysis jobs *)

(** What the validation of a report checks beyond the field types. *)
Definition valid_report (report : AnalysisReport.t) : bool :=
  PrimFloat.leb (-1)%float (AnalysisReport.sentiment_score report)
  && PrimFloat.leb (AnalysisReport.sentiment_score report) 1%float
  && (1 <=? Z.of_nat (length (AnalysisReport.key_findings report)))
  && (Z.of_nat (length (AnalysisReport.key_findings report)) <=? 5).

(** A job in a final state carries the time it got there. *)
Definition settled (job : Job.t) : Prop :=
  match Job.status job with
  | COMPLETED | FAILED => Job.completed_at job <> None
  | PENDING | RUNNING => True
  end.

(** One pending job; the model concludes at once and the gate accepts. *)
Definition pending_jobs : gmap string Job.t :=
  <["job-1" := Job.mk "job-1" PENDING "Analyze Tesla" 0 None None None None None
                 None None None]> ∅.

(** ** Monitors and their scheduled jobs *)

(** Every row is stored under its own ticker. *)
Definition keyed (db : gmap string Monitor.t) : Prop :=
  forall k row, db !! k = Some row -> Monitor.ticker row = k.

(** The scheduler holds a job for a ticker exactly when the ticker's row
    is active, and the job fires for that ticker at the row's interval. *)
Definition synced (db : gmap string Monitor.t) (scheduler : gmap string (string * float))
  : Prop :=
  forall k,
    MonitorScheduler.get_job scheduler k
    = match db !! k with
      | Some row =>
          if Monitor.is_active row then Some (k, Monitor.interval_hours row) else None
      | None => None
      end.

(** The job the last monitor of a list with ticker [k] leaves, [acc] if
    there is none. *)
Definition latest_job (k : string) (acc : option (string * float))
  (l : list MonitorState.t) : option (string * float) :=
  foldl
    (fun acc monitor =>
       if String.eqb (MonitorState.ticker monitor) k
       then Some (k, MonitorState.interval_hours monitor) else acc)
    acc l.

(** A report with its time of generation replaced. *)
Definition regenerated (report : AnalysisReport.t) (now : datetime) : AnalysisReport.t :=
  AnalysisReport.mk (AnalysisReport.company_ticker report)
    (AnalysisReport.analysis_summary report) (AnalysisReport.sentiment_score report)
    (AnalysisReport.key_findings report) (AnalysisReport.tools_used report)
    (AnalysisReport.citation_sources report) now.

(** A report as the agent returns it. *)
Definition sample_report : AnalysisReport.t :=
  AnalysisReport.mk "TSLA" "fine" 0.5%float ["up"] ["news_retriever"] ["http://a"] 3.

(** The model asks for prices; the next model call fails. *)
Definition outage_script : Script.world :=
  Script.mk
    [Ret (dq "{'thought': 'prices', 'action': 'findata_fetcher', 'action_input': {'ticker': 'TSLA'}}")]
    [] 0.

(** The model passes a text where the tool's arguments should be, then
    concludes. *)
Definition unbound_script : Script.world :=
  Script.mk
    [Ret (dq "{'thought': 'prices', 'action': 'findata_fetcher', 'action_input': 'TSLA'}");
     Ret (dq "{'thought': 'done', 'action': 'final_answer', 'action_input': {'analysis_summary': 'fine', 'sentiment_score': 0.5, 'key_findings': ['up']}}")]
    [] 0.

(** * Properties *)

(** ** Registry dispatch *)

Section RegistryFacts.
Context {E : Env}.

Lemma tools_lookup_In (l : list (string * BaseTool)) (k : string) :
  In k (map fst l) <-> tools_lookup l k <> None.
Proof.
  induction l as [|[k' v] l IH]; simpl.
  - split; [tauto | congruence].
  - destruct (String.eqb_spec k' k) as [->|Hne].
    + split; [congruence | auto].
    + rewrite <- IH. split; [intros [?|?]; [congruence | assumption] | auto].
Qed.

Lemma tools_lookup_set_eq (l : list (string * BaseTool)) (k : string) (v : BaseTool) :
  tools_lookup (tools_set l k v) k = Some v.
Proof.
  induction l as [|[k' v'] l IH]; simpl.
  - now rewrite String.eqb_refl.
  - destruct (String.eqb_spec k' k) as [->|Hne]; simpl.
    + now rewrite String.eqb_refl.
    + destruct (String.eqb_spec k' k); [congruence | assumption].
Qed.

Lemma tools_lookup_set_ne (l : list (string * BaseTool)) (k k' : string) (v : BaseTool) :
  k <> k' -> tools_lookup (tools_set l k v) k' = tools_lookup l k'.
Proof.
  intros Hne. induction l as [|[k0 v0] l IH]; simpl.
  - destruct (String.eqb_spec k k'); [congruence | reflexivity].
  - destruct (String.eqb_spec k0 k) as [->|Hk]; simpl.
    + destruct (String.eqb_spec k k'); [congruence | reflexivity].
    + destruct (String.eqb_spec k0 k'); [reflexivity | assumption].
Qed.

Lemma rebound_None (kw : kwargs) :
  ~ In "self" (map fst kw) -> ~ In "tool_name" (map fst kw) -> rebound kw = None.
Proof.
  unfold rebound. intros Hs Ht.
  destruct (List.find _ (map fst kw)) as [k|] eqn:Hf; [|reflexivity].
  apply List.find_some in Hf as [Hin Hk].
  apply orb_true_iff in Hk as [Hk|Hk]; apply String.eqb_eq in Hk; subst k; tauto.
Qed.

Lemma rebound_Some (kw : kwargs) (k : string) :
  rebound kw = Some k -> In k (map fst kw) /\ (k = "self" \/ k = "tool_name").
Proof.
  unfold rebound. intros Hf. apply List.find_some in Hf as [Hin Hk].
  split; [assumption|].
  apply orb_true_iff in Hk as [Hk|Hk]; apply String.eqb_eq in Hk; auto.
Qed.

(** A parameter map that binds [self] or [tool_name] again never reaches
    the body: the call raises, whatever the name, and nothing has run. *)
Lemma registry_execute_rebound (self : ToolRegistry) (tool_name : string)
  (kw : kwargs) (w : World) :
  In "self" (map fst kw) \/ In "tool_name" (map fst kw) ->
  exists k,
    (k = "self" \/ k = "tool_name")
    /\ registry_execute self tool_name kw w
       = (Raise (Exn "TypeError"
                   ("ToolRegistry.execute() got multiple values for argument '"
                    +:+ k +:+ "'")), w).
Proof.
  intros Hin. unfold registry_execute.
  destruct (rebound kw) as [k|] eqn:Hr.
  - exists k. split; [exact (proj2 (rebound_Some kw k Hr)) | reflexivity].
  - exfalso. unfold rebound in Hr.
    destruct Hin as [Hin|Hin];
      apply (List.find_none _ _ Hr) in Hin; cbn in Hin; discriminate.
Qed.

(** C6, as the code has it: for a parameter map that binds neither
    [self] nor [tool_name] again (the two parameters of [execute] itself,
    bound before its body runs), dispatch always returns a result. An
    unknown name gives a failure whose error text lists the registered
    names (exactly the names that [get] finds); a known name gives what
    the capability returned, and a fault the capability raised becomes a
    failure result carrying the fault's text. Nothing is raised to the
    caller. *)
Theorem registry_execute_total (self : ToolRegistry) (tool_name : string)
  (kw : kwargs) (w : World) :
  ~ In "self" (map fst kw) ->
  ~ In "tool_name" (map fst kw) ->
  (exists r w', registry_execute self tool_name kw w = (Ret r, w'))
  /\ (get self tool_name = None ->
      registry_execute self tool_name kw w
      = (Ret (ToolResult.mk false VNone
                (Some ("Tool '" +:+ tool_name +:+ "' not found. Available tools: "
                       +:+ join ", " (list_tools self)))), w))
  /\ (forall n, In n (list_tools self) <-> get self n <> None)
  /\ (forall tool, get self tool_name = Some tool ->
      (forall e w', execute tool kw w = (Raise e, w') ->
         registry_execute self tool_name kw w
         = (Ret (ToolResult.mk false VNone
                   (Some ("Tool execution failed: " +:+ exn_msg e))), w'))
      /\ (forall r w', execute tool kw w = (Ret r, w') ->
         registry_execute self tool_name kw w = (Ret r, w'))).
Proof.
  intros Hself Hname.
  unfold registry_execute. rewrite (rebound_None kw Hself Hname).
  unfold list_tools, get.
  split; [|split; [|split; [|intros tool Htool; split]]].
  - destruct (tools_lookup (_tools self) tool_name) as [tool|]; [|eauto].
    destruct (execute tool kw w) as [[r|e] w']; eauto.
  - intros ->. reflexivity.
  - intros n. apply tools_lookup_In.
  - intros e w' Hx. rewrite Htool, Hx. reflexivity.
  - intros r w' Hx. rewrite Htool, Hx. reflexivity.
Qed.

End RegistryFacts.

(** A parameter map with the key [tool_name], for a registered name: the
    call raises to the caller and the capability is not invoked, so
    dispatch is not total over all parameter maps. *)
Lemma dispatch_raises_on_rebound_parameter :
  registry_execute (E := Script.env) (register_all_tools Script.empty_registry)
    "ticker_extractor" [("text", VStr "Tesla"); ("tool_name", VStr "news_retriever")]
    (Script.mk [] [] 0)
  = (Raise (Exn "TypeError"
              "ToolRegistry.execute() got multiple values for argument 'tool_name'"),
     Script.mk [] [] 0)
  /\ ~ exists r w',
        registry_execute (E := Script.env) (register_all_tools Script.empty_registry)
          "ticker_extractor"
          [("text", VStr "Tesla"); ("tool_name", VStr "news_retriever")]
          (Script.mk [] [] 0)
        = (Ret r, w').
Proof.
  assert (H : registry_execute (E := Script.env)
                (register_all_tools Script.empty_registry) "ticker_extractor"
                [("text", VStr "Tesla"); ("tool_name", VStr "news_retriever")]
                (Script.mk [] [] 0)
              = (Raise (Exn "TypeError"
                          "ToolRegistry.execute() got multiple values for argument 'tool_name'"),
                 Script.mk [] [] 0)) by (vm_compute; reflexivity).
  split; [exact H|]. intros (r & w' & Hr). rewrite H in Hr. discriminate.
Qed.

(** An unknown name against the four registered tools, with a parameter
    map that binds [text] only. *)
Lemma registry_execute_total_witness :
  registry_execute (E := Script.env) (register_all_tools Script.empty_registry)
    "translator" [("text", VStr "Tesla")] (Script.mk [] [] 0)
  = (Ret (ToolResult.mk false VNone
            (Some ("Tool 'translator' not found. Available tools: "
                   +:+ "ticker_extractor, news_retriever, sentiment_analyzer, "
                   +:+ "findata_fetcher"))),
     Script.mk [] [] 0).
Proof.
  refine (proj1 (proj2 (registry_execute_total (E := Script.env)
                          (register_all_tools Script.empty_registry)
                          "translator" [("text", VStr "Tesla")] (Script.mk [] [] 0)
                          _ _))
            eq_refl).
  - simpl. intros [H|[]]. discriminate.
  - simpl. intros [H|[]]. discriminate.
Defined.

(** ** The reflection gate *)

Section ReflectionFacts.
Context {E : Env}.

(** C7: when the model call of the reflection gate raises, or its reply
    yields no JSON ([_extract_json] returns [None], or any other falsy
    value), [reflect_on_analysis] returns, without raising, the default
    verdict: score 0.5, accepted, one note that the assessment could not
    be completed. *)
Theorem reflection_fails_open (ticker : string) (analysis_summary : pyval)
  (sentiment_score : float) (key_findings tools_used : list string)
  (sources_count : Z) (min_quality_score : float) (w : World) :
  let prompt :=
    reflection_prompt ticker analysis_summary sentiment_score key_findings
      tools_used sources_count in
  (exists e, fst (generate_content prompt None (Some 0.2%float) w) = Raise e)
  \/ (exists response,
        fst (generate_content prompt None (Some 0.2%float) w) = Ret response
        /\ truthy (_extract_json response) = false) ->
  fst (reflect_on_analysis ticker analysis_summary sentiment_score key_findings
         tools_used sources_count min_quality_score w)
  = ReflectionResult.mk 0.5%float (VBool true)
      [VStr "Reflection assessment could not be completed"] VNone
  /\ snd (reflect_on_analysis ticker analysis_summary sentiment_score key_findings
            tools_used sources_count min_quality_score w)
     = snd (generate_content prompt None (Some 0.2%float) w).
Proof.
  intros prompt H. unfold reflect_on_analysis. fold prompt.
  destruct (generate_content prompt None (Some 0.2%float) w) as [[response|e] w'];
    simpl in *.
  - destruct H as [[e He]|[r [Hr Hx]]]; [discriminate|].
    injection Hr as <-. rewrite Hx. simpl. split; reflexivity.
  - split; reflexivity.
Qed.

End ReflectionFacts.

(** A scripted run in which the model call of the gate raises. *)
Lemma reflection_fails_open_witness :
  fst (reflect_on_analysis (E := Script.env) "TSLA" (VStr "ok") 0.5%float
         ["a"] ["news_retriever"] 2 0.7%float
         (Script.mk [Raise Script.unavailable] [] 0))
  = ReflectionResult.mk 0.5%float (VBool true)
      [VStr "Reflection assessment could not be completed"] VNone.
Proof.
  apply (reflection_fails_open (E := Script.env) "TSLA" (VStr "ok") 0.5%float
           ["a"] ["news_retriever"] 2 0.7%float
           (Script.mk [Raise Script.unavailable] [] 0)).
  left. exists Script.unavailable. reflexivity.
Defined.

(** ** The report's invariants *)

Section ReportFacts.
Context {E : Env}.

Lemma ltb_leb (x y : float) : PrimFloat.ltb x y = true -> PrimFloat.leb x y = true.
Proof.
  rewrite ltb_spec, leb_spec. unfold SFltb, SFleb.
  destruct (SFcompare (Prim2SF x) (Prim2SF y)) as [[ | | ]|]; congruence.
Qed.

(** The clamp maps every float, NaN and the infinities included, into the
    closed interval. *)
Lemma clamp_bounds (x : float) :
  PrimFloat.leb (-1)%float (py_max (-1)%float (py_min 1%float x)) = true
  /\ PrimFloat.leb (py_max (-1)%float (py_min 1%float x)) 1%float = true.
Proof.
  unfold py_max, py_min.
  destruct (PrimFloat.ltb x 1%float) eqn:Hx.
  - destruct (PrimFloat.ltb (-1)%float x) eqn:Hy.
    + split; apply ltb_leb; assumption.
    + split; reflexivity.
  - split; reflexivity.
Qed.

Lemma sanitize_inv (final analysis_summary : pyval) (sentiment_score : float)
  (key_findings : list string) :
  sanitize final = Ret (analysis_summary, sentiment_score, key_findings) ->
  (exists x, sentiment_score = py_max (-1)%float (py_min 1%float x))
  /\ (length key_findings <= 5)%nat.
Proof.
  unfold sanitize. intros H.
  destruct (py_get final "analysis_summary" (VStr "")) as [a|]; [|discriminate].
  cbn in H.
  destruct (py_get final "sentiment_score" (VFloat 0%float)) as [raw|]; [|discriminate].
  cbn in H.
  destruct (py_float raw) as [x|]; [|discriminate]. cbn in H.
  destruct (py_get final "key_findings" (VList [])) as [kf|]; [|discriminate].
  cbn in H. injection H as <- <- <-. split; [eauto|].
  rewrite length_map, length_take. lia.
Qed.

Lemma new_AnalysisReport_inv (ticker : string) (summary : pyval) (score : float)
  (key_findings tools_used : list string) (sources : list pyval) (now : datetime)
  (report : AnalysisReport.t) :
  new_AnalysisReport ticker summary score key_findings tools_used sources now
  = Ret report ->
  summary = VStr (AnalysisReport.analysis_summary report)
  /\ AnalysisReport.company_ticker report = ticker
  /\ AnalysisReport.sentiment_score report = score
  /\ AnalysisReport.key_findings report = key_findings
  /\ AnalysisReport.tools_used report = tools_used
  /\ all_str sources = Some (AnalysisReport.citation_sources report)
  /\ AnalysisReport.generated_at report = now.
Proof.
  unfold new_AnalysisReport. intros H.
  destruct summary; try discriminate.
  destruct (all_str sources); try discriminate.
  destruct (_ && _); [|discriminate].
  injection H as <-. simpl. tauto.
Qed.

Lemma build_report_of (ticker : string) (final analysis_summary summary1 : pyval)
  (sentiment_score : float) (key_findings : list string) (rr : ReActResult.t)
  (w w' : World) (report : AnalysisReport.t) :
  sanitize final = Ret (analysis_summary, sentiment_score, key_findings) ->
  build_report ticker summary1 sentiment_score key_findings rr w = (Ret report, w') ->
  report_of ticker report.
Proof.
  unfold build_report. intros Hs Hb. destruct (utcnow w) as [now w1].
  injection Hb as Hb _. unfold report_of. eauto 12.
Qed.

Lemma with_events_Ret {A : Type} (evs : list event) (x : outcome A * World * list event)
  (r : outcome A) (w : World) (tr : list event) :
  with_events evs x = (r, w, tr) ->
  exists tr', x = (r, w, tr') /\ tr = evs ++ tr'.
Proof.
  destruct x as [[r0 w0] tr0]. simpl. intros H. injection H as <- <- <-. eauto.
Qed.

Lemma attempts_loop_report (tool_registry : ToolRegistry) (query ticker : string)
  (company_name : option string) (max_steps : Z) (enable_reflection : bool)
  (max_retries : Z) (attempts : list Z) :
  forall (last_error : option string) (w w' : World) (tr : list event)
         (report : AnalysisReport.t),
    attempts_loop tool_registry query ticker company_name max_steps
      enable_reflection max_retries attempts last_error w = (Ret report, w', tr) ->
    report_of ticker report.
Proof.
  induction attempts as [|attempt rest IH]; intros last_error w w' tr report H.
  - discriminate.
  - cbn [attempts_loop] in H.
    destruct (run_react_loop tool_registry ticker query company_name max_steps w)
      as [[res w1] evs].
    apply with_events_Ret in H as [tr1 [H _]].
    destruct res as [rr|e]; [|discriminate].
    destruct (negb (ReActResult.success rr)); [eapply IH; eassumption|].
    destruct (falsy_opt (ReActResult.final_answer rr)); [eapply IH; eassumption|].
    destruct (sanitize _) as [[[summary score] kf]|e] eqn:Hs; [|discriminate].
    destruct enable_reflection.
    + destruct (reflect_on_analysis _ _ _ _ _ _ _ _) as [reflection w2].
      apply with_events_Ret in H as [tr2 [H _]].
      destruct (_ && _); [eapply IH; eassumption|].
      destruct (build_report _ _ _ _ _ _) as [r w3] eqn:Hb.
      injection H as -> <- _. eapply build_report_of; eassumption.
    + destruct (build_report _ _ _ _ _ _) as [r w3] eqn:Hb.
      injection H as -> <- _. eapply build_report_of; eassumption.
Qed.

(** C1: every report [run_agent] returns, and so every report
    [run_quick_analysis] returns, has its sentiment score in
    [[-1.0, 1.0]] and between one and five findings; and the fields that
    sanitising produces from any final-answer map always meet these
    bounds: the score is clamped, the findings are cut to five and an
    empty list is replaced by one placeholder. *)
Theorem report_invariants :
  (forall tool_registry query ticker company_name max_steps enable_reflection
          max_retries w w' tr report,
      run_agent tool_registry query ticker company_name max_steps
        enable_reflection max_retries w = (Ret report, w', tr) ->
      PrimFloat.leb (-1)%float (AnalysisReport.sentiment_score report) = true
      /\ PrimFloat.leb (AnalysisReport.sentiment_score report) 1%float = true
      /\ (1 <= length (AnalysisReport.key_findings report) <= 5)%nat)
  /\ (forall tool_registry ticker company_name w w' tr report,
      run_quick_analysis tool_registry ticker company_name w = (Ret report, w', tr) ->
      PrimFloat.leb (-1)%float (AnalysisReport.sentiment_score report) = true
      /\ PrimFloat.leb (AnalysisReport.sentiment_score report) 1%float = true
      /\ (1 <= length (AnalysisReport.key_findings report) <= 5)%nat)
  /\ (forall final analysis_summary sentiment_score key_findings,
      sanitize final = Ret (analysis_summary, sentiment_score, key_findings) ->
      PrimFloat.leb (-1)%float sentiment_score = true
      /\ PrimFloat.leb sentiment_score 1%float = true
      /\ (1 <= length (match key_findings with
                       | [] => [placeholder_finding]
                       | _ => key_findings
                       end) <= 5)%nat).
Proof.
  assert (Hsan : forall final analysis_summary sentiment_score key_findings,
      sanitize final = Ret (analysis_summary, sentiment_score, key_findings) ->
      PrimFloat.leb (-1)%float sentiment_score = true
      /\ PrimFloat.leb sentiment_score 1%float = true
      /\ (1 <= length (match key_findings with
                       | [] => [placeholder_finding]
                       | _ => key_findings
                       end) <= 5)%nat).
  { intros final a s kf H. apply sanitize_inv in H as [[x ->] Hlen].
    destruct (clamp_bounds x) as [Hlo Hhi]. repeat split; try assumption.
    - destruct kf; simpl; lia.
    - destruct kf; simpl in *; lia. }
  assert (Hrep : forall ticker report, report_of ticker report ->
      PrimFloat.leb (-1)%float (AnalysisReport.sentiment_score report) = true
      /\ PrimFloat.leb (AnalysisReport.sentiment_score report) 1%float = true
      /\ (1 <= length (AnalysisReport.key_findings report) <= 5)%nat).
  { intros ticker report (final & a & s & kf & s1 & tools & sources & now & Hs & Hn).
    apply new_AnalysisReport_inv in Hn as (_ & _ & -> & -> & _).
    eapply Hsan; eassumption. }
  split; [|split]; [| |exact Hsan].
  - intros. eapply Hrep, attempts_loop_report. unfold run_agent in H. eassumption.
  - intros. eapply Hrep, attempts_loop_report.
    unfold run_quick_analysis, run_agent in H. eassumption.
Qed.

End ReportFacts.

Lemma report_invariants_witness :
  match run_agent (E := Script.env) Script.empty_registry "Analyze TSLA" "TSLA"
          None 10 false 0 overshoot_script with
  | (Ret report, _, _) =>
      PrimFloat.leb (-1)%float (AnalysisReport.sentiment_score report) = true
      /\ PrimFloat.leb (AnalysisReport.sentiment_score report) 1%float = true
      /\ (1 <= length (AnalysisReport.key_findings report) <= 5)%nat
  | (Raise _, _, _) => False
  end.
Proof.
  destruct (run_agent (E := Script.env) Script.empty_registry "Analyze TSLA" "TSLA"
              None 10 false 0 overshoot_script) as [[[report|e] w'] tr] eqn:Hrun.
  - exact (proj1 (report_invariants (E := Script.env)) _ _ _ _ _ _ _ _ _ _ _ Hrun).
  - vm_compute in Hrun. discriminate.
Defined.

(** ** The seen-set of a monitored subject *)

Section StoreFacts.
Context {E : Env}.

Lemma seen_of_state (monitor : Monitor.t) :
  MonitorState.seen_article_hashes (_to_monitor_state monitor) = seen_of monitor.
Proof. reflexivity. Qed.

Lemma add_seen_articles_lookup (db : gmap string Monitor.t) (ticker : string)
  (article_hashes : gset string) (monitor : Monitor.t) :
  db !! str_upper ticker = Some monitor ->
  exists monitor',
    add_seen_articles db ticker article_hashes !! str_upper ticker = Some monitor'
    /\ seen_of monitor' = seen_of monitor ∪ article_hashes
    /\ Monitor.next_run monitor' = Monitor.next_run monitor
    /\ Monitor.last_run monitor' = Monitor.last_run monitor
    /\ Monitor.is_active monitor' = Monitor.is_active monitor.
Proof.
  intros Hm. unfold add_seen_articles. rewrite Hm.
  eexists. rewrite lookup_insert_eq. split; [reflexivity|].
  unfold seen_of at 1. cbn [seen_or_empty Monitor.seen_article_hashes].
  rewrite list_to_set_elements_L. auto.
Qed.

Lemma apply_op_seen (op : store_op) (db : gmap string Monitor.t) (w : World)
  (key : string) (monitor : Monitor.t) :
  db !! key = Some monitor ->
  exists monitor',
    fst (apply_op op db w) !! key = Some monitor'
    /\ seen_of monitor ⊆ seen_of monitor'.
Proof.
  intros Hm.
  destruct op as [t i n|t|t l n|t h|t| |]; simpl;
    try (exists monitor; split; [assumption | reflexivity]).
  - unfold create_monitor.
    destruct (decide (str_upper t = key)) as [<-|Hne].
    + rewrite Hm. simpl. rewrite lookup_insert_eq. eexists. split; reflexivity.
    + destruct (db !! str_upper t).
      * simpl. rewrite lookup_insert_ne by assumption. eauto.
      * destruct (utcnow w). simpl. rewrite lookup_insert_ne by assumption. eauto.
  - unfold update_last_run.
    destruct (decide (str_upper t = key)) as [<-|Hne].
    + rewrite Hm. simpl. rewrite lookup_insert_eq. eexists. split; reflexivity.
    + destruct (db !! str_upper t); simpl; [rewrite lookup_insert_ne by assumption|];
        eauto.
  - destruct (decide (str_upper t = key)) as [<-|Hne].
    + destruct (add_seen_articles_lookup db t h monitor Hm) as (m' & Hl & Hs & _).
      exists m'. split; [assumption|]. rewrite Hs. apply union_subseteq_l.
    + unfold add_seen_articles.
      destruct (db !! str_upper t); [rewrite lookup_insert_ne by assumption|]; eauto.
  - unfold stop_monitor.
    destruct (decide (str_upper t = key)) as [<-|Hne].
    + rewrite Hm. simpl. rewrite lookup_insert_eq. eexists. split; reflexivity.
    + destruct (db !! str_upper t); simpl; [rewrite lookup_insert_ne by assumption|];
        eauto.
Qed.

(** C8: the seen-set of an existing subject never shrinks. After
    [add_seen_articles] on the subject it is the union of the prior set
    and the added hashes; after any sequence of the store's operations
    (create-or-update, get, update of last and next run, add, stop, the
    two listings), on this subject or on others, the subject still exists
    and its set contains the prior set. *)
Theorem seen_set_monotone (db : gmap string Monitor.t) (key : string)
  (monitor : Monitor.t) (Hrow : db !! key = Some monitor) :
  (forall ticker article_hashes,
      str_upper ticker = key ->
      exists monitor',
        add_seen_articles db ticker article_hashes !! key = Some monitor'
        /\ seen_of monitor' = seen_of monitor ∪ article_hashes)
  /\ (forall ops w,
      exists monitor',
        fst (apply_ops ops db w) !! key = Some monitor'
        /\ seen_of monitor ⊆ seen_of monitor').
Proof.
  split.
  - intros ticker h <-.
    destruct (add_seen_articles_lookup db ticker h monitor Hrow) as (m' & Hl & Hs & _).
    eauto.
  - intros ops. revert db monitor Hrow.
    induction ops as [|op rest IH]; intros db monitor Hrow w; simpl.
    + exists monitor. split; [assumption | reflexivity].
    + destruct (apply_op_seen op db w key monitor Hrow) as (m1 & Hl1 & Hs1).
      destruct (apply_op op db w) as [db1 w1]. simpl in Hl1.
      destruct (IH db1 m1 Hl1 w1) as (m2 & Hl2 & Hs2).
      exists m2. split; [assumption|]. set_solver.
Qed.

End StoreFacts.

(** One subject in the table; a hash is added. *)
Lemma seen_set_monotone_witness :
  exists monitor',
    add_seen_articles (E := Script.env)
      (<["TSLA" := Monitor.mk "TSLA" 24%float None None (Some ["h1"]) true 0]> ∅)
      "TSLA" {["h2"]} !! "TSLA" = Some monitor'
    /\ seen_of monitor'
       = seen_of (Monitor.mk "TSLA" 24%float None None (Some ["h1"]) true 0) ∪ {["h2"]}.
Proof.
  exact (proj1
           (seen_set_monotone (E := Script.env)
              (<["TSLA" := Monitor.mk "TSLA" 24%float None None (Some ["h1"]) true 0]> ∅)
              "TSLA" (Monitor.mk "TSLA" 24%float None None (Some ["h1"]) true 0)
              (lookup_insert_eq _ _ _))
           "TSLA" {["h2"]} eq_refl).
Defined.

(** ** JSON extraction *)

Lemma append_cons (a : ascii) (r s : string) : String a r +:+ s = String a (r +:+ s).
Proof. reflexivity. Qed.

Lemma append_nil (s : string) : "" +:+ s = s.
Proof. reflexivity. Qed.

(** Pushes the appends of the goal below the characters at their head. *)
Ltac norm_app := repeat (rewrite append_cons || rewrite append_nil).

Lemma strip_prefix_app (p s : string) : strip_prefix p (p +:+ s) = Some s.
Proof.
  induction p as [|a p IH]; norm_app; simpl; [now destruct s|].
  now rewrite Ascii.eqb_refl.
Qed.

Lemma upto_last_brace_none (post : string) :
  lacks "}"%char post = true -> upto_last_brace post = None.
Proof.
  induction post as [|a r IH]; simpl; [reflexivity|].
  intros [Ha Hr]%andb_prop. rewrite (IH Hr).
  now destruct (Ascii.eqb a "}"%char).
Qed.

Lemma upto_last_brace_app (body post : string) :
  lacks "}"%char post = true ->
  upto_last_brace (body +:+ String "}" post) = Some (body +:+ "}").
Proof.
  intros Hp. induction body as [|a r IH]; norm_app; simpl.
  - now rewrite (upto_last_brace_none post Hp).
  - now rewrite IH.
Qed.

Lemma upto_last_brace_inv (s p : string) :
  upto_last_brace s = Some p ->
  exists body post,
    s = body +:+ String "}" post /\ p = body +:+ "}"
    /\ lacks "}"%char post = true.
Proof.
  revert p. induction s as [|a r IH]; simpl; intros p H; [discriminate|].
  destruct (upto_last_brace r) as [q|] eqn:Hq.
  - injection H as <-. destruct (IH q eq_refl) as (body & post & -> & -> & Hp).
    exists (String a body), post. auto.
  - destruct (Ascii.eqb_spec a "}"%char) as [->|]; [|discriminate].
    injection H as <-. exists EmptyString, r. repeat split.
    clear IH. induction r as [|b r IH]; simpl in *; [reflexivity|].
    destruct (upto_last_brace r); [discriminate|].
    destruct (Ascii.eqb b "}"%char); [discriminate|]. simpl. now apply IH.
Qed.

(** The greedy search returns the span from the first opening brace to
    the last closing brace. *)
Lemma search_braces_span (pre body post : string) :
  lacks "{"%char pre = true -> lacks "}"%char post = true ->
  search_braces (pre +:+ String "{" (body +:+ String "}" post))
  = Some (String "{" (body +:+ "}")).
Proof.
  intros Hpre Hpost. induction pre as [|a r IH]; norm_app; simpl.
  - now rewrite upto_last_brace_app.
  - simpl in Hpre. apply andb_prop in Hpre as [Ha Hr].
    destruct (Ascii.eqb a "{"%char); [discriminate|]. now apply IH.
Qed.

Lemma search_braces_inv (text g : string) :
  search_braces text = Some g ->
  exists pre body post,
    text = pre +:+ String "{" (body +:+ String "}" post)
    /\ g = String "{" (body +:+ "}")
    /\ lacks "{"%char pre = true /\ lacks "}"%char post = true.
Proof.
  revert g. induction text as [|a r IH]; simpl; intros g H; [discriminate|].
  destruct (Ascii.eqb_spec a "{"%char) as [->|Hne].
  - destruct (upto_last_brace r) as [p|] eqn:Hp; [|discriminate].
    injection H as <-.
    apply upto_last_brace_inv in Hp as (body & post & -> & -> & Hpost).
    exists EmptyString, body, post. auto.
  - destruct (IH g H) as (pre & body & post & -> & -> & Hpre & Hpost).
    exists (String a pre), body, post. repeat split; try assumption.
    simpl. rewrite Hpre. now destruct (Ascii.eqb_spec a "{"%char).
Qed.

Lemma search_fence_skip (pre rest : string) :
  lacks "`"%char pre = true -> search_fence (pre +:+ rest) = search_fence rest.
Proof.
  intros Hpre. induction pre as [|a r IH]; [reflexivity|].
  simpl in Hpre. apply andb_prop in Hpre as [Ha Hr].
  norm_app. cbn [search_fence]. unfold match_fence_at at 1. unfold fence at 1.
  cbn [strip_prefix].
  destruct (Ascii.eqb_spec "`"%char a) as [<-|_]; [discriminate|].
  now apply IH.
Qed.

Lemma skip_ws_spaces (ws s : string) :
  all_space ws = true -> skip_ws (ws +:+ s) = skip_ws s.
Proof.
  intros H. induction ws as [|a r IH]; [reflexivity|].
  simpl in H. apply andb_prop in H as [Ha Hr].
  norm_app. cbn [skip_ws]. rewrite Ha. now apply IH.
Qed.

Lemma skip_ws_lbrace (s : string) : skip_ws (String "{" s) = String "{" s.
Proof. destruct s as [|d [|e r]]; reflexivity. Qed.

Lemma skip_ws_fence (s : string) :
  skip_ws (String "`" (String "`" (String "`" s)))
  = String "`" (String "`" (String "`" s)).
Proof. reflexivity. Qed.

(** Inside a text without backtick that ends with a closing brace, white
    space never runs up to a fence. *)
Lemma no_fence_inside (n : nat) :
  forall x y : string,
    (String.length x <= n)%nat ->
    lacks "`"%char x = true ->
    starts_with fence (skip_ws (x +:+ String "}" y)) = false.
Proof.
  assert (Hhead : forall a s, negb (Ascii.eqb a "`"%char) = true ->
                              starts_with fence (String a s) = false).
  { intros a s Ha. unfold starts_with, fence. cbn [strip_prefix].
    rewrite Ascii.eqb_sym. apply negb_true_iff in Ha. now rewrite Ha. }
  assert (Hend : forall y, starts_with fence (skip_ws (String "}" y)) = false).
  { intros y. now destruct y as [|d [|e r]]. }
  induction n as [|n IH]; intros x y Hlen Hx.
  - destruct x; [|simpl in Hlen; lia]. norm_app. apply Hend.
  - destruct x as [|a r]; [norm_app; apply Hend|].
    simpl in Hlen. cbn [lacks] in Hx. apply andb_prop in Hx as [Ha Hr].
    norm_app. cbn [skip_ws].
    destruct (ascii_space a); [apply IH; [lia | assumption]|].
    destruct r as [|d r2]; norm_app.
    + replace (space2 a "}"%char) with false
        by (unfold space2; cbn; now rewrite andb_false_r).
      destruct y as [|e r3]; [now apply Hhead|].
      replace (space3 a "}"%char e) with false
        by (unfold space3; cbn; now rewrite !andb_false_r).
      now apply Hhead.
    + cbn [lacks] in Hr. apply andb_prop in Hr as [Hd Hr2].
      simpl in Hlen.
      destruct (space2 a d); [apply IH; [lia | assumption]|].
      destruct r2 as [|e r3]; norm_app.
      * replace (space3 a d "}"%char) with false
          by (unfold space3; cbn; now rewrite !andb_false_r).
        now apply Hhead.
      * cbn [lacks] in Hr2. apply andb_prop in Hr2 as [He Hr3].
        simpl in Hlen.
        destruct (space3 a d e); [apply IH; [lia | assumption]|].
        now apply Hhead.
Qed.

Lemma find_fence_close_body (body ws2 post : string) :
  lacks "`"%char body = true -> all_space ws2 = true ->
  find_fence_close
    (body +:+ String "}" (ws2 +:+ String "`" (String "`" (String "`" post))))
  = Some (body +:+ "}").
Proof.
  intros Hb Hw. induction body as [|a r IH]; norm_app.
  - cbn [find_fence_close]. rewrite Ascii.eqb_refl.
    rewrite skip_ws_spaces by assumption. reflexivity.
  - cbn [lacks] in Hb. apply andb_prop in Hb as [Ha Hr].
    cbn [find_fence_close].
    rewrite (no_fence_inside (String.length r) r) by (lia || assumption).
    rewrite andb_false_r, (IH Hr). reflexivity.
Qed.

Lemma match_fence_block (with_tag : bool) (ws1 body ws2 post : string) :
  all_space ws1 = true -> all_space ws2 = true -> lacks "`"%char body = true ->
  match_fence_at
    (fence +:+ (if with_tag then "json" else "") +:+ ws1 +:+ "{" +:+ body
     +:+ "}" +:+ ws2 +:+ fence +:+ post)
  = Some ("{" +:+ body +:+ "}").
Proof.
  intros H1 H2 Hb. unfold match_fence_at. rewrite strip_prefix_app.
  assert (Hgo :
             match skip_ws
                     (ws1 +:+ "{" +:+ body +:+ "}" +:+ ws2 +:+ fence +:+ post) with
             | EmptyString => None
             | String c r2 =>
                 if Ascii.eqb c "{"%char then
                   match find_fence_close r2 with
                   | Some g => Some (String c g)
                   | None => None
                   end
                 else None
             end = Some ("{" +:+ body +:+ "}")).
  { rewrite skip_ws_spaces by assumption. unfold fence. norm_app.
    rewrite skip_ws_lbrace, Ascii.eqb_refl.
    now rewrite find_fence_close_body. }
  destruct with_tag.
  - rewrite strip_prefix_app. exact Hgo.
  - rewrite append_nil.
    destruct (strip_prefix "json" _) as [r'|] eqn:Hj; [|exact Hgo].
    exfalso. destruct ws1 as [|a r].
    + rewrite append_nil in Hj. discriminate.
    + cbn [all_space] in H1. apply andb_prop in H1 as [Ha _].
      rewrite append_cons in Hj. cbn [strip_prefix] in Hj.
      destruct (Ascii.eqb_spec "j"%char a) as [<-|]; discriminate.
Qed.

(** C5, as the code has it: the three tiers are tried in order and the
    first that parses wins, else the result is [None]; the second tier
    parses the whole trimmed text; the third tier parses the span from the
    first opening brace to the LAST closing brace of the text (the greedy
    match), not the first brace-balanced substring; and a fenced object
    without backtick, after prose without backtick, is returned exactly,
    whatever follows the closing fence. *)
Theorem extract_json_tiers :
  (forall text,
      _extract_json text
      = match tier_fenced text with
        | Some v => v
        | None =>
            match json_loads (strip text) with
            | Some v => v
            | None =>
                match search_braces text with
                | Some span =>
                    match json_loads span with Some v => v | None => VNone end
                | None => VNone
                end
            end
        end)
  /\ (forall pre body post,
      lacks "{"%char pre = true -> lacks "}"%char post = true ->
      search_braces (pre +:+ "{" +:+ body +:+ "}" +:+ post)
      = Some ("{" +:+ body +:+ "}"))
  /\ (forall text span,
      search_braces text = Some span ->
      exists pre body post,
        text = pre +:+ "{" +:+ body +:+ "}" +:+ post
        /\ span = "{" +:+ body +:+ "}"
        /\ lacks "{"%char pre = true /\ lacks "}"%char post = true)
  /\ (forall pre (with_tag : bool) ws1 body ws2 post v,
      lacks "`"%char pre = true -> all_space ws1 = true -> all_space ws2 = true ->
      lacks "`"%char body = true ->
      json_loads ("{" +:+ body +:+ "}") = Some v ->
      _extract_json
        (pre +:+ fence +:+ (if with_tag then "json" else "") +:+ ws1 +:+ "{"
         +:+ body +:+ "}" +:+ ws2 +:+ fence +:+ post)
      = v).
Proof.
  split; [|split; [|split]].
  - intros text. unfold _extract_json, tier_whole, tier_braces.
    destruct (tier_fenced text); [reflexivity|].
    destruct (json_loads (strip text)); [reflexivity|].
    destruct (search_braces text); reflexivity.
  - exact search_braces_span.
  - exact search_braces_inv.
  - intros pre with_tag ws1 body ws2 post v Hpre H1 H2 Hb Hv.
    unfold _extract_json, tier_fenced.
    rewrite search_fence_skip by assumption.
    pose proof (match_fence_block with_tag ws1 body ws2 post H1 H2 Hb) as Hm.
    unfold fence at 1 in Hm. unfold fence at 1.
    rewrite append_cons in Hm. rewrite append_cons.
    cbn [search_fence]. rewrite Hm, Hv. reflexivity.
Qed.

(** A reply with two objects in prose: the greedy span covers both and
    does not parse, so the code extracts nothing, where the first
    brace-balanced substring is the first object. *)
Lemma extract_json_not_balanced :
  _extract_json (dq "note {'a':1} then {'b':2}")
  <> spec_extract_json (dq "note {'a':1} then {'b':2}")
  /\ search_braces (dq "note {'a':1} then {'b':2}") = Some (dq "{'a':1} then {'b':2}")
  /\ first_balanced (dq "note {'a':1} then {'b':2}") = Some (dq "{'a':1}")
  /\ _extract_json (dq "note {'a':1} then {'b':2}") = VNone
  /\ spec_extract_json (dq "note {'a':1} then {'b':2}") = VDict [("a", VInt 1)].
Proof. vm_compute. repeat split. discriminate. Qed.

(** A fenced object between two lines of prose. *)
Lemma extract_json_tiers_witness :
  _extract_json
    ("Here you go:" +:+ fence +:+ "json" +:+ newline +:+ "{"
     +:+ dq "'action': 'final_answer'" +:+ "}" +:+ newline +:+ fence
     +:+ " Hope {this} helps.")
  = VDict [("action", VStr "final_answer")].
Proof.
  apply (proj2 (proj2 (proj2 extract_json_tiers))
           "Here you go:" true newline (dq "'action': 'final_answer'") newline
           " Hope {this} helps.");
    reflexivity.
Defined.

(** ** The reasoning-acting loop: budget *)

Section LoopFacts.
Context {E : Env}.

Lemma model_calls_app (a b : list event) :
  model_calls (a ++ b) = (model_calls a + model_calls b)%nat.
Proof.
  induction a as [|ev a IH]; [reflexivity|].
  destruct ev; simpl; rewrite IH; reflexivity.
Qed.

Lemma length_py_range (a b : Z) : length (py_range a b) = Z.to_nat (b - a).
Proof. unfold py_range. now rewrite length_map, length_seq. Qed.

Lemma list_set_nil : list_set [] = [].
Proof. unfold list_set. simpl. apply elements_empty. Qed.

Lemma run_tool_events (registry : ToolRegistry) (action : string)
  (step : ReActStep.t) (steps : list ReActStep.t) (tools_used : list string)
  (sources : list pyval) (w w' : World) (fl : flow) (evs : list event) :
  run_tool registry action step steps tools_used sources w = (fl, w', evs) ->
  exists res steps' tools_used' sources',
    evs = [EvTool action (ReActStep.action_input step) res]
    /\ fl = Continue steps' tools_used' sources'.
Proof.
  unfold run_tool. intros H.
  destruct (call_tool registry action (ReActStep.action_input step) w)
    as [[result|e] w1].
  - destruct (ToolResult.success result).
    + destruct (on_tool_success _ _ _ _ _) as [[s1 t1] so1].
      injection H as <- _ <-. eauto 8.
    + injection H as <- _ <-. eauto 8.
  - injection H as <- _ <-. eauto 8.
Qed.

(** Every pass through the body makes exactly one model call. *)
Lemma loop_body_calls (registry : ToolRegistry) (ticker company query : string)
  (step_num : Z) (steps : list ReActStep.t) (tools_used : list string)
  (sources : list pyval) (w w' : World) (fl : flow) (evs : list event) :
  loop_body registry ticker company query step_num steps tools_used sources w
  = (fl, w', evs) ->
  exists reply rest,
    evs = EvModel (react_prompt registry ticker company query steps) reply :: rest
    /\ fst (generate_content (react_prompt registry ticker company query steps)
              (Some gemini_react_model) (Some 0.3%float) w) = reply
    /\ model_calls rest = 0%nat
    /\ (rest = [] \/ exists a i r, rest = [EvTool a i r]).
Proof.
  unfold loop_body. intros H.
  destruct (generate_content _ _ _ w) as [[response|e] w1]; simpl.
  2:{ injection H as _ _ <-. eauto 8. }
  destruct (negb (truthy (_extract_json response))).
  { injection H as _ _ <-. eauto 8. }
  destruct (read_step step_num (_extract_json response)) as [step|e].
  2:{ injection H as _ _ <-. eauto 8. }
  destruct (py_eq_str (ReActStep.action step) "final_answer").
  { injection H as _ _ <-. eauto 8. }
  destruct (registry_contains registry (ReActStep.action step)) as [[|]|e].
  - destruct (ReActStep.action step);
      try (injection H as _ _ <-; eauto 8; fail).
    destruct (run_tool _ _ _ _ _ _ _) as [[fl1 w2] evs1] eqn:Hr.
    apply run_tool_events in Hr as (res & s' & t' & so' & -> & _).
    injection H as _ _ <-. eauto 10.
  - destruct (ReActStep.action step); injection H as _ _ <-; eauto 8.
  - destruct (ReActStep.action step); injection H as _ _ <-; eauto 8.
Qed.

(** A reply without JSON leaves the state as it was and lets the loop go
    on. *)
Lemma loop_body_skip (registry : ToolRegistry) (ticker company query : string)
  (step_num : Z) (steps : list ReActStep.t) (tools_used : list string)
  (sources : list pyval) (w w1 : World) (response : string) :
  generate_content (react_prompt registry ticker company query steps)
    (Some gemini_react_model) (Some 0.3%float) w = (Ret response, w1) ->
  truthy (_extract_json response) = false ->
  loop_body registry ticker company query step_num steps tools_used sources w
  = (Continue steps tools_used sources, w1,
     [EvModel (react_prompt registry ticker company query steps) (Ret response)]).
Proof.
  intros Hg Hp. unfold loop_body. rewrite Hg, Hp. reflexivity.
Qed.

Lemma loop_body_return (registry : ToolRegistry) (ticker company query : string)
  (step_num : Z) (steps : list ReActStep.t) (tools_used : list string)
  (sources : list pyval) (w w' : World) (r : ReActResult.t) (evs : list event) :
  loop_body registry ticker company query step_num steps tools_used sources w
  = (Return r, w', evs) ->
  ReActResult.success r = true
  \/ (ReActResult.success r = false
      /\ exists msg, ReActResult.error r = Some ("LLM call failed: " +:+ msg)).
Proof.
  unfold loop_body. intros H.
  destruct (generate_content _ _ _ w) as [[response|e] w1].
  2:{ injection H as <- _ _. right. simpl. eauto. }
  destruct (negb (truthy (_extract_json response))); [discriminate|].
  destruct (read_step step_num (_extract_json response)) as [step|e]; [|discriminate].
  destruct (py_eq_str (ReActStep.action step) "final_answer").
  { injection H as <- _ _. now left. }
  destruct (registry_contains registry (ReActStep.action step)) as [[|]|e];
    destruct (ReActStep.action step); try discriminate.
  destruct (run_tool _ _ _ _ _ _ _) as [[fl1 w2] evs1] eqn:Hr.
  apply run_tool_events in Hr as (res & s' & t' & so' & _ & ->). discriminate.
Qed.

Lemma react_loop_budget_gen (registry : ToolRegistry) (ticker company query : string)
  (max_steps : Z) (step_nums : list Z) :
  forall steps tools_used sources w res w' tr,
    react_loop registry ticker company query max_steps step_nums steps tools_used
      sources w = (res, w', tr) ->
    (model_calls tr <= length step_nums)%nat
    /\ ((exists e, res = Raise e)
        \/ (exists r, res = Ret r
              /\ (ReActResult.success r = true
                  \/ (ReActResult.success r = false
                      /\ exists msg,
                          ReActResult.error r = Some ("LLM call failed: " +:+ msg))
                  \/ (ReActResult.success r = false
                      /\ ReActResult.final_answer r = None
                      /\ ReActResult.error r
                         = Some ("Analysis incomplete after " +:+ pretty max_steps
                                 +:+ " steps")
                      /\ model_calls tr = length step_nums))))
    /\ (Forall no_json tr ->
        res = Ret (exhausted max_steps steps tools_used sources)
        /\ model_calls tr = length step_nums).
Proof.
  induction step_nums as [|n rest IH]; intros steps tools_used sources w res w' tr H.
  - cbn [react_loop] in H. injection H as <- _ <-. simpl.
    split; [lia|]. split; [|auto]. right. eexists. split; [reflexivity|].
    right. right. simpl. auto.
  - cbn [react_loop] in H.
    destruct (loop_body registry ticker company query n steps tools_used sources w)
      as [[fl w1] evs] eqn:Hb.
    destruct (loop_body_calls _ _ _ _ _ _ _ _ _ _ _ _ Hb)
      as (reply & more & -> & Hre & Hm & _).
    destruct fl as [steps1 tools1 sources1|r|e].
    + destruct (react_loop _ _ _ _ _ rest _ _ _ _) as [[r2 w2] evs2] eqn:Hl.
      injection H as <- _ <-.
      destruct (IH _ _ _ _ _ _ _ Hl) as (Hle & Hcls & Hnj).
      cbn [app model_calls length]. rewrite model_calls_app, Hm. cbn [Nat.add].
      split; [lia|]. split.
      * destruct Hcls as [He|(r & -> & [Hs|[Hf|(Hs & Hfa & Herr & Hc)]])]; auto.
        -- right. eauto.
        -- right. eauto.
        -- right. exists r. split; [reflexivity|]. right. right. auto.
      * intros Hall. apply Forall_cons in Hall as [Hhd Htl].
        apply Forall_app in Htl as [_ Htl].
        destruct reply as [response|e]; [|contradiction]. cbn [no_json] in Hhd.
        destruct (generate_content _ _ _ w) as [g w0] eqn:Hg. simpl in Hre. subst g.
        rewrite (loop_body_skip _ _ _ _ n steps tools_used sources w w0 response Hg Hhd)
          in Hb.
        injection Hb as <- <- <- _ _.
        destruct (Hnj Htl) as [-> ->]. auto.
    + injection H as <- _ <-. cbn [model_calls length]. rewrite Hm.
      split; [lia|]. split.
      * right. exists r. split; [reflexivity|].
        destruct (loop_body_return _ _ _ _ _ _ _ _ _ _ _ _ Hb) as [Hs|Hf]; auto.
      * intros Hall. exfalso. apply Forall_cons in Hall as [Hhd _].
        destruct reply as [response|e]; [|contradiction]. cbn [no_json] in Hhd.
        destruct (generate_content _ _ _ w) as [g w0] eqn:Hg. simpl in Hre. subst g.
        rewrite (loop_body_skip _ _ _ _ n steps tools_used sources w w0 response Hg Hhd)
          in Hb.
        discriminate.
    + injection H as <- _ <-. cbn [model_calls length]. rewrite Hm.
      split; [lia|]. split; [left; eauto|].
      intros Hall. exfalso. apply Forall_cons in Hall as [Hhd _].
      destruct reply as [response|e0]; [|contradiction]. cbn [no_json] in Hhd.
      destruct (generate_content _ _ _ w) as [g w0] eqn:Hg. simpl in Hre. subst g.
      rewrite (loop_body_skip _ _ _ _ n steps tools_used sources w w0 response Hg Hhd)
        in Hb.
      discriminate.
Qed.


End LoopFacts.


(** ** The reasoning-acting loop: replies that are not maps *)

Section LoopFaults.
Context {E : Env}.

(** C10 (refuted on the code): when the first reply parses to a truthy
    value that is not a map (a non-empty array, a non-zero number, a
    non-empty string, [true]), reading [thought] off it raises an
    [AttributeError] that nothing catches: the run raises instead of
    returning a result. *)
Theorem react_loop_raises_on_non_map (tool_registry : ToolRegistry)
  (ticker query : string) (company_name : option string) (max_steps : Z)
  (w w1 : World) (response : string) :
  1 <= max_steps ->
  generate_content
    (react_prompt (register_all_tools tool_registry) ticker
       (or_default company_name ticker) query [])
    (Some gemini_react_model) (Some 0.3%float) w = (Ret response, w1) ->
  truthy (_extract_json response) = true ->
  (forall d, _extract_json response <> VDict d) ->
  fst (fst (run_react_loop tool_registry ticker query company_name max_steps w))
  = Raise (Exn "AttributeError"
             ("'" +:+ type_name (_extract_json response)
              +:+ "' object has no attribute 'get'")).
Proof.
  intros Hn Hg Ht Hd. unfold run_react_loop, py_range.
  replace (max_steps + 1 - 1) with max_steps by lia.
  destruct (Z.to_nat max_steps) as [|k] eqn:Hk; [lia|].
  cbn [seq map react_loop]. unfold loop_body. rewrite Hg, Ht. cbn [negb].
  unfold read_step.
  destruct (_extract_json response) as [| | | | | |d];
    try reflexivity.
  now destruct (Hd d).
Qed.

End LoopFaults.

(** The model answers with a JSON array. *)
Lemma react_loop_raises_on_non_map_witness :
  fst (fst (run_react_loop (E := Script.env) Script.empty_registry "TSLA"
              "Analyze TSLA" None 10 (Script.mk [Ret "[1]"] [] 0)))
  = Raise (Exn "AttributeError" "'list' object has no attribute 'get'").
Proof.
  apply (react_loop_raises_on_non_map (E := Script.env) Script.empty_registry "TSLA"
           "Analyze TSLA" None 10 (Script.mk [Ret "[1]"] [] 0) (Script.mk [] [] 0) "[1]").
  - lia.
  - reflexivity.
  - reflexivity.
  - intros d. vm_compute. discriminate.
Defined.

(** ** A monitor firing below the threshold *)

Section MonitorFacts.
Context {E : Env}.

Lemma filter_new_dump (seen : gset string) (l : list NewsArticleSchema.t) :
  forall (new_articles : list pyval) (new_hashes : gset string),
    filter_new (map article_dump l) seen new_articles new_hashes
    = Ret (new_articles ++ map article_dump (unseen seen l),
           new_hashes ∪ list_to_set (map fingerprint (unseen seen l))).
Proof.
  induction l as [|a l IH]; intros na nh.
  - cbn. rewrite app_nil_r, union_empty_r_L. reflexivity.
  - cbn [map filter_new]. change (py_get (article_dump a) "title" (VStr ""))
      with (Ret (VStr (NewsArticleSchema.title a))).
    change (py_get (article_dump a) "url" (VStr ""))
      with (Ret (VStr (NewsArticleSchema.url a))).
    cbn [mbind outcome_bind]. fold (fingerprint a). unfold unseen.
    destruct (decide (fingerprint a ∈ seen)) as [Hin|Hout].
    + rewrite filter_cons_False by auto. apply IH.
    + rewrite filter_cons_True by assumption. rewrite IH. cbn [map list_to_set].
      f_equal. f_equal.
      * now rewrite <- app_assoc.
      * fold (unseen seen l). now rewrite union_assoc_L.
Qed.

Lemma seen_all (seen : gset string) (l : list NewsArticleSchema.t) :
  seen ∪ list_to_set (map fingerprint (unseen seen l))
  = seen ∪ list_to_set (map fingerprint l).
Proof.
  apply set_eq. intros x. rewrite !elem_of_union, !elem_of_list_to_set, !list_elem_of_fmap.
  unfold unseen. split.
  - intros [?|(a & -> & Ha)]; [now left|].
    apply list_elem_of_filter in Ha as [_ Ha]. right. eauto.
  - intros [?|(a & -> & Ha)]; [now left|].
    destruct (decide (fingerprint a ∈ seen)); [now left|].
    right. exists a. split; [reflexivity|]. apply list_elem_of_filter. auto.
Qed.

(** C4: a firing for an active subject whose fetch returns [M] articles,
    of which fewer than the configured minimum have a fingerprint outside
    the subject's seen-set: no alert is created, last run and next run
    are set to now and now plus the interval, and the persisted seen-set
    afterwards is the prior set together with the fingerprints of all the
    fetched articles. *)
Theorem monitoring_below_threshold (tool_registry : ToolRegistry) (ticker : string)
  (st : Stores) (w w1 w2 : World) (monitor : Monitor.t) (now : datetime)
  (result : NewsRetrieverResult.t) :
  monitors st !! str_upper ticker = Some monitor ->
  Monitor.is_active monitor = true ->
  utcnow w = (now, w1) ->
  news_retriever_body (VStr ticker) (VStr ticker) (VInt 1) (VInt 10) w1
  = (Ret (inr result), w2) ->
  Z.of_nat (length (unseen (seen_of monitor) (NewsRetrieverResult.articles result)))
  < monitor_min_articles ->
  alerts (fst (monitoring_task tool_registry ticker st w)) = alerts st
  /\ exists monitor',
      monitors (fst (monitoring_task tool_registry ticker st w)) !! str_upper ticker
      = Some monitor'
      /\ Monitor.last_run monitor' = Some now
      /\ Monitor.next_run monitor'
         = Some (add_hours now (Monitor.interval_hours monitor))
      /\ seen_of monitor'
         = seen_of monitor
           ∪ list_to_set (map fingerprint (NewsRetrieverResult.articles result))
      /\ (forall a, a ∈ NewsRetrieverResult.articles result ->
                    fingerprint a ∈ seen_of monitor').
Proof.
  intros Hrow Hact Hnow Hnews Hk.
  set (fetched := NewsRetrieverResult.articles result) in *.
  assert (Hgoal : forall st' : Stores,
    alerts st' = alerts st ->
    (exists monitor',
      monitors st' !! str_upper ticker = Some monitor'
      /\ Monitor.last_run monitor' = Some now
      /\ Monitor.next_run monitor'
         = Some (add_hours now (Monitor.interval_hours monitor))
      /\ seen_of monitor' = seen_of monitor ∪ list_to_set (map fingerprint fetched)) ->
    alerts st' = alerts st
    /\ exists monitor',
      monitors st' !! str_upper ticker = Some monitor'
      /\ Monitor.last_run monitor' = Some now
      /\ Monitor.next_run monitor'
         = Some (add_hours now (Monitor.interval_hours monitor))
      /\ seen_of monitor' = seen_of monitor ∪ list_to_set (map fingerprint fetched)
      /\ (forall a, a ∈ fetched -> fingerprint a ∈ seen_of monitor')).
  { intros st' Ha (m' & Hl & Hlr & Hnr & Hs). split; [assumption|].
    exists m'. repeat split; try assumption.
    intros a Ha'. rewrite Hs. apply elem_of_union_r, elem_of_list_to_set.
    apply list_elem_of_fmap. eauto. }
  unfold monitoring_task, get_monitor. rewrite Hrow. cbn [fmap option_fmap option_map].
  cbn [_to_monitor_state MonitorState.is_active MonitorState.interval_hours
       MonitorState.seen_article_hashes].
  rewrite Hact, Hnow. cbn [negb].
  unfold news_retriever_call. rewrite Hnews.
  unfold update_last_run. rewrite Hrow. cbn [snd].
  set (monitor1 := Monitor.mk _ _ (Some now) _ _ _ _).
  set (db1 := <[str_upper ticker := monitor1]> (monitors st)).
  assert (Hdb1 : db1 !! str_upper ticker = Some monitor1) by apply lookup_insert_eq.
  unfold process_news. cbn [ToolResult.success ToolResult.data negb].
  change (py_get (model_dump result) "articles" (VList []))
    with (Ret (VList (map article_dump fetched))).
  change (MonitorState.seen_article_hashes (_to_monitor_state monitor))
    with (seen_of monitor).
  clearbody fetched.
  destruct fetched as [|a0 l0].
  - cbn [map truthy negb fst]. apply Hgoal; [reflexivity|].
    exists monitor1. cbn. rewrite union_empty_r_L. auto.
  - replace (truthy (VList (map article_dump (a0 :: l0)))) with true by reflexivity.
    cbn [negb py_iter mbind outcome_bind].
    rewrite filter_new_dump. rewrite app_nil_l, union_empty_l_L, length_map.
    apply Z.ltb_lt in Hk. rewrite Hk.
    destruct (decide (list_to_set (map fingerprint (unseen (seen_of monitor) (a0 :: l0)))
                      = (∅ : gset string))) as [He|Hne].
    + cbn [fst]. apply Hgoal; [reflexivity|].
      exists monitor1. cbn [monitors]. split; [assumption|].
      split; [reflexivity|]. split; [reflexivity|].
      rewrite <- seen_all, He, union_empty_r_L. reflexivity.
    + cbn [fst]. apply Hgoal; [reflexivity|]. cbn [monitors].
      destruct (add_seen_articles_lookup db1 ticker
                  (list_to_set (map fingerprint (unseen (seen_of monitor) (a0 :: l0))))
                  monitor1 Hdb1) as (m' & Hl & Hs & Hnr & Hlr & _).
      exists m'. split; [assumption|]. rewrite Hlr, Hnr, Hs.
      split; [reflexivity|]. split; [reflexivity|]. apply seen_all.
Qed.

End MonitorFacts.

(** Three articles are fetched, one of them seen before; the minimum is
    five. *)
Lemma monitoring_below_threshold_witness :
  alerts
    (fst (monitoring_task (E := Script.env) Script.empty_registry "TSLA"
            {| monitors :=
                 <["TSLA" := Monitor.mk "TSLA" 24%float None None (Some ["a:u1"]) true 0]> ∅;
               alerts := [] |}
            (Script.mk []
               [Ret (inr (Script.headlines
                            [Script.article "a" "u1"; Script.article "b" "u2";
                             Script.article "c" "u3"]))] 7)))
  = [].
Proof.
  apply (monitoring_below_threshold (E := Script.env) Script.empty_registry "TSLA"
           {| monitors :=
                <["TSLA" := Monitor.mk "TSLA" 24%float None None (Some ["a:u1"]) true 0]> ∅;
              alerts := [] |}
           (Script.mk []
              [Ret (inr (Script.headlines
                           [Script.article "a" "u1"; Script.article "b" "u2";
                            Script.article "c" "u3"]))] 7)
           (Script.mk []
              [Ret (inr (Script.headlines
                           [Script.article "a" "u1"; Script.article "b" "u2";
                            Script.article "c" "u3"]))] 8)
           (Script.mk [] [] 8)
           (Monitor.mk "TSLA" 24%float None None (Some ["a:u1"]) true 0) 7
           (Script.headlines
              [Script.article "a" "u1"; Script.article "b" "u2";
               Script.article "c" "u3"])).
  - apply lookup_insert_eq.
  - reflexivity.
  - reflexivity.
  - reflexivity.
  - vm_compute. reflexivity.
Defined.

(** ** The retry protocol under a gate that never accepts *)

Section RetryFacts.
Context {E : Env}.

Lemma loop_runs_app (a b : list event) :
  loop_runs (a ++ b) = (loop_runs a + loop_runs b)%nat.
Proof.
  induction a as [|ev a IH]; [reflexivity|].
  destruct ev; simpl; rewrite IH; reflexivity.
Qed.

Lemma last_loop_app (a b : list event) :
  last_loop (a ++ b)
  = match last_loop b with Some x => Some x | None => last_loop a end.
Proof.
  induction a as [|ev a IH]; simpl.
  - now destruct (last_loop b).
  - rewrite IH. now destruct (last_loop b).
Qed.

Lemma plain_no_loop (tr : list event) :
  Forall plain tr -> loop_runs tr = 0%nat /\ last_loop tr = None.
Proof.
  induction 1 as [|ev tr Hev _ [IH1 IH2]]; [auto|].
  destruct ev; try contradiction; simpl; rewrite IH2; auto.
Qed.

Lemma react_loop_plain (registry : ToolRegistry) (ticker company query : string)
  (max_steps : Z) (step_nums : list Z) :
  forall steps tools_used sources w res w' tr,
    react_loop registry ticker company query max_steps step_nums steps tools_used
      sources w = (res, w', tr) ->
    Forall plain tr.
Proof.
  induction step_nums as [|n rest IH]; intros steps tools_used sources w res w' tr H.
  - injection H as _ _ <-. constructor.
  - cbn [react_loop] in H.
    destruct (loop_body registry ticker company query n steps tools_used sources w)
      as [[fl w1] evs] eqn:Hb.
    destruct (loop_body_calls _ _ _ _ _ _ _ _ _ _ _ _ Hb)
      as (reply & more & -> & _ & _ & Hmore).
    assert (Hp : Forall plain (EvModel (react_prompt registry ticker company query steps)
                                 reply :: more)).
    { constructor; [exact I|].
      destruct Hmore as [->|(a & i & r & ->)]; repeat constructor. }
    destruct fl as [steps1 tools1 sources1|r|e].
    + destruct (react_loop _ _ _ _ _ rest _ _ _ _) as [[r2 w2] evs2] eqn:Hl.
      injection H as _ _ <-. apply Forall_cons in Hp as [_ Hp].
      constructor; [exact I|]. apply Forall_app_2; [assumption|]. eauto.
    + injection H as _ _ <-. assumption.
    + injection H as _ _ <-. assumption.
Qed.

Lemma shaped_range (max_retries : Z) :
  0 <= max_retries ->
  shaped max_retries (py_range 0 (max_retries + 1))
  /\ py_range 0 (max_retries + 1) <> [].
Proof.
  intros Hr. unfold py_range.
  replace (max_retries + 1 - 0) with (max_retries + 1) by lia.
  split.
  - assert (Hgen : forall n k : nat,
               Z.of_nat k + Z.of_nat n = max_retries + 1 ->
               shaped max_retries (map (fun i : nat => 0 + Z.of_nat i) (seq k n))).
    { induction n as [|m IH]; intros k Hk; [exact I|].
      cbn [seq map shaped]. split.
      - destruct m as [|m']; cbn [seq map]; [apply Z.ltb_ge | apply Z.ltb_lt]; lia.
      - apply IH. lia. }
    apply Hgen. lia.
  - destruct (Z.to_nat (max_retries + 1)) eqn:Hn; [lia | discriminate].
Qed.

Lemma attempts_verdict (tool_registry : ToolRegistry) (query ticker : string)
  (company_name : option string) (max_steps max_retries : Z) (attempts : list Z) :
  shaped max_retries attempts -> attempts <> [] ->
  forall last_error w res w' tr,
    attempts_loop tool_registry query ticker company_name max_steps true
      max_retries attempts last_error w = (res, w', tr) ->
    Forall rejecting tr ->
    verdict ticker max_retries (length attempts) res tr.
Proof.
  induction attempts as [|attempt rest IH]; intros Hshape Hne; [congruence|].
  intros last_error w res w' tr H Hrej.
  destruct Hshape as [Hlast Hshape].
  cbn [attempts_loop] in H.
  destruct (run_react_loop tool_registry ticker query company_name max_steps w)
    as [[res0 w1] evs] eqn:Hrun.
  assert (Hplain : Forall plain evs).
  { unfold run_react_loop in Hrun. eapply react_loop_plain. eassumption. }
  destruct (plain_no_loop evs Hplain) as [Hruns0 Hlast0].
  apply with_events_Ret in H as [tr1 [H ->]].
  apply Forall_app in Hrej as [_ Hrej1].
  (* what holds when the rest of the attempts is run after this one *)
  assert (Hagain : forall cause w2 pre tr2,
             attempts_loop tool_registry query ticker company_name max_steps true
               max_retries rest (Some cause) w2 = (res, w', tr2) ->
             Forall rejecting tr2 ->
             Forall (fun ev => loop_runs [ev] = 0%nat /\ last_loop [ev] = None) pre ->
             (rest = [] ->
              exists rr, res0 = Ret rr /\ cause = failure_cause rr
                         /\ (ReActResult.success rr = false
                             \/ falsy_opt (ReActResult.final_answer rr) = true)
                         /\ pre = []) ->
             verdict ticker max_retries (S (length rest)) res
               ((evs ++ [EvLoop res0]) ++ pre ++ tr2)).
  { intros cause w2 pre tr2 Hloop Hrej2 Hpre Hend.
    assert (Hpre0 : loop_runs pre = 0%nat /\ last_loop pre = None).
    { clear -Hpre. induction Hpre as [|ev pre [H1 H2] _ [IH1 IH2]]; [auto|].
      destruct ev; simpl in *; try discriminate; rewrite ?IH2; auto. }
    destruct Hpre0 as [Hp1 Hp2].
    destruct rest as [|a2 rest2].
    - destruct (Hend eq_refl) as (rr & -> & -> & Hfail & ->).
      cbn [attempts_loop] in Hloop. injection Hloop as <- _ <-.
      unfold verdict. rewrite !loop_runs_app, !last_loop_app, Hruns0. simpl.
      split; [lia|]. right. exists rr. split; [reflexivity|]. left.
      repeat split; auto.
    - assert (Hne2 : a2 :: rest2 <> []) by discriminate.
      destruct (IH Hshape Hne2 _ _ _ _ _ Hloop Hrej2) as (Hle & Hcls).
      assert (Hsome : exists x, last_loop tr2 = Some x).
      { destruct Hcls as [(e & Hl & _)|(rr & Hl & _)]; eauto. }
      destruct Hsome as [x Hx].
      unfold verdict.
      rewrite !loop_runs_app, !last_loop_app, Hruns0, Hp1, Hx.
      cbn [loop_runs Nat.add]. split; [simpl in *; lia|].
      rewrite Hx in Hcls.
      destruct Hcls as [(e & Hl & Hr)|(rr & Hl & Hcase)]; [left; eauto|].
      right. exists rr. split; [assumption|].
      destruct Hcase as [(Hfail & Hn & Hr)|(final & Hs & Hfa & Ht & Hcase)].
      + left. repeat split; auto; simpl in *; lia.
      + right. exists final. repeat split; auto.
        destruct Hcase as [?|(summary & score & kf & now & Hsan & Hn & Hr)]; [now left|].
        right. exists summary, score, kf, now. repeat split; auto; simpl in *; lia. }
  destruct res0 as [rr|e].
  2:{ injection H as <- _ <-. unfold verdict.
      rewrite app_nil_r, loop_runs_app, last_loop_app, Hruns0. simpl.
      split; [lia|]. left. eauto. }
  destruct (ReActResult.success rr) eqn:Hsucc; cbn [negb] in H.
  2:{ specialize (Hagain _ _ [] _ H Hrej1). rewrite app_nil_l in Hagain.
      apply Hagain; [constructor|].
      intros _. exists rr. unfold failure_cause. rewrite Hsucc. auto. }
  destruct (falsy_opt (ReActResult.final_answer rr)) eqn:Hfalsy.
  { specialize (Hagain _ _ [] _ H Hrej1). rewrite app_nil_l in Hagain.
    apply Hagain; [constructor|].
    intros _. exists rr. unfold failure_cause. rewrite Hsucc. auto. }
  destruct (ReActResult.final_answer rr) as [final|] eqn:Hfinal; [|discriminate].
  cbn [falsy_opt] in Hfalsy. apply negb_false_iff in Hfalsy.
  destruct (sanitize final) as [[[summary score] kf]|e] eqn:Hsan.
  2:{ injection H as <- _ <-. unfold verdict.
      rewrite app_nil_r, loop_runs_app, last_loop_app, Hruns0. simpl.
      split; [lia|]. right. exists rr. split; [reflexivity|]. right.
      exists final. repeat split; auto. left. eauto. }
  destruct (reflect_on_analysis _ _ _ _ _ _ _ _) as [reflection w2].
  apply with_events_Ret in H as [tr2 [H ->]].
  apply Forall_cons in Hrej1 as [Hrej0 Hrej2]. cbn [rejecting] in Hrej0.
  rewrite Hrej0 in H. rewrite andb_false_r in H. cbn [negb andb] in H.
  rewrite Hlast in H.
  destruct rest as [|a2 rest2].
  - destruct (build_report _ _ _ _ _ _) as [r w3] eqn:Hb.
    injection H as <- _ <-. unfold build_report in Hb.
    destruct (utcnow w2) as [now w4]. injection Hb as <- _.
    unfold verdict. rewrite !loop_runs_app, !last_loop_app, Hruns0. simpl.
    split; [lia|]. right. exists rr. split; [reflexivity|]. right.
    exists final. repeat split; auto. right. exists summary, score, kf, now. auto.
  - apply (Hagain _ _ [EvReflection reflection] _ H Hrej2).
    + repeat constructor.
    + discriminate.
Qed.

(** What the validation of the report decides for fields that went
    through [sanitize]: the bounds hold, so the summary being a string and
    the sources being strings is all that is asked. *)
Lemma new_AnalysisReport_sanitized (ticker : string) (final summary : pyval)
  (score : float) (findings tools_used : list string) (sources : list pyval)
  (now : datetime) :
  sanitize final = Ret (summary, score, findings) ->
  let findings1 :=
    match findings with [] => [placeholder_finding] | _ => findings end in
  (exists text cited,
     summary = VStr text /\ all_str sources = Some cited
     /\ new_AnalysisReport ticker summary score findings1 tools_used sources now
        = Ret (AnalysisReport.mk ticker text score findings1 tools_used cited now))
  \/ (((forall text, summary <> VStr text) \/ all_str sources = None)
      /\ new_AnalysisReport ticker summary score findings1 tools_used sources now
         = Raise (Exn "ValidationError" "validation error for AnalysisReport")).
Proof.
  intros Hsan findings1.
  destruct (sanitize_inv _ _ _ _ Hsan) as [[x ->] Hlen].
  destruct (clamp_bounds x) as [Hlo Hhi].
  assert (Hn : (1 <=? Z.of_nat (length findings1)) = true
               /\ (Z.of_nat (length findings1) <=? 5) = true).
  { subst findings1. destruct findings as [|f r]; cbn [length] in *;
      split; apply Z.leb_le; lia. }
  destruct Hn as [Hn1 Hn5].
  unfold new_AnalysisReport. rewrite Hlo, Hhi, Hn1, Hn5. cbn [andb].
  destruct summary as [| | | |text| |];
    try (right; split; [left; intros text; discriminate | reflexivity]).
  destruct (all_str sources) as [cited|].
  - left. exists text, cited. auto.
  - right. split; [right; reflexivity | reflexivity].
Qed.

(** C3, as the code has it: with reflection enabled, a retry budget
    [max_retries >= 0] and a gate that accepts no result of the run, the
    orchestrator makes at most [max_retries + 1] loop runs, exactly that
    many unless a fault ends the run, and the LAST run decides the
    outcome:
    - when the last loop run returned without success or without a final
      answer, all [max_retries + 1] runs were made and a [ValueError]
      naming that run's cause and the count [max_retries + 1] is raised,
      whatever the earlier attempts returned;
    - when the last loop run succeeded with a final answer whose fields
      were read, all [max_retries + 1] runs were made; if the summary is a
      string and the sources are strings, the report of that answer is
      RETURNED, with the summary the loop gave (never the gate's refined
      one), and otherwise the validation of the report raises;
    - a fault raised by the last loop run, or while reading the fields of
      its final answer, is passed on; only then can the runs be fewer. *)
Theorem retry_under_rejecting_gate (tool_registry : ToolRegistry)
  (query ticker : string) (company_name : option string) (max_steps max_retries : Z)
  (w w' : World) (res : outcome AnalysisReport.t) (tr : list event) :
  0 <= max_retries ->
  run_agent tool_registry query ticker company_name max_steps true max_retries w
  = (res, w', tr) ->
  Forall rejecting tr ->
  (loop_runs tr <= Z.to_nat (max_retries + 1))%nat
  /\ ((exists e, last_loop tr = Some (Raise e) /\ res = Raise e)
      \/ (exists rr,
            last_loop tr = Some (Ret rr)
            /\ (((ReActResult.success rr = false
                  \/ falsy_opt (ReActResult.final_answer rr) = true)
                 /\ loop_runs tr = Z.to_nat (max_retries + 1)
                 /\ res
                    = Raise (Exn "ValueError"
                               ("Analysis failed after " +:+ pretty (max_retries + 1)
                                +:+ " attempts: " +:+ failure_cause rr)))
                \/ (exists final,
                      ReActResult.success rr = true
                      /\ ReActResult.final_answer rr = Some final
                      /\ truthy final = true
                      /\ ((exists e, sanitize final = Raise e /\ res = Raise e)
                          \/ (exists summary score findings now,
                                sanitize final = Ret (summary, score, findings)
                                /\ loop_runs tr = Z.to_nat (max_retries + 1)
                                /\ ((exists text cited,
                                       summary = VStr text
                                       /\ all_str (ReActResult.sources rr) = Some cited
                                       /\ res
                                          = Ret (AnalysisReport.mk ticker text score
                                                   (match findings with
                                                    | [] => [placeholder_finding]
                                                    | _ => findings
                                                    end)
                                                   (ReActResult.tools_used rr)
                                                   cited now))
                                    \/ (((forall text, summary <> VStr text)
                                         \/ all_str (ReActResult.sources rr) = None)
                                        /\ res
                                           = Raise (Exn "ValidationError"
                                                      "validation error for AnalysisReport"))))))))).
Proof.
  intros Hr Hrun Hrej. unfold run_agent in Hrun.
  destruct (shaped_range max_retries Hr) as [Hshape Hne].
  pose proof (attempts_verdict tool_registry query ticker company_name max_steps
                max_retries _ Hshape Hne _ _ _ _ _ Hrun Hrej) as Hv.
  rewrite length_py_range in Hv.
  replace (max_retries + 1 - 0) with (max_retries + 1) in Hv by lia.
  destruct Hv as [Hle Hv]. split; [exact Hle|].
  destruct Hv as [Hv|(rr & Hlast & Hv)]; [left; exact Hv|].
  right. exists rr. split; [exact Hlast|].
  destruct Hv as [Hv|(final & Hs & Hf & Ht & Hv)]; [left; exact Hv|].
  right. exists final. split; [exact Hs|]. split; [exact Hf|]. split; [exact Ht|].
  destruct Hv as [Hv|(summary & score & findings & now & Hsan & Hn & Hres)];
    [left; exact Hv|].
  right. exists summary, score, findings, now.
  split; [exact Hsan|]. split; [exact Hn|].
  destruct (new_AnalysisReport_sanitized ticker final summary score findings
              (ReActResult.tools_used rr) (ReActResult.sources rr) now Hsan)
    as [(text & cited & H1 & H2 & H3)|[Hbad H3]].
  - left. exists text, cited. split; [exact H1|]. split; [exact H2|].
    rewrite Hres. exact H3.
  - right. split; [exact Hbad|]. rewrite Hres. exact H3.
Qed.

End RetryFacts.

Lemma retry_discards_earlier_success :
  fst (fst (run_agent (E := Script.env) Script.empty_registry "Analyze TSLA" "TSLA"
              None 10 true 1 retry_script))
  = Raise (Exn "ValueError"
             "Analysis failed after 2 attempts: LLM call failed: service unavailable")
  /\ Forall rejecting
       (snd (run_agent (E := Script.env) Script.empty_registry "Analyze TSLA" "TSLA"
               None 10 true 1 retry_script))
  /\ exists rr,
      In (EvLoop (Ret rr))
         (snd (run_agent (E := Script.env) Script.empty_registry "Analyze TSLA" "TSLA"
                 None 10 true 1 retry_script))
      /\ ReActResult.success rr = true
      /\ falsy_opt (ReActResult.final_answer rr) = false.
Proof.
  split; [vm_compute; reflexivity|]. split.
  - vm_compute. repeat constructor.
  - vm_compute. eexists. split; [right; left; reflexivity|]. split; reflexivity.
Qed.

(** A rejected last attempt is returned as the loop gave it: the refined
    summary of the gate is not used. *)
Lemma rejected_answer_returned_unrefined :
  fst (fst (run_agent (E := Script.env) Script.empty_registry "Analyze TSLA" "TSLA"
              None 10 true 0 refining_gate_script))
  = Ret (AnalysisReport.mk "TSLA" "fine" 0.5%float ["up"] [] [] 0)
  /\ Forall rejecting
       (snd (run_agent (E := Script.env) Script.empty_registry "Analyze TSLA" "TSLA"
               None 10 true 0 refining_gate_script))
  /\ loop_runs
       (snd (run_agent (E := Script.env) Script.empty_registry "Analyze TSLA" "TSLA"
               None 10 true 0 refining_gate_script)) = 1%nat.
Proof.
  split; [vm_compute; reflexivity|]. split.
  - vm_compute. repeat constructor.
  - vm_compute. reflexivity.
Qed.

(** A last attempt whose summary is no string passes the loop and the
    gate, and the validation of the report raises. *)
Lemma unvalidated_summary_raises :
  fst (fst (run_agent (E := Script.env) Script.empty_registry "Analyze TSLA" "TSLA"
              None 10 true 0 numeric_summary_script))
  = Raise (Exn "ValidationError" "validation error for AnalysisReport")
  /\ Forall rejecting
       (snd (run_agent (E := Script.env) Script.empty_registry "Analyze TSLA" "TSLA"
               None 10 true 0 numeric_summary_script))
  /\ loop_runs
       (snd (run_agent (E := Script.env) Script.empty_registry "Analyze TSLA" "TSLA"
               None 10 true 0 numeric_summary_script)) = 1%nat.
Proof.
  split; [vm_compute; reflexivity|]. split.
  - vm_compute. repeat constructor.
  - vm_compute. reflexivity.
Qed.

Lemma retry_under_rejecting_gate_witness :
  (loop_runs
     (snd (run_agent (E := Script.env) Script.empty_registry "Analyze TSLA" "TSLA"
             None 10 true 1 retry_script)) <= 2)%nat.
Proof.
  pose proof (retry_under_rejecting_gate (E := Script.env) Script.empty_registry
                "Analyze TSLA" "TSLA" None 10 1 retry_script) as H.
  destruct (run_agent (E := Script.env) Script.empty_registry "Analyze TSLA" "TSLA"
              None 10 true 1 retry_script) as [[res w'] tr] eqn:Hrun.
  refine (proj1 (H w' res tr _ eq_refl _)); [lia|].
  assert (Htr : tr = snd (run_agent (E := Script.env) Script.empty_registry
                            "Analyze TSLA" "TSLA" None 10 true 1 retry_script))
    by (rewrite Hrun; reflexivity).
  rewrite Htr. vm_compute. repeat constructor.
Defined.

(** ** The loop's usage collection and source list *)

Section UsageFacts.
Context {E : Env}.

Lemma capabilities_used_app (a b : list event) :
  capabilities_used (a ++ b) = capabilities_used a ++ capabilities_used b.
Proof.
  induction a as [|ev a IH]; [reflexivity|].
  destruct ev as [| action i [result|e] | |]; simpl; try assumption.
  destruct (ToolResult.success result); simpl; [now rewrite IH | assumption].
Qed.

Lemma urls_returned_app (a b : list event) :
  urls_returned (a ++ b) = urls_returned a ++ urls_returned b.
Proof.
  induction a as [|ev a IH]; [reflexivity|].
  destruct ev as [| action i [result|e] | |]; simpl; try assumption.
  destruct (ToolResult.success result && String.eqb action "news_retriever");
    [now rewrite IH, app_assoc | assumption].
Qed.

Lemma elem_of_list_set (l : list string) (x : string) : x ∈ list_set l <-> x ∈ l.
Proof.
  unfold list_set. rewrite elem_of_elements. apply elem_of_list_to_set.
Qed.

Lemma NoDup_list_set (l : list string) : NoDup (list_set l).
Proof. unfold list_set. apply NoDup_elements. Qed.

Lemma get_registered (tool_registry : ToolRegistry) :
  get (register_all_tools tool_registry) "ticker_extractor" = Some ticker_extractor_tool
  /\ get (register_all_tools tool_registry) "news_retriever" = Some news_retriever_tool.
Proof.
  unfold register_all_tools, register, get. cbn [_tools name findata_fetcher_tool
    sentiment_analyzer_tool news_retriever_tool ticker_extractor_tool].
  split.
  - rewrite !tools_lookup_set_ne by discriminate. apply tools_lookup_set_eq.
  - rewrite !tools_lookup_set_ne by discriminate. apply tools_lookup_set_eq.
Qed.

(** What a successful result of the two wrapped tools looks like. *)
Lemma ticker_extractor_success (kw : kwargs) (w w' : World) (result : ToolResult.t) :
  ticker_extractor_execute kw w = (Ret result, w') ->
  ToolResult.success result = true ->
  exists t c conf m,
    ToolResult.data result
    = VDict [("ticker", t); ("company_name", c); ("confidence", VStr conf);
             ("method", VStr m)].
Proof.
  unfold ticker_extractor_execute. intros H Hs.
  destruct (unexpected_keyword ["text"] kw); [discriminate|].
  destruct (dict_lookup kw "text") as [text|]; [|discriminate].
  destruct (extract_ticker text w) as [[r|e] w1]; inversion H; subst; clear H.
  - simpl. eauto.
  - discriminate.
Qed.

Lemma news_retriever_success (kw : kwargs) (w w' : World) (result : ToolResult.t) :
  news_retriever_execute kw w = (Ret result, w') ->
  ToolResult.success result = true ->
  exists r, ToolResult.data result = model_dump r.
Proof.
  unfold news_retriever_execute, news_retriever_call. intros H Hs.
  destruct (unexpected_keyword _ kw); [discriminate|].
  destruct (dict_lookup kw "query") as [q|]; [|discriminate].
  destruct (news_retriever_body _ _ _ _ w) as [[[err|r]|e] w1];
    inversion H; subst; clear H.
  - discriminate.
  - simpl. eauto.
Qed.

Lemma registry_success (registry : ToolRegistry) (action : string) (kw : kwargs)
  (w w' : World) (result : ToolResult.t) (tool : BaseTool) :
  get registry action = Some tool ->
  registry_execute registry action kw w = (Ret result, w') ->
  ToolResult.success result = true ->
  execute tool kw w = (Ret result, w').
Proof.
  unfold registry_execute. intros -> H Hs.
  destruct (rebound kw); [discriminate|].
  destruct (execute tool kw w) as [[r|e] w1]; inversion H; subst; clear H.
  - reflexivity.
  - discriminate.
Qed.

Lemma collect_urls_dump (articles : list NewsArticleSchema.t) :
  forall sources,
    collect_urls (map article_dump articles) sources
    = (sources ++ concat (map url_of (map article_dump articles)), None).
Proof.
  induction articles as [|a l IH]; intros sources.
  - cbn. now rewrite app_nil_r.
  - cbn [map collect_urls concat].
    change (py_get (article_dump a) "url" VNone) with (Ret (VStr (NewsArticleSchema.url a))).
    change (url_of (article_dump a))
      with (if truthy (VStr (NewsArticleSchema.url a))
            then [VStr (NewsArticleSchema.url a)] else []).
    cbv beta iota. rewrite IH. destruct (truthy (VStr (NewsArticleSchema.url a))).
    + now rewrite <- app_assoc.
    + reflexivity.
Qed.

Lemma on_tool_success_tracks (registry : ToolRegistry) (action : string) (kw : kwargs)
  (w w' : World) (result : ToolResult.t) (step step1 : ReActStep.t)
  (tools_used tools_used1 : list string) (sources sources1 : list pyval) :
  get registry "ticker_extractor" = Some ticker_extractor_tool ->
  get registry "news_retriever" = Some news_retriever_tool ->
  registry_execute registry action kw w = (Ret result, w') ->
  ToolResult.success result = true ->
  on_tool_success action result step tools_used sources
  = (step1, tools_used1, sources1) ->
  tools_used1 = tools_used ++ [capability_id action (ToolResult.data result)]
  /\ sources1
     = sources ++ (if String.eqb action "news_retriever"
                   then article_urls (ToolResult.data result) else []).
Proof.
  intros Hte Hnr Hx Hs H. unfold on_tool_success, usage_id, capability_id in *.
  destruct (String.eqb_spec action "ticker_extractor") as [->|Hn1].
  - pose proof (registry_success _ _ _ _ _ _ _ Hte Hx Hs) as Hx1.
    cbn [execute ticker_extractor_tool] in Hx1.
    destruct (ticker_extractor_success _ _ _ _ Hx1 Hs) as (t & c & conf & m & Hd).
    rewrite Hd in *. cbn in H. injection H as _ <- <-.
    cbn. now rewrite app_nil_r.
  - cbn [andb] in H.
    destruct (String.eqb_spec action "news_retriever") as [->|Hn2].
    + pose proof (registry_success _ _ _ _ _ _ _ Hnr Hx Hs) as Hx1.
      cbn [execute news_retriever_tool] in Hx1.
      destruct (news_retriever_success _ _ _ _ Hx1 Hs) as (r & Hd).
      rewrite Hd in *.
      change (truthy (model_dump r)) with true in H. cbn [andb mbind outcome_bind] in H.
      change (py_get (model_dump r) "articles" (VList []))
        with (Ret (VList (map article_dump (NewsRetrieverResult.articles r)))) in H.
      cbn [py_iter] in H. rewrite collect_urls_dump in H.
      injection H as _ <- <-. split; reflexivity.
    + cbn [andb] in H. injection H as _ <- <-. now rewrite app_nil_r.
Qed.

Lemma run_tool_tracks (registry : ToolRegistry) (action : string) (step : ReActStep.t)
  (steps : list ReActStep.t) (tools_used : list string) (sources : list pyval)
  (w w' : World) (fl : flow) (evs : list event) :
  get registry "ticker_extractor" = Some ticker_extractor_tool ->
  get registry "news_retriever" = Some news_retriever_tool ->
  run_tool registry action step steps tools_used sources w = (fl, w', evs) ->
  exists steps',
    fl = Continue steps' (tools_used ++ capabilities_used evs)
           (sources ++ urls_returned evs).
Proof.
  intros Hte Hnr H. unfold run_tool in H.
  destruct (call_tool registry action (ReActStep.action_input step) w)
    as [[result|e] w1] eqn:Hc.
  2:{ injection H as <- _ <-. cbn. rewrite !app_nil_r. eauto. }
  destruct (ToolResult.success result) eqn:Hs.
  2:{ injection H as <- _ <-. cbn. rewrite Hs. cbn. rewrite !app_nil_r. eauto. }
  destruct (on_tool_success action result step tools_used sources)
    as [[step1 tools1] sources1] eqn:Ho.
  injection H as <- _ <-. cbn. rewrite Hs. cbn [andb].
  assert (Hx : exists kw, registry_execute registry action kw w = (Ret result, w1)).
  { unfold call_tool in Hc. destruct (ReActStep.action_input step); try discriminate.
    eauto. }
  destruct Hx as [kw Hx].
  destruct (on_tool_success_tracks _ _ _ _ _ _ _ _ _ _ _ _ Hte Hnr Hx Hs Ho) as [-> ->].
  exists (steps ++ [step1]). f_equal.
  destruct (String.eqb action "news_retriever"); now rewrite ?app_nil_r.
Qed.

Lemma loop_body_tracks (registry : ToolRegistry) (ticker company query : string)
  (step_num : Z) (steps : list ReActStep.t) (tools_used : list string)
  (sources : list pyval) (w w' : World) (fl : flow) (evs : list event) :
  get registry "ticker_extractor" = Some ticker_extractor_tool ->
  get registry "news_retriever" = Some news_retriever_tool ->
  loop_body registry ticker company query step_num steps tools_used sources w
  = (fl, w', evs) ->
  match fl with
  | Continue _ tools_used1 sources1 =>
      tools_used1 = tools_used ++ capabilities_used evs
      /\ sources1 = sources ++ urls_returned evs
  | Return r =>
      ReActResult.success r = true ->
      ReActResult.tools_used r = list_set tools_used
      /\ ReActResult.sources r = sources
      /\ capabilities_used evs = [] /\ urls_returned evs = []
  | Fault _ => True
  end.
Proof.
  intros Hte Hnr H. unfold loop_body in H.
  destruct (generate_content _ _ _ w) as [[response|e] w1].
  2:{ injection H as <- _ <-. discriminate. }
  destruct (negb (truthy (_extract_json response))).
  { injection H as <- _ <-. cbn. now rewrite !app_nil_r. }
  destruct (read_step step_num (_extract_json response)) as [step|e].
  2:{ injection H as <- _ <-. exact I. }
  destruct (py_eq_str (ReActStep.action step) "final_answer").
  { injection H as <- _ <-. cbn. auto. }
  assert (Hunknown : forall fl0 evs0,
             (Continue (steps ++ [unknown_tool registry step]) tools_used sources, w1,
              [EvModel (react_prompt registry ticker company query steps) (Ret response)])
             = (fl0, w', evs0) ->
             match fl0 with
             | Continue _ tools_used1 sources1 =>
                 tools_used1 = tools_used ++ capabilities_used evs0
                 /\ sources1 = sources ++ urls_returned evs0
             | Return r =>
                 ReActResult.success r = true ->
                 ReActResult.tools_used r = list_set tools_used
                 /\ ReActResult.sources r = sources
                 /\ capabilities_used evs0 = [] /\ urls_returned evs0 = []
             | Fault _ => True
             end).
  { intros fl0 evs0 H0. injection H0 as <- _ <-. cbn. now rewrite !app_nil_r. }
  destruct (registry_contains registry (ReActStep.action step)) as [[|]|e].
  - destruct (ReActStep.action step) as [| | | |action| |]; try (now apply Hunknown).
    destruct (run_tool _ _ _ _ _ _ _) as [[fl1 w2] evs1] eqn:Hr.
    injection H as <- _ <-.
    destruct (run_tool_tracks _ _ _ _ _ _ _ _ _ _ Hte Hnr Hr) as [steps' ->].
    cbn. auto.
  - destruct (ReActStep.action step); now apply Hunknown.
  - destruct (ReActStep.action step); injection H as <- _ <-; exact I.
Qed.

Lemma react_loop_tracks (registry : ToolRegistry) (ticker company query : string)
  (max_steps : Z) (step_nums : list Z) :
  get registry "ticker_extractor" = Some ticker_extractor_tool ->
  get registry "news_retriever" = Some news_retriever_tool ->
  forall steps tools_used sources w r w' tr,
    react_loop registry ticker company query max_steps step_nums steps tools_used
      sources w = (Ret r, w', tr) ->
    ReActResult.success r = true ->
    ReActResult.tools_used r = list_set (tools_used ++ capabilities_used tr)
    /\ ReActResult.sources r = sources ++ urls_returned tr.
Proof.
  intros Hte Hnr.
  induction step_nums as [|n rest IH]; intros steps tools_used sources w r w' tr H Hs.
  - injection H as <- _ _. discriminate.
  - cbn [react_loop] in H.
    destruct (loop_body registry ticker company query n steps tools_used sources w)
      as [[fl w1] evs] eqn:Hb.
    pose proof (loop_body_tracks _ _ _ _ _ _ _ _ _ _ _ _ Hte Hnr Hb) as Ht.
    destruct fl as [steps1 tools1 sources1|r1|e].
    + destruct Ht as [-> ->].
      destruct (react_loop _ _ _ _ _ rest _ _ _ _) as [[r2 w2] evs2] eqn:Hl.
      injection H as -> _ <-.
      destruct (IH _ _ _ _ _ _ _ Hl Hs) as [Hu Hso].
      rewrite Hu, Hso, capabilities_used_app, urls_returned_app, !app_assoc.
      auto.
    + injection H as <- _ <-. destruct (Ht Hs) as (Hu & Hso & -> & ->).
      now rewrite !app_nil_r.
    + discriminate.
Qed.

(** C9: for every successful run of the loop, the returned usage
    collection is the set of the identifiers of the capabilities the run
    used with success (each once, a ticker extraction under
    [ticker_extractor:method]), and the returned source list is the
    concatenation, in the order met and with repeats kept, of the URLs of
    the articles returned by the successful news retrievals. *)
Theorem usage_and_sources (tool_registry : ToolRegistry) (ticker query : string)
  (company_name : option string) (max_steps : Z) (w w' : World)
  (r : ReActResult.t) (tr : list event) :
  run_react_loop tool_registry ticker query company_name max_steps w = (Ret r, w', tr) ->
  ReActResult.success r = true ->
  ReActResult.tools_used r = list_set (capabilities_used tr)
  /\ NoDup (ReActResult.tools_used r)
  /\ (forall id, id ∈ ReActResult.tools_used r <-> id ∈ capabilities_used tr)
  /\ ReActResult.sources r = urls_returned tr.
Proof.
  intros H Hs. unfold run_react_loop in H.
  destruct (get_registered tool_registry) as [Hte Hnr].
  destruct (react_loop_tracks _ _ _ _ _ _ Hte Hnr _ _ _ _ _ _ _ H Hs) as [Hu Hso].
  rewrite app_nil_l in Hu, Hso. rewrite Hu.
  split; [reflexivity|]. split; [apply NoDup_list_set|].
  split; [|assumption].
  intros id. apply elem_of_list_set.
Qed.

End UsageFacts.

Lemma usage_and_sources_witness :
  match run_react_loop (E := Script.env) Script.empty_registry "TSLA" "Analyze TSLA"
          None 10 tsla_script with
  | (Ret r, _, tr) =>
      ReActResult.sources r = [VStr "http://a"; VStr "http://a"]
      /\ ReActResult.sources r = urls_returned tr
      /\ forall id, id ∈ ReActResult.tools_used r <-> id ∈ capabilities_used tr
  | (Raise _, _, _) => False
  end.
Proof.
  destruct (run_react_loop (E := Script.env) Script.empty_registry "TSLA" "Analyze TSLA"
              None 10 tsla_script) as [[[r|e] w'] tr] eqn:Hrun.
  - assert (Hs : ReActResult.success r = true /\
                 ReActResult.sources r = [VStr "http://a"; VStr "http://a"]).
    { vm_compute in Hrun. injection Hrun as <- _ _. split; reflexivity. }
    destruct Hs as [Hs Hsrc].
    destruct (usage_and_sources (E := Script.env) _ _ _ _ _ _ _ _ _ Hrun Hs)
      as (_ & _ & Hids & Hso).
    auto.
  - vm_compute in Hrun. discriminate.
Defined.

(** * Further properties *)

(** ** The registry as a map from names to tools *)

Section RegistryLaws.
Context {E : Env}.

Lemma tools_set_same (l : list (string * BaseTool)) (k : string) (v : BaseTool) :
  tools_lookup l k = Some v -> tools_set l k v = l.
Proof.
  induction l as [|[k' v'] l IH]; simpl; [discriminate|].
  destruct (String.eqb_spec k' k) as [->|Hne].
  - intros [= ->]. reflexivity.
  - intros H. now rewrite IH.
Qed.

Lemma tools_set_keys (l : list (string * BaseTool)) (k : string) (v : BaseTool) :
  map fst (tools_set l k v)
  = match tools_lookup l k with
    | Some _ => map fst l
    | None => map fst l ++ [k]
    end.
Proof.
  induction l as [|[k' v'] l IH]; simpl; [reflexivity|].
  destruct (String.eqb_spec k' k) as [->|Hne]; simpl; [reflexivity|].
  rewrite IH. now destruct (tools_lookup l k).
Qed.

Lemma tools_lookup_filter_eq (l : list (string * BaseTool)) (k : string) :
  tools_lookup (filter (fun kv => negb (String.eqb (fst kv) k)) l) k = None.
Proof.
  induction l as [|[k' v'] l IH]; [reflexivity|].
  rewrite filter_cons. cbn [fst].
  destruct (String.eqb_spec k' k) as [->|Hne]; cbn [negb Is_true].
  - rewrite decide_False by tauto. assumption.
  - rewrite decide_True by exact I. cbn [tools_lookup].
    destruct (String.eqb_spec k' k); [congruence | assumption].
Qed.

Lemma tools_lookup_filter_ne (l : list (string * BaseTool)) (k k' : string) :
  k' <> k ->
  tools_lookup (filter (fun kv => negb (String.eqb (fst kv) k)) l) k'
  = tools_lookup l k'.
Proof.
  intros Hne. induction l as [|[k0 v0] l IH]; [reflexivity|].
  rewrite filter_cons. cbn [fst].
  destruct (String.eqb_spec k0 k) as [->|Hk]; cbn [negb Is_true].
  - rewrite decide_False by tauto. cbn [tools_lookup].
    destruct (String.eqb_spec k k'); [congruence | assumption].
  - rewrite decide_True by exact I. cbn [tools_lookup].
    destruct (String.eqb_spec k0 k'); [reflexivity | assumption].
Qed.

Lemma get_register (self : ToolRegistry) (tool : BaseTool) (nm : string) :
  get (register self tool) nm
  = if String.eqb (name tool) nm then Some tool else get self nm.
Proof.
  unfold get, register. cbn [_tools].
  destruct (String.eqb_spec (name tool) nm) as [<-|Hne].
  - apply tools_lookup_set_eq.
  - now apply tools_lookup_set_ne.
Qed.

(** X1: [register] binds the tool's name to the tool and leaves every
    other name as it was: afterwards [get] finds the registered tool under
    its name (an earlier tool of that name is replaced) and, under any
    other name, what it found before. The order of the names is kept:
    registering under a name already bound leaves [list_tools] and the
    length of the registry unchanged (the tool is overwritten in place); a
    new name is appended at the end and the length grows by one. Names
    stay distinct, as the keys of a dict are. *)
Theorem register_then_get (self : ToolRegistry) (tool : BaseTool) :
  (forall nm,
      get (register self tool) nm
      = if String.eqb (name tool) nm then Some tool else get self nm)
  /\ list_tools (register self tool)
     = match get self (name tool) with
       | Some _ => list_tools self
       | None => list_tools self ++ [name tool]
       end
  /\ registry_len (register self tool)
     = match get self (name tool) with
       | Some _ => registry_len self
       | None => registry_len self + 1
       end
  /\ (NoDup (list_tools self) -> NoDup (list_tools (register self tool))).
Proof.
  assert (Hk : list_tools (register self tool)
               = match get self (name tool) with
                 | Some _ => list_tools self
                 | None => list_tools self ++ [name tool]
                 end).
  { unfold list_tools, register, get. cbn [_tools]. apply tools_set_keys. }
  split; [intros nm; apply get_register|]. split; [exact Hk|]. split.
  - unfold registry_len.
    rewrite <- (length_map fst (_tools (register self tool))).
    rewrite <- (length_map fst (_tools self)).
    fold (list_tools (register self tool)). fold (list_tools self). rewrite Hk.
    destruct (get self (name tool)); [reflexivity|].
    rewrite length_app. simpl. lia.
  - intros Hnd. rewrite Hk.
    destruct (get self (name tool)) eqn:Hg; [assumption|].
    apply NoDup_app. split; [assumption|]. split; [|apply NoDup_singleton].
    intros x Hx Hx1. apply list_elem_of_singleton in Hx1 as ->.
    apply list_elem_of_In in Hx. unfold list_tools in Hx.
    apply tools_lookup_In in Hx. unfold get in Hg. congruence.
Qed.

(** X2: [unregister] returns whether the name was bound; afterwards the
    name is unbound, every other name is bound as before, and a registry
    that did not bind the name is returned unchanged. *)
Theorem unregister_then_get (self : ToolRegistry) (nm : string) :
  snd (unregister self nm)
  = match get self nm with Some _ => true | None => false end
  /\ get (fst (unregister self nm)) nm = None
  /\ (forall k, k <> nm -> get (fst (unregister self nm)) k = get self k)
  /\ (get self nm = None -> fst (unregister self nm) = self).
Proof.
  unfold unregister, get.
  destruct (tools_lookup (_tools self) nm) eqn:Hl; cbn [fst snd _tools].
  - split; [reflexivity|]. split; [apply tools_lookup_filter_eq|].
    split; [|discriminate].
    intros k Hk. now apply tools_lookup_filter_ne.
  - repeat split; auto.
Qed.

(** X3: [register_all_tools] binds the four tool names whatever the
    registry held, is idempotent (a second call changes nothing, which is
    why the loop may call it at every run), keeps the names already there
    and adds no other; on a fresh registry the names are listed in the
    order of registration. *)
Theorem register_all_tools_idempotent (tool_registry : ToolRegistry) :
  register_all_tools (register_all_tools tool_registry)
  = register_all_tools tool_registry
  /\ get (register_all_tools tool_registry) "ticker_extractor" = Some ticker_extractor_tool
  /\ get (register_all_tools tool_registry) "news_retriever" = Some news_retriever_tool
  /\ get (register_all_tools tool_registry) "sentiment_analyzer"
     = Some sentiment_analyzer_tool
  /\ get (register_all_tools tool_registry) "findata_fetcher" = Some findata_fetcher_tool
  /\ (forall nm,
        In nm (list_tools (register_all_tools tool_registry))
        <-> In nm (list_tools tool_registry)
            \/ In nm ["ticker_extractor"; "news_retriever"; "sentiment_analyzer";
                      "findata_fetcher"])
  /\ list_tools (register_all_tools {| _tools := [] |})
     = ["ticker_extractor"; "news_retriever"; "sentiment_analyzer"; "findata_fetcher"].
Proof.
  assert (H1 : get (register_all_tools tool_registry) "ticker_extractor"
               = Some ticker_extractor_tool).
  { unfold register_all_tools. rewrite !get_register. reflexivity. }
  assert (H2 : get (register_all_tools tool_registry) "news_retriever"
               = Some news_retriever_tool).
  { unfold register_all_tools. rewrite !get_register. reflexivity. }
  assert (H3 : get (register_all_tools tool_registry) "sentiment_analyzer"
               = Some sentiment_analyzer_tool).
  { unfold register_all_tools. rewrite !get_register. reflexivity. }
  assert (H4 : get (register_all_tools tool_registry) "findata_fetcher"
               = Some findata_fetcher_tool).
  { unfold register_all_tools. rewrite !get_register. reflexivity. }
  assert (Hsame : forall r t, get r (name t) = Some t -> register r t = r).
  { intros [l] t Ht. unfold register, get in *. cbn [_tools] in *.
    now rewrite tools_set_same. }
  split; [|split; [exact H1|split; [exact H2|split; [exact H3|split; [exact H4|split]]]]].
  - set (r := register_all_tools tool_registry) in *.
    unfold register_all_tools at 1.
    rewrite (Hsame r ticker_extractor_tool H1).
    rewrite (Hsame r news_retriever_tool H2).
    rewrite (Hsame r sentiment_analyzer_tool H3).
    now rewrite (Hsame r findata_fetcher_tool H4).
  - intros nm. unfold list_tools. rewrite !tools_lookup_In.
    fold (get (register_all_tools tool_registry) nm). fold (get tool_registry nm).
    unfold register_all_tools. rewrite !get_register.
    cbn [name findata_fetcher_tool sentiment_analyzer_tool news_retriever_tool
         ticker_extractor_tool In].
    destruct (String.eqb_spec "findata_fetcher" nm) as [<-|N4].
    { split; [auto 10|discriminate]. }
    destruct (String.eqb_spec "sentiment_analyzer" nm) as [<-|N3].
    { split; [auto 10|discriminate]. }
    destruct (String.eqb_spec "news_retriever" nm) as [<-|N2].
    { split; [auto 10|discriminate]. }
    destruct (String.eqb_spec "ticker_extractor" nm) as [<-|N1].
    { split; [auto 10|discriminate]. }
    split; [auto|]. intros [H|[H|[H|[H|[H|[]]]]]]; congruence.
  - reflexivity.
Qed.

End RegistryLaws.

(** ** The steps and the tool calls of a run of the loop *)

Section LoopSteps.
Context {E : Env}.

Lemma call_tool_raise (registry : ToolRegistry) (action : string)
  (action_input : pyval) (w w' : World) (e : exn) :
  call_tool registry action action_input w = (Raise e, w') ->
  exn_type e = "TypeError" /\ unbindable action_input /\ w' = w.
Proof.
  unfold call_tool, unbindable.
  destruct action_input as [| | | | | |kw];
    try (intros H; injection H as <- <-; auto; fail).
  unfold registry_execute. destruct (rebound kw) as [k|] eqn:Hk.
  { intros H; injection H as <- <-.
    destruct (rebound_Some kw k Hk) as [Hin [->| ->]]; auto. }
  destruct (get registry action) as [tool|]; [|discriminate].
  destruct (execute tool kw w) as [[r|e0] w1]; discriminate.
Qed.

Lemma on_tool_success_step (action : string) (result : ToolResult.t)
  (step step1 : ReActStep.t) (tools_used tools_used1 : list string)
  (sources sources1 : list pyval) :
  on_tool_success action result step tools_used sources
  = (step1, tools_used1, sources1) ->
  ReActStep.step_number step1 = ReActStep.step_number step
  /\ ReActStep.action step1 = ReActStep.action step
  /\ ReActStep.action_input step1 = ReActStep.action_input step
  /\ ReActStep.observation step1 <> None.
Proof.
  unfold on_tool_success. intros H.
  destruct (usage_id action (ToolResult.data result)) as [used|e].
  2:{ injection H as <- _ _. cbn. repeat split; discriminate. }
  destruct (String.eqb action "news_retriever" && truthy (ToolResult.data result)).
  2:{ injection H as <- _ _. cbn. repeat split; discriminate. }
  destruct (py_get (ToolResult.data result) "articles" (VList [])) as [articles|e].
  2:{ injection H as <- _ _. cbn. repeat split; discriminate. }
  destruct (py_iter articles) as [items|e].
  2:{ injection H as <- _ _. cbn. repeat split; discriminate. }
  destruct (collect_urls items sources) as [sources2 [e|]];
    injection H as <- _ _; cbn; repeat split; discriminate.
Qed.

(** A tool call never ends the loop: it adds one step, which records how
    the call went. *)
Lemma run_tool_inv (registry : ToolRegistry) (action : string) (step : ReActStep.t)
  (steps : list ReActStep.t) (tools_used : list string) (sources : list pyval)
  (w w' : World) (fl : flow) (evs : list event) :
  run_tool registry action step steps tools_used sources w = (fl, w', evs) ->
  exists res step1 tools_used1 sources1,
    evs = [EvTool action (ReActStep.action_input step) res]
    /\ fl = Continue (steps ++ [step1]) tools_used1 sources1
    /\ ReActStep.step_number step1 = ReActStep.step_number step
    /\ ReActStep.action step1 = ReActStep.action step
    /\ ReActStep.action_input step1 = ReActStep.action_input step
    /\ ReActStep.observation step1 <> None
    /\ records step1 res
    /\ (forall e, res = Raise e ->
        exn_type e = "TypeError" /\ unbindable (ReActStep.action_input step)).
Proof.
  unfold run_tool. intros H.
  destruct (call_tool registry action (ReActStep.action_input step) w)
    as [[result|e] w1] eqn:Hc.
  - destruct (ToolResult.success result) eqn:Hs.
    + destruct (on_tool_success _ _ _ _ _) as [[s1 t1] so1] eqn:Ho.
      injection H as <- _ <-.
      destruct (on_tool_success_step _ _ _ _ _ _ _ _ Ho) as (N1 & N2 & N3 & N4).
      exists (Ret result), s1, t1, so1. cbn [records]. rewrite Hs.
      repeat split; auto; discriminate.
    + injection H as <- _ <-.
      eexists (Ret result), _, _, _. cbn [records]. rewrite Hs.
      split; [reflexivity|]. split; [reflexivity|]. cbn.
      repeat split; try discriminate.
  - injection H as <- _ <-.
    destruct (call_tool_raise _ _ _ _ _ _ Hc) as (T1 & T2 & _).
    eexists (Raise e), _, _, _.
    split; [reflexivity|]. split; [reflexivity|]. cbn.
    repeat split; try discriminate; try assumption; congruence.
Qed.

(** The five ways a pass through the body of the loop ends. *)
Lemma loop_body_inv (registry : ToolRegistry) (ticker company query : string)
  (step_num : Z) (steps : list ReActStep.t) (tools_used : list string)
  (sources : list pyval) (w w' : World) (fl : flow) (evs : list event) :
  loop_body registry ticker company query step_num steps tools_used sources w
  = (fl, w', evs) ->
  let prompt := react_prompt registry ticker company query steps in
  (exists e,
      evs = [EvModel prompt (Raise e)]
      /\ fl = Return (ReActResult.mk false steps None tools_used sources
                        (Some ("LLM call failed: " +:+ exn_msg e))))
  \/ (exists response,
        evs = [EvModel prompt (Ret response)]
        /\ (fl = Continue steps tools_used sources \/ exists e, fl = Fault e))
  \/ (exists response thought action_input,
        evs = [EvModel prompt (Ret response)]
        /\ fl = Return
                  (ReActResult.mk true
                     (steps ++ [ReActStep.mk step_num thought (VStr "final_answer")
                                  action_input None None])
                     (Some action_input) (list_set tools_used) sources None))
  \/ (exists response step,
        evs = [EvModel prompt (Ret response)]
        /\ ReActStep.step_number step = step_num
        /\ ReActStep.action step <> VStr "final_answer"
        /\ ReActStep.observation step <> None
        /\ ReActStep.error step = ReActStep.observation step
        /\ fl = Continue (steps ++ [step]) tools_used sources)
  \/ (exists response action step w1 evs1,
        evs = EvModel prompt (Ret response) :: evs1
        /\ get registry action <> None
        /\ action <> "final_answer"
        /\ ReActStep.step_number step = step_num
        /\ ReActStep.action step = VStr action
        /\ run_tool registry action step steps tools_used sources w1 = (fl, w', evs1)).
Proof.
  intros H prompt. unfold loop_body in H. fold prompt in H.
  destruct (generate_content prompt _ _ w) as [[response|e] w1].
  2:{ injection H as <- _ <-. left. eauto. }
  destruct (negb (truthy (_extract_json response))).
  { injection H as <- _ <-. right. left. eauto. }
  destruct (read_step step_num (_extract_json response)) as [step|e] eqn:Hrs.
  2:{ injection H as <- _ <-. right. left. eauto. }
  assert (Hstep : exists thought action action_input,
             step = ReActStep.mk step_num thought action action_input None None).
  { unfold read_step in Hrs.
    destruct (py_get _ "thought" _) as [t|]; [|discriminate]. cbn in Hrs.
    destruct (py_get _ "action" _) as [a|]; [|discriminate]. cbn in Hrs.
    destruct (py_get _ "action_input" _) as [i|]; [|discriminate]. cbn in Hrs.
    injection Hrs as <-. eauto. }
  destruct Hstep as (thought & action & action_input & ->).
  cbn [ReActStep.action ReActStep.action_input] in H.
  destruct (py_eq_str action "final_answer") eqn:Hfa.
  { injection H as <- _ <-. right. right. left.
    destruct action; try discriminate. cbn in Hfa.
    apply String.eqb_eq in Hfa as ->. eauto. }
  assert (Hnf : action <> VStr "final_answer").
  { intros ->. discriminate. }
  assert (Hunknown : forall fl0 evs0,
             (Continue
                (steps ++ [unknown_tool registry
                             (ReActStep.mk step_num thought action action_input None None)])
                tools_used sources, w1, [EvModel prompt (Ret response)])
             = (fl0, w', evs0) ->
             exists response step,
               evs0 = [EvModel prompt (Ret response)]
               /\ ReActStep.step_number step = step_num
               /\ ReActStep.action step <> VStr "final_answer"
               /\ ReActStep.observation step <> None
               /\ ReActStep.error step = ReActStep.observation step
               /\ fl0 = Continue (steps ++ [step]) tools_used sources).
  { intros fl0 evs0 H0. injection H0 as <- _ <-.
    exists response,
      (unknown_tool registry
         (ReActStep.mk step_num thought action action_input None None)).
    split; [reflexivity|]. cbn.
    split; [reflexivity|]. split; [assumption|]. split; [discriminate|].
    split; reflexivity. }
  destruct (registry_contains registry action) as [[|]|e] eqn:Hrc.
  - destruct action as [| | | |a| |];
      try (right; right; right; left; now apply Hunknown).
    right. right. right. right.
    destruct (run_tool _ _ _ _ _ _ _) as [[fl1 w2] evs1] eqn:Hr.
    injection H as <- <- <-.
    exists response, a, (ReActStep.mk step_num thought (VStr a) action_input None None),
      w1, evs1.
    split; [reflexivity|]. unfold registry_contains in Hrc.
    split; [destruct (get registry a) eqn:Hg; [discriminate | discriminate Hrc]|].
    split; [congruence|]. cbn. auto.
  - right; right; right; left. destruct action; now apply Hunknown.
  - destruct action; injection H as <- _ <-; right; left; eauto.
Qed.

End LoopSteps.

Section LoopRuns.
Context {E : Env}.

Lemma loop_body_flow (registry : ToolRegistry) (ticker company query : string)
  (step_num : Z) (steps : list ReActStep.t) (tools_used : list string)
  (sources : list pyval) (w w' : World) (fl : flow) (evs : list event) :
  loop_body registry ticker company query step_num steps tools_used sources w
  = (fl, w', evs) ->
  match fl with
  | Continue steps1 _ _ =>
      steps1 = steps
      \/ exists s,
          steps1 = steps ++ [s] /\ ReActStep.step_number s = step_num /\ observed s
  | Return r =>
      (exists p e,
          evs = [EvModel p (Raise e)]
          /\ r = ReActResult.mk false steps None tools_used sources
                   (Some ("LLM call failed: " +:+ exn_msg e)))
      \/ (exists p response thought action_input,
            evs = [EvModel p (Ret response)]
            /\ r = ReActResult.mk true
                     (steps ++ [ReActStep.mk step_num thought (VStr "final_answer")
                                  action_input None None])
                     (Some action_input) (list_set tools_used) sources None)
  | Fault _ => True
  end.
Proof.
  intros H.
  destruct (loop_body_inv _ _ _ _ _ _ _ _ _ _ _ _ H)
    as [(e & -> & ->)
       |[(response & -> & [->|[e ->]])
        |[(response & thought & ai & -> & ->)
         |[(response & step & -> & Hn & Ha & Ho & _ & ->)
          |(response & action & step & w1 & evs1 & -> & _ & Hnf & Hn & Ha & Hr)]]]].
  - left. eauto.
  - now left.
  - exact I.
  - right. eauto 6.
  - right. exists step. unfold observed. auto.
  - destruct (run_tool_inv _ _ _ _ _ _ _ _ _ _ Hr)
      as (res & s1 & t1 & so1 & -> & -> & N1 & N2 & N3 & N4 & _).
    right. exists s1. unfold observed. rewrite N1, N2, Ha.
    repeat split; try assumption. congruence.
Qed.

Lemma loop_body_model_raise (registry : ToolRegistry) (ticker company query : string)
  (step_num : Z) (steps : list ReActStep.t) (tools_used : list string)
  (sources : list pyval) (w w' : World) (fl : flow) (evs : list event)
  (p : string) (e : exn) :
  loop_body registry ticker company query step_num steps tools_used sources w
  = (fl, w', evs) ->
  In (EvModel p (Raise e)) evs ->
  evs = [EvModel p (Raise e)]
  /\ fl = Return (ReActResult.mk false steps None tools_used sources
                    (Some ("LLM call failed: " +:+ exn_msg e))).
Proof.
  intros H Hin.
  destruct (loop_body_inv _ _ _ _ _ _ _ _ _ _ _ _ H)
    as [(e0 & -> & ->)
       |[(response & -> & _)
        |[(response & thought & ai & -> & _)
         |[(response & step & -> & _)
          |(response & action & step & w1 & evs1 & -> & _ & _ & _ & _ & Hr)]]]].
  - destruct Hin as [[= <- <-]|[]]. auto.
  - destruct Hin as [[=]|[]].
  - destruct Hin as [[=]|[]].
  - destruct Hin as [[=]|[]].
  - destruct (run_tool_inv _ _ _ _ _ _ _ _ _ _ Hr) as (res & s1 & t1 & so1 & -> & _).
    destruct Hin as [[=]|[[=]|[]]].
Qed.

Lemma loop_body_tool_event (registry : ToolRegistry) (ticker company query : string)
  (step_num : Z) (steps : list ReActStep.t) (tools_used : list string)
  (sources : list pyval) (w w' : World) (fl : flow) (evs : list event)
  (a : string) (i : pyval) (res : outcome ToolResult.t) :
  loop_body registry ticker company query step_num steps tools_used sources w
  = (fl, w', evs) ->
  In (EvTool a i res) evs ->
  get registry a <> None
  /\ a <> "final_answer"
  /\ (forall e, res = Raise e -> exn_type e = "TypeError" /\ unbindable i)
  /\ exists s tools_used1 sources1,
      fl = Continue (steps ++ [s]) tools_used1 sources1
      /\ ReActStep.step_number s = step_num
      /\ ReActStep.action s = VStr a
      /\ ReActStep.action_input s = i
      /\ records s res.
Proof.
  intros H Hin.
  destruct (loop_body_inv _ _ _ _ _ _ _ _ _ _ _ _ H)
    as [(e0 & -> & ->)
       |[(response & -> & _)
        |[(response & thought & ai & -> & _)
         |[(response & step & -> & _)
          |(response & action & step & w1 & evs1 & -> & Hg & Hnf & Hn & Ha & Hr)]]]];
    try (destruct Hin as [[=]|[]]; fail).
  destruct (run_tool_inv _ _ _ _ _ _ _ _ _ _ Hr)
    as (res1 & s1 & t1 & so1 & -> & -> & N1 & N2 & N3 & N4 & N5 & N6).
  destruct Hin as [[=]|[[= <- <- <-]|[]]].
  split; [assumption|]. split; [assumption|]. split; [exact N6|].
  exists s1, t1, so1. rewrite N1, N2, N3. auto.
Qed.

Lemma sublist_StronglySorted {A : Type} (R : relation A) (l1 l2 : list A) :
  sublist l1 l2 -> StronglySorted R l2 -> StronglySorted R l1.
Proof.
  induction 1 as [|x l1 l2 Hs IH|x l1 l2 Hs IH]; intros Hss.
  - constructor.
  - apply StronglySorted_cons in Hss as [Hall Hss].
    apply StronglySorted_cons. split; [|auto].
    rewrite Forall_forall in *. intros y Hy. apply Hall.
    eapply elem_of_sublist; eassumption.
  - apply StronglySorted_cons in Hss as [_ Hss]. auto.
Qed.

Lemma py_range_sorted (a b : Z) : StronglySorted Z.lt (py_range a b).
Proof.
  unfold py_range. generalize (Z.to_nat (b - a)) as k. generalize 0%nat as s.
  intros s k. revert s. induction k as [|k IH]; intros s; cbn [seq map].
  - constructor.
  - apply StronglySorted_cons. split; [|apply IH].
    apply Forall_forall. intros y Hy. apply list_elem_of_In in Hy.
    apply in_map_iff in Hy as (j & <- & Hj). apply in_seq in Hj. lia.
Qed.

Lemma In_py_range (a b n : Z) : In n (py_range a b) <-> a <= n < b.
Proof.
  unfold py_range. rewrite in_map_iff. split.
  - intros (j & <- & Hj). apply in_seq in Hj. lia.
  - intros Hn. exists (Z.to_nat (n - a)). split; [lia|]. apply in_seq. lia.
Qed.

(** The steps of a result extend the steps the loop started from; the
    new ones are numbered by a subsequence of the step numbers, at most one
    per model call. *)
Lemma react_loop_steps (registry : ToolRegistry) (ticker company query : string)
  (max_steps : Z) (step_nums : list Z) :
  forall steps tools_used sources w r w' tr,
    react_loop registry ticker company query max_steps step_nums steps tools_used
      sources w = (Ret r, w', tr) ->
    exists new,
      ReActResult.steps r = steps ++ new
      /\ sublist (map ReActStep.step_number new) step_nums
      /\ (length new <= model_calls tr)%nat.
Proof.
  induction step_nums as [|n rest IH]; intros steps tools_used sources w r w' tr H.
  - cbn [react_loop] in H. injection H as <- _ <-. exists []. cbn.
    rewrite app_nil_r. split; [reflexivity|]. split; [constructor | lia].
  - cbn [react_loop] in H.
    destruct (loop_body registry ticker company query n steps tools_used sources w)
      as [[fl w1] evs] eqn:Hb.
    destruct (loop_body_calls _ _ _ _ _ _ _ _ _ _ _ _ Hb)
      as (reply & more & Hevs & _ & Hm & _).
    assert (Hcalls : model_calls evs = 1%nat) by (rewrite Hevs; cbn; now rewrite Hm).
    pose proof (loop_body_flow _ _ _ _ _ _ _ _ _ _ _ _ Hb) as Hf.
    destruct fl as [steps1 tools1 sources1|r1|e].
    + destruct (react_loop _ _ _ _ _ rest _ _ _ _) as [[r2 w2] evs2] eqn:Hl.
      injection H as -> _ <-.
      destruct (IH _ _ _ _ _ _ _ Hl) as (new & Hst & Hsub & Hlen).
      rewrite model_calls_app, Hcalls.
      destruct Hf as [->|(s & -> & Hn & _)].
      * exists new. split; [assumption|]. split; [now apply sublist_cons | lia].
      * exists (s :: new). rewrite Hst, <- app_assoc. split; [reflexivity|].
        cbn [map length]. rewrite Hn. split; [now apply sublist_skip | lia].
    + injection H as <- _ <-. rewrite Hcalls.
      destruct Hf as [(p & e & _ & ->)|(p & response & thought & ai & _ & ->)].
      * exists []. cbn. rewrite app_nil_r. split; [reflexivity|].
        split; [apply sublist_nil_l | lia].
      * eexists [_]. cbn. split; [reflexivity|].
        split; [apply sublist_skip, sublist_nil_l | lia].
    + discriminate.
Qed.

(** X4: the steps of a returned result are numbered by the iterations
    that produced them: the step numbers increase strictly, lie between 1
    and [max_steps], and there are at most as many steps as model calls
    were made. *)
Theorem loop_steps_numbered (tool_registry : ToolRegistry) (ticker query : string)
  (company_name : option string) (max_steps : Z) (w w' : World)
  (r : ReActResult.t) (tr : list event) :
  run_react_loop tool_registry ticker query company_name max_steps w = (Ret r, w', tr) ->
  StronglySorted Z.lt (map ReActStep.step_number (ReActResult.steps r))
  /\ Forall (fun s => 1 <= ReActStep.step_number s <= max_steps) (ReActResult.steps r)
  /\ (length (ReActResult.steps r) <= model_calls tr)%nat.
Proof.
  intros H. unfold run_react_loop in H.
  apply react_loop_steps in H as (new & Hst & Hsub & Hlen).
  rewrite app_nil_l in Hst. rewrite Hst. split; [|split; [|assumption]].
  - eapply sublist_StronglySorted; [eassumption | apply py_range_sorted].
  - apply Forall_forall. intros s Hs.
    assert (Hin : ReActStep.step_number s ∈ py_range 1 (max_steps + 1)).
    { eapply elem_of_sublist; [|eassumption].
      apply list_elem_of_fmap. eauto. }
    apply list_elem_of_In, In_py_range in Hin. lia.
Qed.

(** How a run that returns a result is made up: steps that are not final
    answers and carry an observation, followed, exactly when the run
    succeeded, by the final-answer step. *)
Lemma react_loop_shape (registry : ToolRegistry) (ticker company query : string)
  (max_steps : Z) (step_nums : list Z) :
  forall steps tools_used sources w r w' tr,
    react_loop registry ticker company query max_steps step_nums steps tools_used
      sources w = (Ret r, w', tr) ->
    Forall observed steps ->
    exists init,
      Forall observed init
      /\ if ReActResult.success r
         then exists n thought action_input,
                ReActResult.steps r
                = init ++ [ReActStep.mk n thought (VStr "final_answer")
                             action_input None None]
                /\ ReActResult.final_answer r = Some action_input
                /\ ReActResult.error r = None
         else ReActResult.steps r = init
              /\ ReActResult.final_answer r = None
              /\ ReActResult.error r <> None.
Proof.
  induction step_nums as [|n rest IH];
    intros steps tools_used sources w r w' tr H Hobs.
  - cbn [react_loop] in H. injection H as <- _ _. exists steps. cbn.
    repeat split; [assumption | discriminate].
  - cbn [react_loop] in H.
    destruct (loop_body registry ticker company query n steps tools_used sources w)
      as [[fl w1] evs] eqn:Hb.
    pose proof (loop_body_flow _ _ _ _ _ _ _ _ _ _ _ _ Hb) as Hf.
    destruct fl as [steps1 tools1 sources1|r1|e].
    + destruct (react_loop _ _ _ _ _ rest _ _ _ _) as [[r2 w2] evs2] eqn:Hl.
      injection H as -> _ _.
      apply (IH _ _ _ _ _ _ _ Hl).
      destruct Hf as [->|(s & -> & _ & Hs)]; [assumption|].
      apply Forall_app_2; [assumption|]. now constructor.
    + injection H as <- _ _.
      destruct Hf as [(p & e & _ & ->)|(p & response & thought & ai & _ & ->)].
      * exists steps. cbn. repeat split; [assumption | discriminate].
      * exists steps. cbn. split; [assumption|]. eauto 6.
    + discriminate.
Qed.

(** X5: the make-up of a returned result. A successful result ends with
    the final-answer step (no observation, no error), its [final_answer]
    is that step's input and it has no error text; a failed result has no
    final answer and has an error text. In both, every step before is a
    step of another action and carries an observation: a final answer is
    never followed by further steps. *)
Theorem loop_result_shape (tool_registry : ToolRegistry) (ticker query : string)
  (company_name : option string) (max_steps : Z) (w w' : World)
  (r : ReActResult.t) (tr : list event) :
  run_react_loop tool_registry ticker query company_name max_steps w = (Ret r, w', tr) ->
  exists init,
    Forall observed init
    /\ if ReActResult.success r
       then exists n thought action_input,
              ReActResult.steps r
              = init ++ [ReActStep.mk n thought (VStr "final_answer")
                           action_input None None]
              /\ ReActResult.final_answer r = Some action_input
              /\ ReActResult.error r = None
       else ReActResult.steps r = init
            /\ ReActResult.final_answer r = None
            /\ ReActResult.error r <> None.
Proof.
  intros H. unfold run_react_loop in H.
  eapply react_loop_shape; [eassumption | constructor].
Qed.

Lemma react_loop_model_raise (registry : ToolRegistry) (ticker company query : string)
  (max_steps : Z) (step_nums : list Z) (p : string) (e : exn) :
  get registry "ticker_extractor" = Some ticker_extractor_tool ->
  get registry "news_retriever" = Some news_retriever_tool ->
  forall steps tools_used sources w res w' tr,
    react_loop registry ticker company query max_steps step_nums steps tools_used
      sources w = (res, w', tr) ->
    In (EvModel p (Raise e)) tr ->
    last tr = Some (EvModel p (Raise e))
    /\ exists steps1,
        res = Ret (ReActResult.mk false steps1 None
                     (tools_used ++ capabilities_used tr)
                     (sources ++ urls_returned tr)
                     (Some ("LLM call failed: " +:+ exn_msg e))).
Proof.
  intros Hte Hnr.
  induction step_nums as [|n rest IH];
    intros steps tools_used sources w res w' tr H Hin.
  - cbn [react_loop] in H. injection H as _ _ <-. destruct Hin.
  - cbn [react_loop] in H.
    destruct (loop_body registry ticker company query n steps tools_used sources w)
      as [[fl w1] evs] eqn:Hb.
    pose proof (loop_body_tracks _ _ _ _ _ _ _ _ _ _ _ _ Hte Hnr Hb) as Ht.
    destruct fl as [steps1 tools1 sources1|r1|e1].
    + destruct (react_loop _ _ _ _ _ rest _ _ _ _) as [[r2 w2] evs2] eqn:Hl.
      injection H as <- _ <-.
      apply in_app_or in Hin as [Hin|Hin].
      { destruct (loop_body_model_raise _ _ _ _ _ _ _ _ _ _ _ _ _ _ Hb Hin) as [_ [=]]. }
      destruct (IH _ _ _ _ _ _ _ Hl Hin) as (Hlast & steps2 & ->).
      destruct Ht as [-> ->]. split.
      * rewrite last_app, Hlast. reflexivity.
      * exists steps2.
        now rewrite capabilities_used_app, urls_returned_app, !app_assoc.
    + injection H as <- _ <-.
      destruct (loop_body_model_raise _ _ _ _ _ _ _ _ _ _ _ _ _ _ Hb Hin) as [-> [= ->]].
      split; [reflexivity|]. exists steps. cbn. now rewrite !app_nil_r.
    + injection H as <- _ <-.
      destruct (loop_body_model_raise _ _ _ _ _ _ _ _ _ _ _ _ _ _ Hb Hin) as [_ [=]].
Qed.

(** X6: a failed model call ends the run at once. If a model call of a
    run raised, it was the last thing the run did, and the run returns
    (it does not raise) a failed result without final answer whose error
    is [LLM call failed:] and the fault's text; its usage list holds the
    identifiers of the successful calls made so far in call order, repeats
    kept (this exit does not pass them through a set), and its sources are
    the URLs collected so far. *)
Theorem model_failure_ends_run (tool_registry : ToolRegistry) (ticker query : string)
  (company_name : option string) (max_steps : Z) (w w' : World)
  (res : outcome ReActResult.t) (tr : list event) (p : string) (e : exn) :
  run_react_loop tool_registry ticker query company_name max_steps w = (res, w', tr) ->
  In (EvModel p (Raise e)) tr ->
  last tr = Some (EvModel p (Raise e))
  /\ exists steps,
      res = Ret (ReActResult.mk false steps None (capabilities_used tr)
                   (urls_returned tr) (Some ("LLM call failed: " +:+ exn_msg e))).
Proof.
  intros H Hin. unfold run_react_loop in H.
  destruct (get_registered tool_registry) as [Hte Hnr].
  eapply react_loop_model_raise in H as [Hlast [steps Hres]]; try eassumption.
  cbn [app] in Hres. eauto.
Qed.

Lemma react_loop_tool_event (registry : ToolRegistry) (ticker company query : string)
  (max_steps : Z) (step_nums : list Z) (a : string) (i : pyval)
  (res : outcome ToolResult.t) :
  forall steps tools_used sources w out w' tr,
    react_loop registry ticker company query max_steps step_nums steps tools_used
      sources w = (out, w', tr) ->
    In (EvTool a i res) tr ->
    get registry a <> None
    /\ a <> "final_answer"
    /\ (forall e, res = Raise e -> exn_type e = "TypeError" /\ unbindable i)
    /\ (forall r, out = Ret r ->
        exists s,
          In s (ReActResult.steps r)
          /\ ReActStep.action s = VStr a
          /\ ReActStep.action_input s = i
          /\ records s res).
Proof.
  induction step_nums as [|n rest IH];
    intros steps tools_used sources w out w' tr H Hin.
  - cbn [react_loop] in H. injection H as _ _ <-. destruct Hin.
  - cbn [react_loop] in H.
    destruct (loop_body registry ticker company query n steps tools_used sources w)
      as [[fl w1] evs] eqn:Hb.
    destruct fl as [steps1 tools1 sources1|r1|e1].
    + destruct (react_loop _ _ _ _ _ rest _ _ _ _) as [[r2 w2] evs2] eqn:Hl.
      injection H as <- _ <-.
      apply in_app_or in Hin as [Hin|Hin].
      * destruct (loop_body_tool_event _ _ _ _ _ _ _ _ _ _ _ _ _ _ _ Hb Hin)
          as (G1 & G2 & G3 & s & t1 & so1 & [= -> _ _] & _ & G5 & G6 & G7).
        split; [assumption|]. split; [assumption|]. split; [exact G3|].
        intros r ->.
        destruct (react_loop_steps _ _ _ _ _ _ _ _ _ _ _ _ _ Hl) as (new & Hst & _).
        exists s. rewrite Hst. split; [|auto].
        apply in_or_app. left. apply in_or_app. right. now left.
      * exact (IH _ _ _ _ _ _ _ Hl Hin).
    + injection H as <- _ <-.
      destruct (loop_body_tool_event _ _ _ _ _ _ _ _ _ _ _ _ _ _ _ Hb Hin)
        as (_ & _ & _ & s & t1 & so1 & [=] & _).
    + injection H as <- _ <-.
      destruct (loop_body_tool_event _ _ _ _ _ _ _ _ _ _ _ _ _ _ _ Hb Hin)
        as (_ & _ & _ & s & t1 & so1 & [=] & _).
Qed.

(** X7: the tool calls of a run. The loop only ever dispatches to a name
    the registry binds, and never to [final_answer]; a call that raised
    did so because the model's input could not be bound (it is no map, or
    it has a key [self] or [tool_name]), with a [TypeError]. No tool call
    ends the run: when the run returns a result, each call has its step
    in it, naming the tool and the input, with the failure text as
    observation and error when the call raised or reported failure. *)
Theorem tool_calls_registered_and_recorded (tool_registry : ToolRegistry)
  (ticker query : string) (company_name : option string) (max_steps : Z)
  (w w' : World) (out : outcome ReActResult.t) (tr : list event)
  (a : string) (i : pyval) (res : outcome ToolResult.t) :
  run_react_loop tool_registry ticker query company_name max_steps w = (out, w', tr) ->
  In (EvTool a i res) tr ->
  get (register_all_tools tool_registry) a <> None
  /\ a <> "final_answer"
  /\ (forall e, res = Raise e -> exn_type e = "TypeError" /\ unbindable i)
  /\ (forall r, out = Ret r ->
      exists s,
        In s (ReActResult.steps r)
        /\ ReActStep.action s = VStr a
        /\ ReActStep.action_input s = i
        /\ records s res).
Proof.
  intros H Hin. unfold run_react_loop in H.
  eapply react_loop_tool_event; eassumption.
Qed.

Lemma react_loop_tracks_any (registry : ToolRegistry) (ticker company query : string)
  (max_steps : Z) (step_nums : list Z) :
  get registry "ticker_extractor" = Some ticker_extractor_tool ->
  get registry "news_retriever" = Some news_retriever_tool ->
  forall steps tools_used sources w r w' tr,
    react_loop registry ticker company query max_steps step_nums steps tools_used
      sources w = (Ret r, w', tr) ->
    ReActResult.sources r = sources ++ urls_returned tr
    /\ (ReActResult.tools_used r = list_set (tools_used ++ capabilities_used tr)
        \/ ReActResult.tools_used r = tools_used ++ capabilities_used tr).
Proof.
  intros Hte Hnr.
  induction step_nums as [|n rest IH]; intros steps tools_used sources w r w' tr H.
  - cbn [react_loop] in H. injection H as <- _ <-. cbn. rewrite !app_nil_r. auto.
  - cbn [react_loop] in H.
    destruct (loop_body registry ticker company query n steps tools_used sources w)
      as [[fl w1] evs] eqn:Hb.
    pose proof (loop_body_tracks _ _ _ _ _ _ _ _ _ _ _ _ Hte Hnr Hb) as Ht.
    pose proof (loop_body_flow _ _ _ _ _ _ _ _ _ _ _ _ Hb) as Hf.
    destruct fl as [steps1 tools1 sources1|r1|e].
    + destruct Ht as [-> ->].
      destruct (react_loop _ _ _ _ _ rest _ _ _ _) as [[r2 w2] evs2] eqn:Hl.
      injection H as -> _ <-.
      destruct (IH _ _ _ _ _ _ _ Hl) as [Hso Hu].
      rewrite Hso, capabilities_used_app, urls_returned_app, !app_assoc.
      rewrite <- !app_assoc in Hu. rewrite <- !app_assoc. auto.
    + injection H as <- _ <-.
      destruct Hf as [(p & e & -> & ->)|(p & response & thought & ai & -> & ->)];
        cbn; rewrite !app_nil_r; auto.
    + discriminate.
Qed.

(** X8: whatever way the loop returns a result (final answer, failed
    model call, budget used up), the result's sources are the URLs of the
    articles returned by the run's successful news retrievals, in order
    and with repeats, and its usage list names exactly the capabilities
    the run used with success. *)
Theorem loop_result_tracks_any_exit (tool_registry : ToolRegistry)
  (ticker query : string) (company_name : option string) (max_steps : Z)
  (w w' : World) (r : ReActResult.t) (tr : list event) :
  run_react_loop tool_registry ticker query company_name max_steps w = (Ret r, w', tr) ->
  ReActResult.sources r = urls_returned tr
  /\ (forall id, id ∈ ReActResult.tools_used r <-> id ∈ capabilities_used tr).
Proof.
  intros H. unfold run_react_loop in H.
  destruct (get_registered tool_registry) as [Hte Hnr].
  destruct (react_loop_tracks_any _ _ _ _ _ _ Hte Hnr _ _ _ _ _ _ _ H) as [Hso Hu].
  rewrite app_nil_l in Hso, Hu. split; [assumption|].
  intros id. destruct Hu as [-> | ->]; [apply elem_of_list_set | reflexivity].
Qed.

End LoopRuns.

(** The scenario of the specification: six steps, numbered 1 to 6. *)
Lemma loop_steps_numbered_witness :
  match run_react_loop (E := Script.env) Script.empty_registry "TSLA" "Analyze TSLA"
          None 10 tsla_script with
  | (Ret r, _, tr) =>
      map ReActStep.step_number (ReActResult.steps r) = [1; 2; 3; 4; 5; 6]
      /\ StronglySorted Z.lt (map ReActStep.step_number (ReActResult.steps r))
      /\ (length (ReActResult.steps r) <= model_calls tr)%nat
  | (Raise _, _, _) => False
  end.
Proof.
  destruct (run_react_loop (E := Script.env) Script.empty_registry "TSLA" "Analyze TSLA"
              None 10 tsla_script) as [[[r|e] w'] tr] eqn:Hrun.
  - destruct (loop_steps_numbered (E := Script.env) _ _ _ _ _ _ _ _ _ Hrun)
      as (Hsorted & _ & Hlen).
    split; [|auto]. vm_compute in Hrun. injection Hrun as <- _ _. reflexivity.
  - vm_compute in Hrun. discriminate.
Defined.

Lemma loop_result_shape_witness :
  match run_react_loop (E := Script.env) Script.empty_registry "TSLA" "Analyze TSLA"
          None 10 tsla_script with
  | (Ret r, _, _) =>
      ReActResult.success r = true
      /\ exists init n thought action_input,
          Forall observed init
          /\ ReActResult.steps r
             = init ++ [ReActStep.mk n thought (VStr "final_answer")
                          action_input None None]
          /\ ReActResult.final_answer r = Some action_input
  | (Raise _, _, _) => False
  end.
Proof.
  destruct (run_react_loop (E := Script.env) Script.empty_registry "TSLA" "Analyze TSLA"
              None 10 tsla_script) as [[[r|e] w'] tr] eqn:Hrun.
  - assert (Hs : ReActResult.success r = true).
    { vm_compute in Hrun. injection Hrun as <- _ _. reflexivity. }
    destruct (loop_result_shape (E := Script.env) _ _ _ _ _ _ _ _ _ Hrun)
      as (init & Hobs & Hshape).
    rewrite Hs in Hshape. destruct Hshape as (n & thought & ai & Hst & Hfa & _).
    split; [assumption|]. eauto 8.
  - vm_compute in Hrun. discriminate.
Defined.

Lemma model_failure_ends_run_witness :
  exists steps,
    fst (fst (run_react_loop (E := Script.env) Script.empty_registry "TSLA"
                "Analyze TSLA" None 10 outage_script))
    = Ret (ReActResult.mk false steps None ["findata_fetcher"] []
             (Some "LLM call failed: service unavailable")).
Proof.
  destruct (run_react_loop (E := Script.env) Script.empty_registry "TSLA"
              "Analyze TSLA" None 10 outage_script) as [[res w'] tr] eqn:Hrun.
  assert (Hin : exists p,
             In (EvModel p (Raise Script.unavailable)) tr
             /\ capabilities_used tr = ["findata_fetcher"]
             /\ urls_returned tr = []).
  { vm_compute in Hrun. injection Hrun as _ _ <-. eexists.
    split; [right; right; left; reflexivity|]. split; reflexivity. }
  destruct Hin as (p & Hin & Hcaps & Hurls).
  destruct (model_failure_ends_run (E := Script.env) _ _ _ _ _ _ _ _ _ _ _ Hrun Hin)
    as (_ & steps & ->).
  exists steps. cbn [fst]. rewrite Hcaps, Hurls. reflexivity.
Defined.

Lemma tool_calls_registered_and_recorded_witness :
  match run_react_loop (E := Script.env) Script.empty_registry "TSLA" "Analyze TSLA"
          None 10 unbound_script with
  | (Ret r, _, _) =>
      exists s,
        In s (ReActResult.steps r)
        /\ ReActStep.action s = VStr "findata_fetcher"
        /\ ReActStep.action_input s = VStr "TSLA"
        /\ ReActStep.error s
           = Some ("app.tools.registry.ToolRegistry.execute() "
                   +:+ "argument after ** must be a mapping, not str")
  | (Raise _, _, _) => False
  end.
Proof.
  destruct (run_react_loop (E := Script.env) Script.empty_registry "TSLA" "Analyze TSLA"
              None 10 unbound_script) as [[[r|e] w'] tr] eqn:Hrun.
  - assert (Hin : In (EvTool "findata_fetcher" (VStr "TSLA")
                        (Raise (bind_error "app.tools.registry.ToolRegistry.execute"
                                  "argument after ** must be a mapping, not str"))) tr).
    { vm_compute in Hrun. injection Hrun as _ _ <-. right. left. reflexivity. }
    destruct (tool_calls_registered_and_recorded (E := Script.env)
                _ _ _ _ _ _ _ _ _ _ _ _ Hrun Hin) as (_ & _ & _ & Hrec).
    destruct (Hrec r eq_refl) as (s & Hs & Ha & Hi & _ & Herr).
    exists s. auto.
  - vm_compute in Hrun. discriminate.
Defined.

(** A failed model call after one successful tool call: the result is
    not a success, and its usage list still names the tool. *)
Lemma loop_result_tracks_any_exit_witness :
  match run_react_loop (E := Script.env) Script.empty_registry "TSLA" "Analyze TSLA"
          None 10 outage_script with
  | (Ret r, _, tr) =>
      ReActResult.success r = false
      /\ ReActResult.sources r = urls_returned tr
      /\ ("findata_fetcher" ∈ ReActResult.tools_used r
          <-> "findata_fetcher" ∈ capabilities_used tr)
  | (Raise _, _, _) => False
  end.
Proof.
  destruct (run_react_loop (E := Script.env) Script.empty_registry "TSLA" "Analyze TSLA"
              None 10 outage_script) as [[[r|e] w'] tr] eqn:Hrun.
  - destruct (loop_result_tracks_any_exit (E := Script.env) _ _ _ _ _ _ _ _ _ Hrun)
      as (Hso & Hu).
    split; [|auto]. vm_compute in Hrun. injection Hrun as <- _ _. reflexivity.
  - vm_compute in Hrun. discriminate.
Defined.

(** ** The history shown to the model *)

Section HistoryFacts.
Context {E : Env}.

Lemma char_count_nonneg (s : string) : 0 <= char_count s.
Proof.
  induction s as [|c r IH]; cbn [char_count]; [lia|].
  destruct ((128 <=? code c) && (code c <? 192)); lia.
Qed.

Lemma char_count_app (a b : string) :
  char_count (a +:+ b) = char_count a + char_count b.
Proof.
  induction a as [|c r IH]; norm_app; [reflexivity|].
  cbn [char_count]. rewrite IH. lia.
Qed.

Lemma char_count_take (s : string) :
  forall n, char_count (take_chars n s) <= Z.of_nat n.
Proof.
  induction s as [|c r IH]; intros n; cbn [take_chars char_count]; [lia|].
  destruct ((128 <=? code c) && (code c <? 192)) eqn:Hc.
  - cbn [char_count]. rewrite Hc. specialize (IH n). lia.
  - destruct n as [|n']; cbn [char_count]; [lia|].
    rewrite Hc. specialize (IH n'). lia.
Qed.

Lemma take_chars_prefix (s : string) :
  forall n, exists rest, s = take_chars n s +:+ rest.
Proof.
  induction s as [|c r IH]; intros n; cbn [take_chars].
  - exists "". reflexivity.
  - destruct ((128 <=? code c) && (code c <? 192)).
    + destruct (IH n) as [rest Hr]. exists rest. norm_app. now rewrite <- Hr.
    + destruct n as [|n'].
      * exists (String c r). reflexivity.
      * destruct (IH n') as [rest Hr]. exists rest. norm_app. now rewrite <- Hr.
Qed.

Lemma join_cons_cons (sep a b : string) (l : list string) :
  join sep (a :: b :: l) = a +:+ sep +:+ join sep (b :: l).
Proof. reflexivity. Qed.

(** X9: what the history shows of a step. The rendering of a step is
    its four header lines, then the observation line if the step has a
    non-empty observation, then the error line if it has a non-empty
    error. The observation is shown in full when it has at most 2000 code
    points; a longer one is cut to its first 2000 code points, a prefix of
    the text, followed by the truncation mark, so that at most 2015 code
    points of it are shown. The history of no steps is the fixed text
    [No previous steps yet.]; any other history starts with a step
    header, so the two cannot be confused. *)
Theorem history_truncates_observations (step : ReActStep.t) :
  format_step step
  = join newline
      (["Step " +:+ pretty (ReActStep.step_number step) +:+ ":";
        "  Thought: " +:+ py_str (ReActStep.thought step);
        "  Action: " +:+ py_str (ReActStep.action step);
        "  Action Input: " +:+ json_dumps (ReActStep.action_input step)]
       ++ match ReActStep.observation step with
          | Some (String c r as obs) => ["  Observation: " +:+ shown_observation obs]
          | _ => []
          end
       ++ match ReActStep.error step with
          | Some (String c r as err) => ["  Error: " +:+ err]
          | _ => []
          end)
  /\ (forall obs,
        char_count (shown_observation obs) <= 2015
        /\ (char_count obs <= 2000 -> shown_observation obs = obs)
        /\ (2000 < char_count obs ->
            exists rest,
              obs = take_chars 2000 obs +:+ rest
              /\ shown_observation obs = take_chars 2000 obs +:+ "... [truncated]"))
  /\ (forall steps,
        _format_history steps = "No previous steps yet." <-> steps = []).
Proof.
  split; [|split].
  - unfold format_step, shown_observation.
    destruct (ReActStep.observation step) as [[|c r]|];
      destruct (ReActStep.error step) as [[|c' r']|]; reflexivity.
  - intros obs. unfold shown_observation.
    destruct (2000 <? char_count obs) eqn:Hlen.
    + apply Z.ltb_lt in Hlen. split; [|split].
      * rewrite char_count_app. pose proof (char_count_take obs 2000) as Ht.
        change (char_count "... [truncated]") with 15. lia.
      * lia.
      * intros _. destruct (take_chars_prefix obs 2000) as [rest Hr]. eauto.
    + apply Z.ltb_ge in Hlen. split; [lia|]. split; [reflexivity | lia].
  - intros steps. split; [|intros ->; reflexivity].
    destruct steps as [|s l]; [reflexivity|]. intros H. exfalso.
    unfold _format_history in H. cbn [map] in H.
    assert (Hhead : exists rest, format_step s = String "S" rest).
    { unfold format_step. cbn [app]. rewrite join_cons_cons. norm_app. eauto. }
    destruct Hhead as [rest Hs].
    destruct l as [|s2 l2].
    + cbn [map join] in H. rewrite Hs in H. discriminate.
    + cbn [map] in H. rewrite join_cons_cons, Hs in H.
      rewrite append_cons in H. discriminate.
Qed.

End HistoryFacts.

(** ** The reflection gate: reading the verdict *)

Section ReflectionVerdicts.
Context {E : Env}.

(** X10: the gate also fails open on a reply it cannot read. When the
    reply yields JSON that is not a map (a non-empty array, a number, a
    text), or a map whose [quality_score] cannot be converted to a float,
    the fault is caught and the default verdict is returned: score 0.5,
    accepted, whatever the map said under [is_acceptable]. *)
Theorem reflection_fails_open_on_malformed (ticker : string) (analysis_summary : pyval)
  (sentiment_score : float) (key_findings tools_used : list string)
  (sources_count : Z) (min_quality_score : float) (w w' : World) (response : string) :
  generate_content
    (reflection_prompt ticker analysis_summary sentiment_score key_findings
       tools_used sources_count) None (Some 0.2%float) w = (Ret response, w') ->
  (forall d, _extract_json response <> VDict d)
  \/ (exists d e,
        _extract_json response = VDict d
        /\ py_float (match dict_lookup d "quality_score" with
                     | Some v => v
                     | None => VFloat 0.5%float
                     end) = Raise e) ->
  reflect_on_analysis ticker analysis_summary sentiment_score key_findings
    tools_used sources_count min_quality_score w
  = (ReflectionResult.mk 0.5%float (VBool true)
       [VStr "Reflection assessment could not be completed"] VNone, w').
Proof.
  intros Hg Hbad. unfold reflect_on_analysis. rewrite Hg.
  destruct (truthy (_extract_json response)); [|reflexivity].
  unfold read_reflection.
  destruct Hbad as [Hnd|(d & e & Hd & Hf)].
  - destruct (_extract_json response) as [| | | | | |d]; try reflexivity.
    now destruct (Hnd d).
  - rewrite Hd. cbn [py_get mbind outcome_bind]. rewrite Hf. reflexivity.
Qed.

(** X11: reading a verdict map. The score is the float of
    [quality_score], 0.5 when the key is absent; [is_acceptable] is the
    map's value as it stands (it is not coerced to a boolean), and when
    the key is absent it is derived from the score: accepted exactly when
    [min_quality_score <= score]. The refined summary is the map's value
    or [None]; improvements that are not a list are replaced by the empty
    list. *)
Theorem reflection_reads_verdict (ticker : string) (analysis_summary : pyval)
  (sentiment_score : float) (key_findings tools_used : list string)
  (sources_count : Z) (min_quality_score : float) (w w' : World) (response : string)
  (d : list (string * pyval)) (q : float) :
  generate_content
    (reflection_prompt ticker analysis_summary sentiment_score key_findings
       tools_used sources_count) None (Some 0.2%float) w = (Ret response, w') ->
  _extract_json response = VDict d ->
  d <> [] ->
  py_float (match dict_lookup d "quality_score" with
            | Some v => v
            | None => VFloat 0.5%float
            end) = Ret q ->
  reflect_on_analysis ticker analysis_summary sentiment_score key_findings
    tools_used sources_count min_quality_score w
  = (ReflectionResult.mk q
       (match dict_lookup d "is_acceptable" with
        | Some a => a
        | None => VBool (PrimFloat.leb min_quality_score q)
        end)
       (match dict_lookup d "improvements" with
        | Some (VList l) => l
        | _ => []
        end)
       (match dict_lookup d "refined_summary" with
        | Some s => s
        | None => VNone
        end), w')
  /\ (dict_lookup d "quality_score" = None -> q = 0.5%float).
Proof.
  intros Hg Hd Hne Hq. split.
  - unfold reflect_on_analysis. rewrite Hg, Hd.
    destruct d as [|kv d']; [congruence|]. cbn [truthy].
    unfold read_reflection. cbn [py_get mbind outcome_bind]. rewrite Hq.
    cbn [mbind outcome_bind].
    destruct (dict_lookup (kv :: d') "improvements") as [[| | | | |l|]|]; reflexivity.
  - intros Hnone. rewrite Hnone in Hq. cbn in Hq. congruence.
Qed.

End ReflectionVerdicts.

(** The verdict map has no [is_acceptable] and no [quality_score]: the
    score is 0.5 and, against the threshold 0.7, the verdict rejects. *)
Lemma reflection_reads_verdict_witness :
  fst (reflect_on_analysis (E := Script.env) "TSLA" (VStr "ok") 0.5%float
         ["a"] ["news_retriever"] 2 0.7%float bare_verdict_script)
  = ReflectionResult.mk 0.5%float (VBool false) [VStr "cite sources"] VNone.
Proof.
  assert (H := reflection_reads_verdict (E := Script.env) "TSLA" (VStr "ok") 0.5%float
                 ["a"] ["news_retriever"] 2 0.7%float bare_verdict_script
                 (Script.mk [] [] 0) (dq "{'improvements': ['cite sources']}")
                 [("improvements", VList [VStr "cite sources"])] 0.5%float
                 eq_refl eq_refl).
  destruct H as [H _]; [discriminate | reflexivity |].
  rewrite H. reflexivity.
Defined.

(** The score is an array: the verdict is the default one, accepted,
    although the map says [is_acceptable: false]. *)
Lemma reflection_fails_open_on_malformed_witness :
  fst (reflect_on_analysis (E := Script.env) "TSLA" (VStr "ok") 0.5%float
         ["a"] ["news_retriever"] 2 0.7%float odd_score_script)
  = ReflectionResult.mk 0.5%float (VBool true)
      [VStr "Reflection assessment could not be completed"] VNone.
Proof.
  rewrite (reflection_fails_open_on_malformed (E := Script.env) "TSLA" (VStr "ok")
             0.5%float ["a"] ["news_retriever"] 2 0.7%float odd_score_script
             (Script.mk [] [] 0)
             (dq "{'quality_score': [1], 'is_acceptable': false}")).
  - reflexivity.
  - reflexivity.
  - right. eexists _, _. split; [vm_compute; reflexivity|]. reflexivity.
Defined.

(** ** Runs of the orchestrator *)

Section AgentRuns.
Context {E : Env}.

Lemma reflections_app (a b : list event) :
  reflections (a ++ b) = (reflections a + reflections b)%nat.
Proof.
  induction a as [|ev a IH]; [reflexivity|].
  destruct ev; simpl; rewrite IH; reflexivity.
Qed.

Lemma plain_no_reflection (tr : list event) :
  Forall plain tr -> reflections tr = 0%nat.
Proof.
  induction 1 as [|ev tr Hev _ IH]; [reflexivity|].
  destruct ev; try contradiction; assumption.
Qed.

(** What one run of the loop adds to the record of the orchestrator. *)
Lemma run_react_loop_record (tool_registry : ToolRegistry) (ticker query : string)
  (company_name : option string) (max_steps : Z) (w w1 : World)
  (res0 : outcome ReActResult.t) (evs : list event) :
  run_react_loop tool_registry ticker query company_name max_steps w = (res0, w1, evs) ->
  loop_runs (evs ++ [EvLoop res0]) = 1%nat
  /\ last_loop (evs ++ [EvLoop res0]) = Some res0
  /\ reflections (evs ++ [EvLoop res0]) = 0%nat
  /\ (model_calls (evs ++ [EvLoop res0]) <= Z.to_nat max_steps)%nat.
Proof.
  intros Hrun. unfold run_react_loop in Hrun.
  pose proof (react_loop_plain _ _ _ _ _ _ _ _ _ _ _ _ _ Hrun) as Hplain.
  destruct (plain_no_loop evs Hplain) as [Hruns Hlast].
  pose proof (plain_no_reflection evs Hplain) as Hrefl.
  apply react_loop_budget_gen in Hrun as (Hle & _).
  rewrite length_py_range in Hle.
  replace (max_steps + 1 - 1) with max_steps in Hle by lia.
  rewrite loop_runs_app, last_loop_app, reflections_app, model_calls_app.
  rewrite Hruns, Hrefl. cbn. split; [reflexivity|]. split; [reflexivity|].
  split; [reflexivity | lia].
Qed.

Lemma attempts_loop_bounds (tool_registry : ToolRegistry) (query ticker : string)
  (company_name : option string) (max_steps : Z) (enable_reflection : bool)
  (max_retries : Z) (attempts : list Z) :
  forall last_error w res w' tr,
    attempts_loop tool_registry query ticker company_name max_steps
      enable_reflection max_retries attempts last_error w = (res, w', tr) ->
    (loop_runs tr <= length attempts)%nat
    /\ (reflections tr <= loop_runs tr)%nat
    /\ (model_calls tr <= loop_runs tr * Z.to_nat max_steps)%nat
    /\ (enable_reflection = false -> reflections tr = 0%nat).
Proof.
  induction attempts as [|attempt rest IH]; intros last_error w res w' tr H.
  - cbn [attempts_loop] in H. injection H as _ _ <-. cbn. auto with lia.
  - cbn [attempts_loop] in H.
    destruct (run_react_loop tool_registry ticker query company_name max_steps w)
      as [[res0 w1] evs] eqn:Hrun.
    destruct (run_react_loop_record _ _ _ _ _ _ _ _ _ Hrun) as (R1 & _ & R3 & R4).
    apply with_events_Ret in H as [tr1 [H ->]].
    rewrite loop_runs_app, reflections_app, model_calls_app, R1, R3. cbn [length].
    assert (Hagain : forall cause w2 tr2,
               attempts_loop tool_registry query ticker company_name max_steps
                 enable_reflection max_retries rest cause w2 = (res, w', tr2) ->
               (1 + loop_runs tr2 <= S (length rest))%nat
               /\ (0 + reflections tr2 <= 1 + loop_runs tr2)%nat
               /\ (model_calls (evs ++ [EvLoop res0]) + model_calls tr2
                   <= (1 + loop_runs tr2) * Z.to_nat max_steps)%nat
               /\ (enable_reflection = false -> (0 + reflections tr2)%nat = 0%nat)).
    { intros cause w2 tr2 H2. destruct (IH _ _ _ _ _ H2) as (B1 & B2 & B3 & B4).
      repeat split; try lia. intros Hoff. rewrite (B4 Hoff). reflexivity. }
    assert (Hstop : (1 + loop_runs [] <= S (length rest))%nat
               /\ (0 + reflections [] <= 1 + loop_runs [])%nat
               /\ (model_calls (evs ++ [EvLoop res0]) + model_calls []
                   <= (1 + loop_runs []) * Z.to_nat max_steps)%nat
               /\ (enable_reflection = false -> (0 + reflections [])%nat = 0%nat)).
    { cbn. repeat split; lia. }
    destruct res0 as [rr|e].
    2:{ injection H as _ _ <-. exact Hstop. }
    destruct (negb (ReActResult.success rr)); [eapply Hagain; eassumption|].
    destruct (falsy_opt (ReActResult.final_answer rr)); [eapply Hagain; eassumption|].
    destruct (sanitize _) as [[[summary score] kf]|e].
    2:{ injection H as _ _ <-. exact Hstop. }
    destruct enable_reflection.
    + destruct (reflect_on_analysis _ _ _ _ _ _ _ _) as [reflection w2].
      apply with_events_Ret in H as [tr2 [H ->]].
      cbn [app reflections loop_runs model_calls].
      destruct (_ && _).
      * destruct (IH _ _ _ _ _ H) as (B1 & B2 & B3 & B4).
        repeat split; first [lia | discriminate].
      * destruct (build_report _ _ _ _ _ _) as [r w3].
        injection H as _ _ <-. cbn. repeat split; first [lia | discriminate].
    + destruct (build_report _ _ _ _ _ _) as [r w3].
      injection H as _ _ <-. exact Hstop.
Qed.

(** X12: the cost of a run of the orchestrator, whatever the replies.
    At most [max_retries + 1] loop runs are made; the gate is consulted
    at most once per loop run, and never when reflection is disabled; the
    loop runs together make at most [max_steps] model calls each. *)
Theorem agent_run_bounds (tool_registry : ToolRegistry) (query ticker : string)
  (company_name : option string) (max_steps : Z) (enable_reflection : bool)
  (max_retries : Z) (w w' : World) (res : outcome AnalysisReport.t)
  (tr : list event) :
  run_agent tool_registry query ticker company_name max_steps enable_reflection
    max_retries w = (res, w', tr) ->
  (loop_runs tr <= Z.to_nat (max_retries + 1))%nat
  /\ (reflections tr <= loop_runs tr)%nat
  /\ (model_calls tr <= loop_runs tr * Z.to_nat max_steps)%nat
  /\ (enable_reflection = false -> reflections tr = 0%nat).
Proof.
  intros H. unfold run_agent in H.
  apply attempts_loop_bounds in H. rewrite length_py_range in H.
  replace (max_retries + 1 - 0) with (max_retries + 1) in H by lia.
  exact H.
Qed.

(** X13: the quick analysis of the monitoring task is single-shot. It
    runs the loop exactly once, with a budget of six model calls, never
    consults the gate, and a loop run that gives no usable answer makes it
    raise at once, the error counting one attempt. *)
Theorem quick_analysis_single_shot (tool_registry : ToolRegistry) (ticker : string)
  (company_name : option string) (w w' : World) (res : outcome AnalysisReport.t)
  (tr : list event) :
  run_quick_analysis tool_registry ticker company_name w = (res, w', tr) ->
  loop_runs tr = 1%nat
  /\ reflections tr = 0%nat
  /\ (model_calls tr <= 6)%nat
  /\ (exists res0,
        last tr = Some (EvLoop res0)
        /\ fst (fst (run_react_loop tool_registry ticker
                       ("Provide a brief market update for " +:+ ticker)
                       company_name 6 w)) = res0
        /\ match res0 with
           | Raise e => res = Raise e
           | Ret rr =>
               ReActResult.success rr = false
               \/ falsy_opt (ReActResult.final_answer rr) = true ->
               res = Raise (Exn "ValueError"
                              ("Analysis failed after 1 attempts: "
                               +:+ failure_cause rr))
           end).
Proof.
  intros H. unfold run_quick_analysis, run_agent in H.
  change (py_range 0 (0 + 1)) with [0] in H. cbn [attempts_loop] in H.
  destruct (run_react_loop tool_registry ticker _ company_name 6 w)
    as [[res0 w1] evs] eqn:Hrun.
  destruct (run_react_loop_record _ _ _ _ _ _ _ _ _ Hrun) as (R1 & R2 & R3 & R4).
  apply with_events_Ret in H as [tr1 [H ->]].
  assert (Hnil : tr1 = [] /\
            match res0 with
            | Raise e => res = Raise e
            | Ret rr =>
                ReActResult.success rr = false
                \/ falsy_opt (ReActResult.final_answer rr) = true ->
                res = Raise (Exn "ValueError"
                               ("Analysis failed after 1 attempts: "
                                +:+ failure_cause rr))
            end).
  { destruct res0 as [rr|e].
    2:{ injection H as <- _ <-. auto. }
    unfold failure_cause.
    destruct (ReActResult.success rr); cbn [negb] in H.
    2:{ injection H as <- _ <-. auto. }
    destruct (falsy_opt (ReActResult.final_answer rr)).
    { injection H as <- _ <-. auto. }
    destruct (sanitize _) as [[[summary score] kf]|e].
    2:{ injection H as <- _ <-. split; [reflexivity|]. intros [?|?]; discriminate. }
    destruct (build_report _ _ _ _ _ _) as [r w3].
    injection H as <- _ <-. split; [reflexivity|]. intros [?|?]; discriminate. }
  destruct Hnil as [-> Hres]. rewrite app_nil_r.
  split; [assumption|]. split; [assumption|]. split; [exact R4|].
  exists res0. rewrite last_snoc. auto.
Qed.

(** X14: empty budgets. With a step budget of zero or less the body of
    the loop is never entered: no model call, no tool call, the world
    untouched, and the result is the exhaustion result, which names the
    budget as given. With a negative retry budget the orchestrator makes
    no attempt: the loop is not run, and the exhaustion error is raised at
    once; the count it names is [max_retries + 1] and the cause is
    [None]. *)
Theorem empty_budgets (tool_registry : ToolRegistry) (query ticker : string)
  (company_name : option string) (max_steps : Z) (enable_reflection : bool)
  (max_retries : Z) (w : World) :
  (max_steps <= 0 ->
   run_react_loop tool_registry ticker query company_name max_steps w
   = (Ret (ReActResult.mk false [] None [] []
             (Some ("Analysis incomplete after " +:+ pretty max_steps +:+ " steps"))),
      w, []))
  /\ (max_retries < 0 ->
      run_agent tool_registry query ticker company_name max_steps enable_reflection
        max_retries w
      = (Raise (Exn "ValueError"
                  ("Analysis failed after " +:+ pretty (max_retries + 1)
                   +:+ " attempts: None")), w, [])).
Proof.
  split.
  - intros Hn. unfold run_react_loop, py_range.
    replace (Z.to_nat (max_steps + 1 - 1)) with 0%nat by lia.
    cbn [seq map react_loop]. now rewrite list_set_nil.
  - intros Hr. unfold run_agent, py_range.
    replace (Z.to_nat (max_retries + 1 - 0)) with 0%nat by lia.
    reflexivity.
Qed.

Lemma all_str_Some (l : list pyval) (cited : list string) :
  all_str l = Some cited -> l = map VStr cited.
Proof.
  revert cited. induction l as [|v l IH]; intros cited H.
  - injection H as <-. reflexivity.
  - destruct v; try discriminate. cbn in H.
    destruct (all_str l) as [r|]; [|discriminate].
    injection H as <-. cbn. now rewrite (IH r).
Qed.

Lemma build_report_fields (ticker : string) (summary1 : pyval) (score : float)
  (kf : list string) (rr : ReActResult.t) (w w' : World) (report : AnalysisReport.t) :
  build_report ticker summary1 score kf rr w = (Ret report, w') ->
  summary1 = VStr (AnalysisReport.analysis_summary report)
  /\ AnalysisReport.company_ticker report = ticker
  /\ AnalysisReport.sentiment_score report = score
  /\ AnalysisReport.key_findings report
     = match kf with [] => [placeholder_finding] | _ => kf end
  /\ AnalysisReport.tools_used report = ReActResult.tools_used rr
  /\ ReActResult.sources rr = map VStr (AnalysisReport.citation_sources report)
  /\ AnalysisReport.generated_at report = fst (utcnow w).
Proof.
  unfold build_report. intros H. destruct (utcnow w) as [now w1].
  injection H as H _.
  apply new_AnalysisReport_inv in H as (H1 & H2 & H3 & H4 & H5 & H6 & H7).
  apply all_str_Some in H6. auto 10.
Qed.

Lemma attempts_loop_origin (tool_registry : ToolRegistry) (query ticker : string)
  (company_name : option string) (max_steps : Z) (enable_reflection : bool)
  (max_retries : Z) (attempts : list Z) :
  forall last_error w w' tr report,
    attempts_loop tool_registry query ticker company_name max_steps
      enable_reflection max_retries attempts last_error w = (Ret report, w', tr) ->
    exists rr final summary score kf,
      last_loop tr = Some (Ret rr)
      /\ ReActResult.success rr = true
      /\ ReActResult.final_answer rr = Some final
      /\ sanitize final = Ret (summary, score, kf)
      /\ AnalysisReport.company_ticker report = ticker
      /\ AnalysisReport.sentiment_score report = score
      /\ AnalysisReport.key_findings report
         = match kf with [] => [placeholder_finding] | _ => kf end
      /\ AnalysisReport.tools_used report = ReActResult.tools_used rr
      /\ map VStr (AnalysisReport.citation_sources report) = ReActResult.sources rr
      /\ VStr (AnalysisReport.analysis_summary report)
         = match closing_verdict tr with
           | Some v =>
               if truthy (ReflectionResult.refined_summary v)
                  && truthy (ReflectionResult.is_acceptable v)
               then ReflectionResult.refined_summary v
               else summary
           | None => summary
           end
      /\ (enable_reflection = true <-> closing_verdict tr <> None).
Proof.
  induction attempts as [|attempt rest IH]; intros last_error w w' tr report H.
  - discriminate.
  - cbn [attempts_loop] in H.
    destruct (run_react_loop tool_registry ticker query company_name max_steps w)
      as [[res0 w1] evs] eqn:Hrun.
    destruct (run_react_loop_record _ _ _ _ _ _ _ _ _ Hrun) as (_ & R2 & _ & _).
    apply with_events_Ret in H as [tr1 [H ->]].
    assert (Hagain : forall cause w2 pre tr2,
               attempts_loop tool_registry query ticker company_name max_steps
                 enable_reflection max_retries rest cause w2 = (Ret report, w', tr2) ->
               exists rr final summary score kf,
                 last_loop ((evs ++ [EvLoop res0]) ++ pre ++ tr2) = Some (Ret rr)
                 /\ ReActResult.success rr = true
                 /\ ReActResult.final_answer rr = Some final
                 /\ sanitize final = Ret (summary, score, kf)
                 /\ AnalysisReport.company_ticker report = ticker
                 /\ AnalysisReport.sentiment_score report = score
                 /\ AnalysisReport.key_findings report
                    = match kf with [] => [placeholder_finding] | _ => kf end
                 /\ AnalysisReport.tools_used report = ReActResult.tools_used rr
                 /\ map VStr (AnalysisReport.citation_sources report)
                    = ReActResult.sources rr
                 /\ VStr (AnalysisReport.analysis_summary report)
                    = match closing_verdict ((evs ++ [EvLoop res0]) ++ pre ++ tr2) with
                      | Some v =>
                          if truthy (ReflectionResult.refined_summary v)
                             && truthy (ReflectionResult.is_acceptable v)
                          then ReflectionResult.refined_summary v
                          else summary
                      | None => summary
                      end
                 /\ (enable_reflection = true
                     <-> closing_verdict ((evs ++ [EvLoop res0]) ++ pre ++ tr2) <> None)).
    { intros cause w2 pre tr2 H2.
      destruct (IH _ _ _ _ _ H2)
        as (rr & final & summary & score & kf & L1 & L2 & L3 & L4 & L5 & L6 & L7 & L8
            & L9 & L10 & L11).
      assert (Hne : tr2 <> []) by (intros ->; discriminate).
      assert (Hcv : closing_verdict ((evs ++ [EvLoop res0]) ++ pre ++ tr2)
                    = closing_verdict tr2).
      { unfold closing_verdict. rewrite !last_app.
        destruct (last tr2) eqn:Hl; [reflexivity|].
        apply last_None in Hl. contradiction. }
      exists rr, final, summary, score, kf. rewrite Hcv.
      rewrite !last_loop_app, L1. auto 12. }
    destruct res0 as [rr|e]; [|discriminate].
    destruct (ReActResult.success rr) eqn:Hsucc; cbn [negb] in H.
    2:{ specialize (Hagain _ _ [] _ H). exact Hagain. }
    destruct (falsy_opt (ReActResult.final_answer rr)) eqn:Hfalsy.
    { specialize (Hagain _ _ [] _ H). exact Hagain. }
    destruct (ReActResult.final_answer rr) as [final|] eqn:Hfinal; [|discriminate].
    destruct (sanitize final) as [[[summary score] kf]|e] eqn:Hsan; [|discriminate].
    destruct enable_reflection.
    + destruct (reflect_on_analysis _ _ _ _ _ _ _ _) as [reflection w2].
      apply with_events_Ret in H as [tr2 [H ->]].
      destruct (_ && _).
      { exact (Hagain _ _ [EvReflection reflection] _ H). }
      destruct (build_report _ _ _ _ _ _) as [r w3] eqn:Hb.
      injection H as -> <- <-.
      apply build_report_fields in Hb as (B1 & B2 & B3 & B4 & B5 & B6 & _).
      exists rr, final, summary, score, kf.
      assert (Hcv : closing_verdict
                      ((evs ++ [EvLoop (Ret rr)]) ++ [EvReflection reflection] ++ [])
                    = Some reflection).
      { unfold closing_verdict. rewrite app_nil_r, last_snoc. reflexivity. }
      rewrite Hcv, !last_loop_app. cbn [last_loop app].
      repeat split; auto; try discriminate.
    + destruct (build_report _ _ _ _ _ _) as [r w3] eqn:Hb.
      injection H as -> <- <-.
      apply build_report_fields in Hb as (B1 & B2 & B3 & B4 & B5 & B6 & _).
      exists rr, final, summary, score, kf.
      assert (Hcv : closing_verdict ((evs ++ [EvLoop (Ret rr)]) ++ []) = None).
      { unfold closing_verdict. rewrite app_nil_r, last_snoc. reflexivity. }
      rewrite Hcv, app_nil_r. rewrite R2.
      repeat split; auto; try discriminate.
Qed.

(** X15: where a returned report comes from. It is built from the last
    loop run of the orchestrator's run, which succeeded with a final
    answer: ticker as given, score and findings as sanitised from that
    answer, usage list and citations as that loop run returned them. The
    summary is the answer's, unless the run ended with a verdict of the
    gate that accepts and carries a non-empty refined summary: then it is
    the refined one. A run ends with a verdict exactly when reflection is
    enabled. *)
Theorem report_origin (tool_registry : ToolRegistry) (query ticker : string)
  (company_name : option string) (max_steps : Z) (enable_reflection : bool)
  (max_retries : Z) (w w' : World) (tr : list event) (report : AnalysisReport.t) :
  run_agent tool_registry query ticker company_name max_steps enable_reflection
    max_retries w = (Ret report, w', tr) ->
  exists rr final summary score kf,
    last_loop tr = Some (Ret rr)
    /\ ReActResult.success rr = true
    /\ ReActResult.final_answer rr = Some final
    /\ sanitize final = Ret (summary, score, kf)
    /\ AnalysisReport.company_ticker report = ticker
    /\ AnalysisReport.sentiment_score report = score
    /\ AnalysisReport.key_findings report
       = match kf with [] => [placeholder_finding] | _ => kf end
    /\ AnalysisReport.tools_used report = ReActResult.tools_used rr
    /\ map VStr (AnalysisReport.citation_sources report) = ReActResult.sources rr
    /\ VStr (AnalysisReport.analysis_summary report)
       = match closing_verdict tr with
         | Some v =>
             if truthy (ReflectionResult.refined_summary v)
                && truthy (ReflectionResult.is_acceptable v)
             then ReflectionResult.refined_summary v
             else summary
         | None => summary
         end
    /\ (enable_reflection = true <-> closing_verdict tr <> None).
Proof.
  intros H. unfold run_agent in H. eapply attempts_loop_origin. eassumption.
Qed.

End AgentRuns.

(** The run of the retry example: two attempts allowed, two loop runs,
    one verdict. *)
Lemma agent_run_bounds_witness :
  (loop_runs
     (snd (run_agent (E := Script.env) Script.empty_registry "Analyze TSLA" "TSLA"
             None 10 true 1 retry_script)) <= 2)%nat
  /\ (reflections
        (snd (run_agent (E := Script.env) Script.empty_registry "Analyze TSLA" "TSLA"
                None 10 true 1 retry_script))
      <= loop_runs
           (snd (run_agent (E := Script.env) Script.empty_registry "Analyze TSLA" "TSLA"
                   None 10 true 1 retry_script)))%nat.
Proof.
  pose proof (agent_run_bounds (E := Script.env) Script.empty_registry
                "Analyze TSLA" "TSLA" None 10 true 1 retry_script) as H.
  destruct (run_agent (E := Script.env) Script.empty_registry "Analyze TSLA" "TSLA"
              None 10 true 1 retry_script) as [[res w'] tr] eqn:Hrun.
  destruct (H w' res tr eq_refl) as (H1 & H2 & _). cbn [snd]. split; assumption.
Defined.

(** The model answers with prose: the quick analysis raises after its one
    loop run. *)
Lemma quick_analysis_single_shot_witness :
  loop_runs
    (snd (run_quick_analysis (E := Script.env) Script.empty_registry "TSLA" None
            (Script.mk [Ret "I am thinking."] [] 0)))
  = 1%nat.
Proof.
  pose proof (quick_analysis_single_shot (E := Script.env) Script.empty_registry
                "TSLA" None (Script.mk [Ret "I am thinking."] [] 0)) as H.
  destruct (run_quick_analysis (E := Script.env) Script.empty_registry "TSLA" None
              (Script.mk [Ret "I am thinking."] [] 0)) as [[res w'] tr] eqn:Hrun.
  exact (proj1 (H w' res tr eq_refl)).
Defined.

(** The gate accepts and rewrites the summary: the report carries the
    refined text. *)
Lemma report_origin_witness :
  match run_agent (E := Script.env) Script.empty_registry "Analyze TSLA" "TSLA"
          None 10 true 1 refine_script with
  | (Ret report, _, tr) =>
      AnalysisReport.analysis_summary report = "better"
      /\ exists rr, last_loop tr = Some (Ret rr)
                    /\ AnalysisReport.tools_used report = ReActResult.tools_used rr
  | (Raise _, _, _) => False
  end.
Proof.
  destruct (run_agent (E := Script.env) Script.empty_registry "Analyze TSLA" "TSLA"
              None 10 true 1 refine_script) as [[[report|e] w'] tr] eqn:Hrun.
  - destruct (report_origin (E := Script.env) _ _ _ _ _ _ _ _ _ _ _ Hrun)
      as (rr & final & summary & score & kf & L1 & _ & _ & _ & _ & _ & _ & L8 & _).
    split; [|eauto].
    vm_compute in Hrun. injection Hrun as <- _ _. reflexivity.
  - vm_compute in Hrun. discriminate.
Defined.

(** ** The monitor store *)

Section MonitorStore.
Context {E : Env}.

Lemma create_monitor_get (db : gmap string Monitor.t) (ticker : string)
  (interval_hours : float) (next_run : datetime) (w : World) :
  let '(state, db', w') := create_monitor db ticker interval_hours next_run w in
  get_monitor db' ticker = Some state
  /\ MonitorState.is_active state = true
  /\ MonitorState.interval_hours state = interval_hours
  /\ MonitorState.next_run state = Some next_run.
Proof.
  unfold create_monitor, get_monitor.
  destruct (db !! str_upper ticker) as [row|] eqn:Hrow.
  - rewrite lookup_insert_eq. cbn. repeat split.
  - destruct (utcnow w) as [now w1]. rewrite lookup_insert_eq. cbn. repeat split.
Qed.

Lemma stop_monitor_get (db : gmap string Monitor.t) (ticker : string) (row : Monitor.t) :
  db !! str_upper ticker = Some row ->
  get_monitor (snd (stop_monitor db ticker)) ticker
  = Some (MonitorState.mk (Monitor.ticker row) (Monitor.interval_hours row)
            (Monitor.last_run row) None (seen_of row) false).
Proof.
  intros Hrow. unfold stop_monitor, get_monitor. rewrite Hrow. cbn [snd].
  rewrite lookup_insert_eq. reflexivity.
Qed.

(** X16: [create_monitor] creates or reactivates. Afterwards
    [get_monitor] returns the state the call returned: active, with the
    interval and the next run as given. A new row starts with no last run
    and an empty seen-set, under the upper-cased ticker; an existing row
    keeps its last run and its seen-set (a stopped subject that is started
    again remembers what it saw) and the clock is not read. No other row
    changes. *)
Theorem create_monitor_then_get (db : gmap string Monitor.t) (ticker : string)
  (interval_hours : float) (next_run : datetime) (w : World) :
  let '(state, db', w') := create_monitor db ticker interval_hours next_run w in
  get_monitor db' ticker = Some state
  /\ MonitorState.is_active state = true
  /\ MonitorState.interval_hours state = interval_hours
  /\ MonitorState.next_run state = Some next_run
  /\ match db !! str_upper ticker with
     | Some row =>
         MonitorState.ticker state = Monitor.ticker row
         /\ MonitorState.last_run state = Monitor.last_run row
         /\ MonitorState.seen_article_hashes state = seen_of row
         /\ w' = w
     | None =>
         MonitorState.ticker state = str_upper ticker
         /\ MonitorState.last_run state = None
         /\ MonitorState.seen_article_hashes state = ∅
         /\ w' = snd (utcnow w)
     end
  /\ forall k, k <> str_upper ticker -> db' !! k = db !! k.
Proof.
  unfold create_monitor, get_monitor.
  destruct (db !! str_upper ticker) as [row|] eqn:Hrow.
  - rewrite lookup_insert_eq. cbn. repeat split.
    intros k Hk. now rewrite lookup_insert_ne.
  - destruct (utcnow w) as [now w1]. rewrite lookup_insert_eq. cbn. repeat split.
    intros k Hk. now rewrite lookup_insert_ne.
Qed.

(** X17: the two updates of a row. [update_last_run] sets last run and
    next run and [stop_monitor] clears the next run and deactivates; each
    returns the state that [get_monitor] finds afterwards, keeps every
    other field of the row (the seen-set in particular), leaves the other
    rows alone, and on a ticker without row returns [None] and changes
    nothing. *)
Theorem row_updates_then_get (db : gmap string Monitor.t) (ticker : string)
  (last_run next_run : datetime) :
  (get_monitor (snd (update_last_run db ticker last_run next_run)) ticker
   = fst (update_last_run db ticker last_run next_run)
   /\ get_monitor (snd (stop_monitor db ticker)) ticker = fst (stop_monitor db ticker))
  /\ match db !! str_upper ticker with
     | Some row =>
         fst (update_last_run db ticker last_run next_run)
         = Some (MonitorState.mk (Monitor.ticker row) (Monitor.interval_hours row)
                   (Some last_run) (Some next_run) (seen_of row)
                   (Monitor.is_active row))
         /\ fst (stop_monitor db ticker)
            = Some (MonitorState.mk (Monitor.ticker row) (Monitor.interval_hours row)
                      (Monitor.last_run row) None (seen_of row) false)
     | None =>
         update_last_run db ticker last_run next_run = (None, db)
         /\ stop_monitor db ticker = (None, db)
     end
  /\ forall k,
      k <> str_upper ticker ->
      snd (update_last_run db ticker last_run next_run) !! k = db !! k
      /\ snd (stop_monitor db ticker) !! k = db !! k.
Proof.
  unfold update_last_run, stop_monitor, get_monitor.
  destruct (db !! str_upper ticker) as [row|] eqn:Hrow; cbn [fst snd].
  - rewrite !lookup_insert_eq. cbn. repeat split.
    all: intros; now rewrite lookup_insert_ne.
  - rewrite Hrow. cbn. repeat split.
Qed.

(** X18: [delete_monitor] returns whether the ticker had a row;
    afterwards [get_monitor] finds none (the seen-set is gone with the
    row, so a subject deleted and created again starts from an empty
    seen-set), and the other rows are as they were. *)
Theorem delete_monitor_then_get (db : gmap string Monitor.t) (ticker : string)
  (interval_hours : float) (next_run : datetime) (w : World) :
  fst (delete_monitor db ticker)
  = match get_monitor db ticker with Some _ => true | None => false end
  /\ get_monitor (snd (delete_monitor db ticker)) ticker = None
  /\ MonitorState.seen_article_hashes
       (fst (fst (create_monitor (snd (delete_monitor db ticker)) ticker
                    interval_hours next_run w))) = ∅
  /\ forall k, k <> str_upper ticker -> snd (delete_monitor db ticker) !! k = db !! k.
Proof.
  unfold delete_monitor, get_monitor, create_monitor.
  destruct (db !! str_upper ticker) as [row|] eqn:Hrow;
    cbn [fst snd fmap option_fmap option_map].
  - rewrite lookup_delete_eq. destruct (utcnow w) as [now w1]. repeat split.
    intros k Hk. now rewrite lookup_delete_ne.
  - rewrite Hrow. destruct (utcnow w) as [now w1]. repeat split.
Qed.

(** X19: the listings. [list_all_monitors] returns one state per row,
    and [list_active_monitors] exactly the states of the rows that are
    active: a stopped subject is listed by the first and not by the
    second. *)
Theorem listings_spec (db : gmap string Monitor.t) (state : MonitorState.t) :
  (state ∈ list_all_monitors db
   <-> exists k row, db !! k = Some row /\ state = _to_monitor_state row)
  /\ (state ∈ list_active_monitors db
      <-> exists k row,
            db !! k = Some row /\ Monitor.is_active row = true
            /\ state = _to_monitor_state row)
  /\ length (list_all_monitors db) = size db
  /\ Forall (fun s => MonitorState.is_active s = true) (list_active_monitors db).
Proof.
  unfold list_all_monitors, list_active_monitors.
  assert (Hrows : forall row, row ∈ map snd (map_to_list db)
                              <-> exists k, db !! k = Some row).
  { intros row. change (map snd (map_to_list db)) with (snd <$> map_to_list db).
    rewrite list_elem_of_fmap. split.
    - intros ([k r] & -> & Hin). apply elem_of_map_to_list in Hin. eauto.
    - intros (k & Hk). exists (k, row). split; [reflexivity|].
      now apply elem_of_map_to_list. }
  split; [|split; [|split]].
  - change (map _to_monitor_state ?l) with (_to_monitor_state <$> l).
    rewrite list_elem_of_fmap. split.
    + intros (row & -> & Hin). apply Hrows in Hin as [k Hk]. eauto.
    + intros (k & row & Hk & ->). exists row. split; [reflexivity|].
      apply Hrows. eauto.
  - change (map _to_monitor_state ?l) with (_to_monitor_state <$> l).
    rewrite list_elem_of_fmap. split.
    + intros (row & -> & Hin). apply list_elem_of_filter in Hin as [Hact Hin].
      apply Hrows in Hin as [k Hk]. eauto.
    + intros (k & row & Hk & Hact & ->). exists row. split; [reflexivity|].
      apply list_elem_of_filter. split; [assumption|]. apply Hrows. eauto.
  - rewrite !length_map. apply length_map_to_list.
  - apply Forall_forall. intros s Hs.
    change (map _to_monitor_state ?l) with (_to_monitor_state <$> l) in Hs.
    apply list_elem_of_fmap in Hs as (row & -> & Hin).
    apply list_elem_of_filter in Hin as [Hact _]. exact Hact.
Qed.

(** X20: adding fingerprints accumulates, in what the store gives to its
    readers. After adding [h1] and then [h2] every row reads as after
    adding their union at once (the stored lists may differ in order, the
    sets do not); adding fingerprints that the row has already, and so
    adding the same ones again, changes no reading; [get_monitor] cannot
    tell the tables apart; and on a ticker without row nothing is
    stored. *)
Theorem add_seen_articles_accumulates (db : gmap string Monitor.t) (ticker : string)
  (h1 h2 : gset string) :
  same_readings (add_seen_articles (add_seen_articles db ticker h1) ticker h2)
    (add_seen_articles db ticker (h1 ∪ h2))
  /\ (forall row, db !! str_upper ticker = Some row -> h1 ⊆ seen_of row ->
      same_readings (add_seen_articles db ticker h1) db)
  /\ same_readings (add_seen_articles (add_seen_articles db ticker h1) ticker h1)
       (add_seen_articles db ticker h1)
  /\ (forall t,
        get_monitor (add_seen_articles (add_seen_articles db ticker h1) ticker h2) t
        = get_monitor (add_seen_articles db ticker (h1 ∪ h2)) t)
  /\ (db !! str_upper ticker = None -> add_seen_articles db ticker h1 = db).
Proof.
  assert (Hrow : forall (d : gmap string Monitor.t) h k,
             row_reading <$> add_seen_articles d ticker h !! k
             = match d !! k with
               | Some row =>
                   Some (if decide (k = str_upper ticker)
                         then (MonitorState.mk (Monitor.ticker row)
                                 (Monitor.interval_hours row) (Monitor.last_run row)
                                 (Monitor.next_run row) (seen_of row ∪ h)
                                 (Monitor.is_active row),
                               Monitor.created_at row)
                         else row_reading row)
               | None => None
               end).
  { intros d h k. unfold add_seen_articles.
    destruct (d !! str_upper ticker) as [row|] eqn:Hrow.
    - destruct (decide (k = str_upper ticker)) as [->|Hne].
      + rewrite lookup_insert_eq, Hrow. cbn [fmap option_fmap option_map].
        unfold row_reading, _to_monitor_state, seen_of.
        cbn [seen_or_empty Monitor.seen_article_hashes Monitor.ticker
             Monitor.interval_hours Monitor.last_run Monitor.next_run
             Monitor.is_active Monitor.created_at].
        rewrite list_to_set_elements_L. reflexivity.
      + rewrite lookup_insert_ne by congruence.
        destruct (d !! k); reflexivity.
    - destruct (d !! k) as [row|] eqn:Hk; [|reflexivity].
      cbn [fmap option_fmap option_map].
      destruct (decide (k = str_upper ticker)) as [->|Hne]; [congruence|reflexivity]. }
  assert (Hseen : forall h row,
             db !! str_upper ticker = Some row ->
             exists row1,
               add_seen_articles db ticker h !! str_upper ticker = Some row1
               /\ seen_of row1 = seen_of row ∪ h
               /\ Monitor.ticker row1 = Monitor.ticker row
               /\ Monitor.interval_hours row1 = Monitor.interval_hours row
               /\ Monitor.last_run row1 = Monitor.last_run row
               /\ Monitor.next_run row1 = Monitor.next_run row
               /\ Monitor.is_active row1 = Monitor.is_active row
               /\ Monitor.created_at row1 = Monitor.created_at row).
  { intros h row Hr. unfold add_seen_articles. rewrite Hr, lookup_insert_eq.
    eexists. split; [reflexivity|]. unfold seen_of.
    cbn [seen_or_empty Monitor.seen_article_hashes Monitor.ticker
         Monitor.interval_hours Monitor.last_run Monitor.next_run
         Monitor.is_active Monitor.created_at].
    rewrite list_to_set_elements_L. auto 10. }
  assert (Hother : forall h k,
             k <> str_upper ticker -> add_seen_articles db ticker h !! k = db !! k).
  { intros h k Hne. unfold add_seen_articles.
    destruct (db !! str_upper ticker); [|reflexivity].
    now rewrite lookup_insert_ne by congruence. }
  assert (Hgen : forall a b,
             same_readings (add_seen_articles (add_seen_articles db ticker a) ticker b)
               (add_seen_articles db ticker (a ∪ b))).
  { intros a b k. rewrite !Hrow.
    destruct (decide (k = str_upper ticker)) as [->|Hne].
    - destruct (db !! str_upper ticker) as [row|] eqn:Hr.
      + destruct (Hseen a row eq_refl)
          as (row1 & -> & S1 & S2 & S3 & S4 & S5 & S6 & S7).
        rewrite S1, S2, S3, S4, S5, S6, S7, union_assoc_L. reflexivity.
      + unfold add_seen_articles at 1. rewrite Hr, Hr. reflexivity.
    - rewrite (Hother a k Hne). reflexivity. }
  split; [apply Hgen|]. split; [|split; [|split]].
  - intros row Hr Hsub k. rewrite Hrow.
    destruct (decide (k = str_upper ticker)) as [->|Hne].
    + rewrite Hr. cbn [fmap option_fmap option_map]. f_equal.
      unfold row_reading, _to_monitor_state. fold (seen_of row).
      replace (seen_of row ∪ h1) with (seen_of row)
        by (rewrite union_comm_L; symmetry; now apply subseteq_union_1_L).
      reflexivity.
    + destruct (db !! k); reflexivity.
  - intros k. rewrite (Hgen h1 h1 k), union_idemp_L. reflexivity.
  - intros t. unfold get_monitor.
    pose proof (Hgen h1 h2 (str_upper t)) as Hk. unfold row_reading in Hk.
    destruct (add_seen_articles (add_seen_articles db ticker h1) ticker h2
                !! str_upper t) as [r1|];
      destruct (add_seen_articles db ticker (h1 ∪ h2) !! str_upper t) as [r2|];
      cbn [fmap option_fmap option_map] in *; congruence.
  - intros Hnone. unfold add_seen_articles. now rewrite Hnone.
Qed.

(** X21: the operations of the store act on one row. Whatever the
    operation (create, get, update of last and next run, add, stop, the
    listings), every row under another key than the operation's ticker is
    left as it was; and no operation but [create_monitor] adds a row, none
    of them removes one. *)
Theorem store_ops_are_local (op : store_op) (db : gmap string Monitor.t) (w : World)
  (k : string) :
  (match op with
   | OpCreate t _ _ | OpGet t | OpUpdateLastRun t _ _ | OpAddSeen t _ | OpStop t =>
       k <> str_upper t
   | OpListActive | OpListAll => True
   end ->
   fst (apply_op op db w) !! k = db !! k)
  /\ (is_Some (db !! k) -> is_Some (fst (apply_op op db w) !! k))
  /\ (match op with OpCreate _ _ _ => False | _ => True end ->
      is_Some (fst (apply_op op db w) !! k) -> is_Some (db !! k)).
Proof.
  destruct op as [t i n|t|t l n|t h|t| |]; cbn [apply_op fst].
  - unfold create_monitor.
    destruct (db !! str_upper t) as [row|] eqn:Hrow.
    + cbn [fst]. split; [intros Hk; now rewrite lookup_insert_ne|].
      split; [|tauto]. intros Hs.
      destruct (decide (str_upper t = k)) as [<-|Hne];
        [rewrite lookup_insert_eq; eauto | now rewrite lookup_insert_ne].
    + destruct (utcnow w) as [now w1]. cbn [fst].
      split; [intros Hk; now rewrite lookup_insert_ne|].
      split; [|tauto]. intros Hs.
      destruct (decide (str_upper t = k)) as [<-|Hne];
        [rewrite lookup_insert_eq; eauto | now rewrite lookup_insert_ne].
  - auto.
  - unfold update_last_run.
    destruct (db !! str_upper t) as [row|] eqn:Hrow; cbn [snd]; [|auto].
    split; [intros Hk; now rewrite lookup_insert_ne|].
    destruct (decide (str_upper t = k)) as [<-|Hne].
    + rewrite lookup_insert_eq, Hrow. eauto.
    + rewrite lookup_insert_ne by assumption. auto.
  - unfold add_seen_articles.
    destruct (db !! str_upper t) as [row|] eqn:Hrow; [|auto].
    split; [intros Hk; now rewrite lookup_insert_ne|].
    destruct (decide (str_upper t = k)) as [<-|Hne].
    + rewrite lookup_insert_eq, Hrow. eauto.
    + rewrite lookup_insert_ne by assumption. auto.
  - unfold stop_monitor.
    destruct (db !! str_upper t) as [row|] eqn:Hrow; cbn [snd]; [|auto].
    split; [intros Hk; now rewrite lookup_insert_ne|].
    destruct (decide (str_upper t = k)) as [<-|Hne].
    + rewrite lookup_insert_eq, Hrow. eauto.
    + rewrite lookup_insert_ne by assumption. auto.
  - auto.
  - auto.
Qed.

End MonitorStore.

(** ** Firings of the monitoring task *)

Section MonitoringRuns.
Context {E : Env}.

Lemma escalate_effect (tool_registry : ToolRegistry) (ticker : string) (st : Stores)
  (w : World) :
  monitors (fst (escalate tool_registry ticker st w)) = monitors st
  /\ match run_quick_analysis tool_registry ticker None w with
     | (Ret report, w1, _) =>
         alerts (fst (escalate tool_registry ticker st w))
         = if existsb (fun a => String.eqb (Alert.id a) (fst (uuid4 w1))) (alerts st)
           then alerts st
           else alerts st
                ++ [Alert.mk (fst (uuid4 w1)) PROACTIVE_ALERT (str_upper ticker)
                      (fst (utcnow (snd (uuid4 w1)))) report]
     | (Raise _, _, _) => alerts (fst (escalate tool_registry ticker st w)) = alerts st
     end.
Proof.
  unfold escalate.
  destruct (run_quick_analysis tool_registry ticker None w) as [[[report|e] w1] tr];
    [|split; reflexivity].
  destruct (uuid4 w1) as [alert_id w2]. unfold create_alert. cbn [fst snd].
  destruct (utcnow w2) as [now w3]. cbn [fst].
  destruct (existsb _ (alerts st)); split; reflexivity.
Qed.

Lemma quick_analysis_ticker (tool_registry : ToolRegistry) (ticker : string)
  (company_name : option string) (w w' : World) (tr : list event)
  (report : AnalysisReport.t) :
  run_quick_analysis tool_registry ticker company_name w = (Ret report, w', tr) ->
  AnalysisReport.company_ticker report = ticker.
Proof.
  unfold run_quick_analysis, run_agent. intros H.
  apply attempts_loop_origin in H
    as (rr & final & summary & score & kf & _ & _ & _ & _ & Ht & _).
  exact Ht.
Qed.

(** What is left of a firing once the fetch has returned: the seen-set of
    the subject may grow, and at most one alert is added. *)
Lemma process_news_effect (tool_registry : ToolRegistry) (ticker : string)
  (monitor : MonitorState.t) (news_result : ToolResult.t) (st : Stores) (w : World) :
  (monitors (fst (process_news tool_registry ticker monitor news_result st w))
   = monitors st
   \/ exists h,
       monitors (fst (process_news tool_registry ticker monitor news_result st w))
       = add_seen_articles (monitors st) ticker h)
  /\ (alerts (fst (process_news tool_registry ticker monitor news_result st w))
      = alerts st
      \/ exists a,
          alerts (fst (process_news tool_registry ticker monitor news_result st w))
          = alerts st ++ [a]
          /\ Alert.alert_type a = PROACTIVE_ALERT
          /\ Alert.ticker a = str_upper ticker
          /\ AnalysisReport.company_ticker (Alert.report a) = ticker).
Proof.
  unfold process_news.
  destruct (negb (ToolResult.success news_result)); [auto|].
  destruct (py_get (ToolResult.data news_result) "articles" (VList []))
    as [articles|e]; [|auto].
  destruct (negb (truthy articles)); [auto|].
  destruct (py_iter articles) as [items|e]; cbn [mbind outcome_bind]; [|auto].
  destruct (filter_new items _ [] ∅) as [[new_articles new_hashes]|e]; [|auto].
  set (st1 := if decide (new_hashes = ∅) then st else _).
  assert (Hst1 : (monitors st1 = monitors st
                  \/ exists h, monitors st1 = add_seen_articles (monitors st) ticker h)
                 /\ alerts st1 = alerts st).
  { subst st1. destruct (decide (new_hashes = ∅)); cbn; eauto. }
  destruct Hst1 as [Hm Ha].
  destruct (Z.of_nat (length new_articles) <? monitor_min_articles); [auto|].
  destruct (escalate_effect tool_registry ticker st1 w) as [Em Ea].
  rewrite Em. split; [exact Hm|].
  destruct (run_quick_analysis tool_registry ticker None w)
    as [[[report|e] w1] tr] eqn:Hq.
  - rewrite Ea, Ha. destruct (existsb _ (alerts st)); [now left|].
    right. eexists. split; [reflexivity|]. cbn.
    split; [reflexivity|]. split; [reflexivity|].
    eapply quick_analysis_ticker. eassumption.
  - rewrite Ea, Ha. now left.
Qed.

Lemma add_seen_articles_other (db : gmap string Monitor.t) (ticker : string)
  (h : gset string) (k : string) :
  k <> str_upper ticker -> add_seen_articles db ticker h !! k = db !! k.
Proof.
  intros Hk. unfold add_seen_articles.
  destruct (db !! str_upper ticker); [now rewrite lookup_insert_ne | reflexivity].
Qed.

(** X22: a firing for a ticker without row, or whose row is inactive,
    does nothing: no clock reading, no fetch, no store written. (The job
    of a stopped subject that still fires is harmless.) *)
Theorem monitoring_skips_unmonitored (tool_registry : ToolRegistry) (ticker : string)
  (st : Stores) (w : World) :
  match monitors st !! str_upper ticker with
  | Some row => Monitor.is_active row = false
  | None => True
  end ->
  monitoring_task tool_registry ticker st w = (st, w).
Proof.
  unfold monitoring_task, get_monitor.
  destruct (monitors st !! str_upper ticker) as [row|]; cbn; [|reflexivity].
  now intros ->.
Qed.

(** X23: what any firing for an active subject does to the stores,
    whatever the fetch and the analysis return. The subject's row is
    stamped with the time of the firing and the next run one interval
    later, stays active with its interval, and its seen-set does not
    shrink; no other row changes; the alerts present stay, and at most one
    alert is added, a [PROACTIVE_ALERT] for the upper-cased ticker whose
    report is a report on the ticker. *)
Theorem monitoring_firing_effect (tool_registry : ToolRegistry) (ticker : string)
  (st : Stores) (w w1 : World) (row : Monitor.t) (now : datetime) :
  monitors st !! str_upper ticker = Some row ->
  Monitor.is_active row = true ->
  utcnow w = (now, w1) ->
  (exists row',
      monitors (fst (monitoring_task tool_registry ticker st w)) !! str_upper ticker
      = Some row'
      /\ Monitor.last_run row' = Some now
      /\ Monitor.next_run row' = Some (add_hours now (Monitor.interval_hours row))
      /\ Monitor.is_active row' = true
      /\ Monitor.interval_hours row' = Monitor.interval_hours row
      /\ seen_of row ⊆ seen_of row')
  /\ (forall k,
        k <> str_upper ticker ->
        monitors (fst (monitoring_task tool_registry ticker st w)) !! k
        = monitors st !! k)
  /\ (alerts (fst (monitoring_task tool_registry ticker st w)) = alerts st
      \/ exists a,
          alerts (fst (monitoring_task tool_registry ticker st w)) = alerts st ++ [a]
          /\ Alert.alert_type a = PROACTIVE_ALERT
          /\ Alert.ticker a = str_upper ticker
          /\ AnalysisReport.company_ticker (Alert.report a) = ticker).
Proof.
  intros Hrow Hact Hnow.
  unfold monitoring_task, get_monitor. rewrite Hrow. cbn [fmap option_fmap option_map].
  cbn [_to_monitor_state MonitorState.is_active MonitorState.interval_hours].
  rewrite Hact, Hnow. cbn [negb].
  unfold update_last_run. rewrite Hrow. cbn [snd].
  set (row1 := Monitor.mk _ _ (Some now) _ _ _ _).
  set (db1 := <[str_upper ticker := row1]> (monitors st)).
  set (st1 := {| monitors := db1; alerts := alerts st |}).
  assert (Hdb1 : db1 !! str_upper ticker = Some row1) by apply lookup_insert_eq.
  assert (Hbase : (exists row',
                      monitors st1 !! str_upper ticker = Some row'
                      /\ Monitor.last_run row' = Some now
                      /\ Monitor.next_run row'
                         = Some (add_hours now (Monitor.interval_hours row))
                      /\ Monitor.is_active row' = true
                      /\ Monitor.interval_hours row' = Monitor.interval_hours row
                      /\ seen_of row ⊆ seen_of row')
                  /\ (forall k, k <> str_upper ticker ->
                                monitors st1 !! k = monitors st !! k)
                  /\ (alerts st1 = alerts st
                      \/ exists a,
                          alerts st1 = alerts st ++ [a]
                          /\ Alert.alert_type a = PROACTIVE_ALERT
                          /\ Alert.ticker a = str_upper ticker
                          /\ AnalysisReport.company_ticker (Alert.report a) = ticker)).
  { split; [|split].
    - exists row1. cbn. repeat split; auto.
    - intros k Hk. cbn. subst db1. now rewrite lookup_insert_ne.
    - now left. }
  destruct (news_retriever_call (VStr ticker) (VStr ticker) (VInt 1) (VInt 10) w1)
    as [[news_result|e] w2]; cbn [fst]; [|exact Hbase].
  destruct (process_news_effect tool_registry ticker (_to_monitor_state row)
              news_result st1 w2) as [Hm Ha].
  set (st' := fst (process_news _ _ _ _ _ _)) in *.
  split; [|split].
  - destruct Hm as [->|[h ->]]; [exact (proj1 Hbase)|]. cbn [monitors st1].
    destruct (add_seen_articles_lookup db1 ticker h row1 Hdb1)
      as (row' & Hl & Hs & Hnr & Hlr & Hia).
    exists row'. rewrite Hlr, Hnr, Hia, Hs. split; [assumption|].
    split; [reflexivity|]. split; [reflexivity|]. split; [assumption|].
    split; [|apply union_subseteq_l].
    unfold add_seen_articles in Hl. rewrite Hdb1, lookup_insert_eq in Hl.
    injection Hl as <-. reflexivity.
  - intros k Hk. destruct Hm as [->|[h ->]]; cbn [monitors st1].
    + subst db1. now rewrite lookup_insert_ne.
    + rewrite add_seen_articles_other by assumption.
      subst db1. now rewrite lookup_insert_ne.
  - exact Ha.
Qed.

(** X24: a firing whose fetch raises, reports an error, or returns no
    article only stamps the run: the row gets the new last and next run,
    its seen-set and the alerts are untouched, no analysis is run. *)
Theorem monitoring_fetch_failure (tool_registry : ToolRegistry) (ticker : string)
  (st : Stores) (w w1 w2 : World) (row : Monitor.t) (now : datetime) :
  monitors st !! str_upper ticker = Some row ->
  Monitor.is_active row = true ->
  utcnow w = (now, w1) ->
  (exists e,
      news_retriever_body (VStr ticker) (VStr ticker) (VInt 1) (VInt 10) w1
      = (Raise e, w2))
  \/ (exists err,
        news_retriever_body (VStr ticker) (VStr ticker) (VInt 1) (VInt 10) w1
        = (Ret (inl err), w2))
  \/ (exists result,
        news_retriever_body (VStr ticker) (VStr ticker) (VInt 1) (VInt 10) w1
        = (Ret (inr result), w2)
        /\ NewsRetrieverResult.articles result = []) ->
  monitoring_task tool_registry ticker st w
  = ({| monitors := <[str_upper ticker := stamped row now]> (monitors st);
        alerts := alerts st |}, w2).
Proof.
  intros Hrow Hact Hnow Hfetch.
  unfold monitoring_task, get_monitor. rewrite Hrow. cbn [fmap option_fmap option_map].
  cbn [_to_monitor_state MonitorState.is_active MonitorState.interval_hours].
  rewrite Hact, Hnow. cbn [negb].
  unfold update_last_run. rewrite Hrow. cbn [snd]. fold (stamped row now).
  unfold news_retriever_call.
  destruct Hfetch as [(e & ->)|[(err & ->)|(result & -> & Hnone)]].
  - reflexivity.
  - reflexivity.
  - unfold process_news. cbn [ToolResult.success ToolResult.data negb].
    change (py_get (model_dump result) "articles" (VList []))
      with (Ret (VList (map article_dump (NewsRetrieverResult.articles result)))).
    rewrite Hnone. reflexivity.
Qed.

(** X25: a firing at or above the threshold. The fetch returns articles
    of which at least the configured minimum are new: the fingerprints of
    all fetched articles join the seen-set, and the quick analysis is run.
    If it returns a report, one alert is appended, a [PROACTIVE_ALERT]
    under the fresh identifier, for the upper-cased ticker, carrying that
    report (none if the identifier is already taken); if it raises, no
    alert is created, and the seen-set stays merged all the same. *)
Theorem monitoring_at_threshold (tool_registry : ToolRegistry) (ticker : string)
  (st : Stores) (w w1 w2 : World) (row : Monitor.t) (now : datetime)
  (result : NewsRetrieverResult.t) :
  monitors st !! str_upper ticker = Some row ->
  Monitor.is_active row = true ->
  utcnow w = (now, w1) ->
  news_retriever_body (VStr ticker) (VStr ticker) (VInt 1) (VInt 10) w1
  = (Ret (inr result), w2) ->
  NewsRetrieverResult.articles result <> [] ->
  monitor_min_articles
  <= Z.of_nat (length (unseen (seen_of row) (NewsRetrieverResult.articles result))) ->
  (exists row',
      monitors (fst (monitoring_task tool_registry ticker st w)) !! str_upper ticker
      = Some row'
      /\ seen_of row'
         = seen_of row
           ∪ list_to_set (map fingerprint (NewsRetrieverResult.articles result)))
  /\ match run_quick_analysis tool_registry ticker None w2 with
     | (Ret report, w3, _) =>
         alerts (fst (monitoring_task tool_registry ticker st w))
         = if existsb (fun a => String.eqb (Alert.id a) (fst (uuid4 w3))) (alerts st)
           then alerts st
           else alerts st
                ++ [Alert.mk (fst (uuid4 w3)) PROACTIVE_ALERT (str_upper ticker)
                      (fst (utcnow (snd (uuid4 w3)))) report]
     | (Raise _, _, _) =>
         alerts (fst (monitoring_task tool_registry ticker st w)) = alerts st
     end.
Proof.
  intros Hrow Hact Hnow Hnews Hsome Hk.
  set (fetched := NewsRetrieverResult.articles result) in *.
  unfold monitoring_task, get_monitor. rewrite Hrow. cbn [fmap option_fmap option_map].
  cbn [_to_monitor_state MonitorState.is_active MonitorState.interval_hours
       MonitorState.seen_article_hashes].
  rewrite Hact, Hnow. cbn [negb].
  unfold news_retriever_call. rewrite Hnews.
  unfold update_last_run. rewrite Hrow. cbn [snd].
  set (row1 := Monitor.mk _ _ (Some now) _ _ _ _).
  set (db1 := <[str_upper ticker := row1]> (monitors st)).
  assert (Hdb1 : db1 !! str_upper ticker = Some row1) by apply lookup_insert_eq.
  unfold process_news. cbn [ToolResult.success ToolResult.data negb].
  change (py_get (model_dump result) "articles" (VList []))
    with (Ret (VList (map article_dump fetched))).
  change (MonitorState.seen_article_hashes (_to_monitor_state row))
    with (seen_of row).
  clearbody fetched.
  destruct fetched as [|a0 l0]; [congruence|].
  replace (truthy (VList (map article_dump (a0 :: l0)))) with true by reflexivity.
  cbn [negb py_iter mbind outcome_bind].
  rewrite filter_new_dump. rewrite app_nil_l, union_empty_l_L, length_map.
  apply Z.ltb_ge in Hk. rewrite Hk.
  set (st1 := if decide (_ = ∅) then _ else _).
  assert (Hst1 : alerts st1 = alerts st
                 /\ exists row',
                     monitors st1 !! str_upper ticker = Some row'
                     /\ seen_of row'
                        = seen_of row ∪ list_to_set (map fingerprint (a0 :: l0))).
  { subst st1.
    destruct (decide (list_to_set (map fingerprint (unseen (seen_of row) (a0 :: l0)))
                      = (∅ : gset string))) as [He|Hne].
    - split; [reflexivity|]. exists row1. cbn [monitors]. split; [assumption|].
      rewrite <- seen_all, He, union_empty_r_L. reflexivity.
    - split; [reflexivity|]. cbn [monitors].
      destruct (add_seen_articles_lookup db1 ticker
                  (list_to_set (map fingerprint (unseen (seen_of row) (a0 :: l0))))
                  row1 Hdb1) as (m' & Hl & Hs & _).
      exists m'. split; [assumption|]. rewrite Hs. apply seen_all. }
  destruct Hst1 as [Ha Hm]. clearbody st1.
  destruct (escalate_effect tool_registry ticker st1 w2) as [Em Ea].
  rewrite Em. split; [exact Hm|].
  destruct (run_quick_analysis tool_registry ticker None w2) as [[[report|e] w3] tr];
    rewrite Ea, Ha; reflexivity.
Qed.

End MonitoringRuns.

Lemma monitoring_skips_unmonitored_witness :
  monitoring_task (E := Script.env) Script.empty_registry "TSLA" stopped_stores
    breaking_script
  = (stopped_stores, breaking_script).
Proof.
  apply (monitoring_skips_unmonitored (E := Script.env) Script.empty_registry "TSLA"
           stopped_stores breaking_script).
  reflexivity.
Defined.

(** The firing at the threshold: the row is stamped with the time read,
    and one alert is added. *)
Lemma monitoring_firing_effect_witness :
  exists row',
    monitors (fst (monitoring_task (E := Script.env) Script.empty_registry "TSLA"
                     active_stores breaking_script)) !! "TSLA" = Some row'
    /\ Monitor.last_run row' = Some 7
    /\ Monitor.is_active row' = true.
Proof.
  destruct (monitoring_firing_effect (E := Script.env) Script.empty_registry "TSLA"
              active_stores breaking_script
              (Script.mk (Script.replies breaking_script) (Script.news breaking_script) 8)
              (Monitor.mk "TSLA" 24%float None None (Some ["a:u1"]) true 0) 7)
    as [(row' & Hl & Hlr & _ & Hia & _) _].
  - reflexivity.
  - reflexivity.
  - reflexivity.
  - exists row'. auto.
Defined.

(** The news service is down: the run is stamped and nothing else
    changes. *)
Lemma monitoring_fetch_failure_witness :
  fst (monitoring_task (E := Script.env) Script.empty_registry "TSLA" active_stores
         (Script.mk [] [] 7))
  = {| monitors :=
         <["TSLA" := Monitor.mk "TSLA" 24%float (Some 7) (Some 3600000007)
                       (Some ["a:u1"]) true 0]> (monitors active_stores);
       alerts := [] |}.
Proof.
  rewrite (monitoring_fetch_failure (E := Script.env) Script.empty_registry "TSLA"
             active_stores (Script.mk [] [] 7) (Script.mk [] [] 8) (Script.mk [] [] 8)
             (Monitor.mk "TSLA" 24%float None None (Some ["a:u1"]) true 0) 7).
  - reflexivity.
  - reflexivity.
  - reflexivity.
  - reflexivity.
  - left. exists Script.unavailable. reflexivity.
Defined.

(** Five of the six fetched articles are new and the minimum is five:
    the analysis runs and its report becomes an alert. *)
Lemma monitoring_at_threshold_witness :
  exists report,
    alerts (fst (monitoring_task (E := Script.env) Script.empty_registry "TSLA"
                   active_stores breaking_script))
    = [Alert.mk "alert-9" PROACTIVE_ALERT "TSLA" 9 report]
    /\ AnalysisReport.analysis_summary report = "fine".
Proof.
  destruct (monitoring_at_threshold (E := Script.env) Script.empty_registry "TSLA"
              active_stores breaking_script
              (Script.mk (Script.replies breaking_script) (Script.news breaking_script) 8)
              (Script.mk (Script.replies breaking_script) [] 8)
              (Monitor.mk "TSLA" 24%float None None (Some ["a:u1"]) true 0) 7
              (Script.headlines
                 [Script.article "a" "u1"; Script.article "b" "u2";
                  Script.article "c" "u3"; Script.article "d" "u4";
                  Script.article "e" "u5"; Script.article "f" "u6"]))
    as [_ Halerts].
  - reflexivity.
  - reflexivity.
  - reflexivity.
  - reflexivity.
  - discriminate.
  - vm_compute. discriminate.
  - destruct (run_quick_analysis (E := Script.env) Script.empty_registry "TSLA" None
                (Script.mk (Script.replies breaking_script) [] 8))
      as [[[report|e] w3] tr] eqn:Hq.
    + vm_compute in Hq. injection Hq as <- <- _.
      eexists. split; [exact Halerts | reflexivity].
    + vm_compute in Hq. discriminate.
Defined.

(** ** Analysis jobs *)

Section JobFacts.
Context {E : Env}.

Lemma all_str_map_VStr (l : list string) : all_str (map VStr l) = Some l.
Proof. induction l as [|s l IH]; [reflexivity|]. cbn. now rewrite IH. Qed.

Lemma report_of_valid (ticker : string) (report : AnalysisReport.t) :
  report_of ticker report -> valid_report report = true.
Proof.
  intros (final & a & s & kf & s1 & tools & sources & now & Hs & Hn).
  unfold new_AnalysisReport in Hn.
  destruct s1; try discriminate. destruct (all_str sources); try discriminate.
  destruct (_ && _) eqn:Hv; [|discriminate].
  injection Hn as <-. exact Hv.
Qed.

(** A valid report read back from its columns is the report, up to the
    sign of a zero score and the time of the reading. *)
Lemma revalidate (report : AnalysisReport.t) (now : datetime) :
  valid_report report = true ->
  new_AnalysisReport (AnalysisReport.company_ticker report)
    (VStr (or_default (Some (AnalysisReport.analysis_summary report)) ""))
    (float_or_zero (Some (AnalysisReport.sentiment_score report)))
    (list_or_empty (Some (AnalysisReport.key_findings report)))
    (list_or_empty (Some (AnalysisReport.tools_used report)))
    (map VStr (list_or_empty (Some (AnalysisReport.citation_sources report)))) now
  = Ret (AnalysisReport.mk (AnalysisReport.company_ticker report)
           (AnalysisReport.analysis_summary report)
           (float_or_zero (Some (AnalysisReport.sentiment_score report)))
           (AnalysisReport.key_findings report) (AnalysisReport.tools_used report)
           (AnalysisReport.citation_sources report) now).
Proof.
  unfold valid_report, new_AnalysisReport. intros Hv.
  cbn [list_or_empty or_default]. rewrite all_str_map_VStr.
  assert (Hsum : (if is_empty (AnalysisReport.analysis_summary report)
                  then "" else AnalysisReport.analysis_summary report)
                 = AnalysisReport.analysis_summary report).
  { now destruct (AnalysisReport.analysis_summary report). }
  rewrite Hsum.
  apply andb_prop in Hv as [Hv H4]. apply andb_prop in Hv as [Hv H3].
  apply andb_prop in Hv as [H1 H2]. rewrite H3, H4.
  unfold float_or_zero.
  destruct (PrimFloat.eqb (AnalysisReport.sentiment_score report) 0%float).
  - reflexivity.
  - rewrite H1, H2. reflexivity.
Qed.

Lemma to_job_status_data_plain (job : Job.t) (w : World) :
  Job.status job <> COMPLETED ->
  _to_job_status_data job w
  = (Ret (JobStatusData.mk (Job.id job) (Job.status job) (Job.created_at job)
            (Job.completed_at job) None (Job.error job)), w).
Proof.
  unfold _to_job_status_data. destruct (Job.status job); try reflexivity. congruence.
Qed.

Lemma set_error_row (jobs : gmap string Job.t) (job_id error : string) (w : World)
  (job : Job.t) :
  jobs !! job_id = Some job ->
  exists now w',
    utcnow w = (now, w')
    /\ set_error jobs job_id error w
       = (Ret (Some (JobStatusData.mk (Job.id job) FAILED (Job.created_at job)
                       (Some now) None (Some error))),
          <[job_id :=
              Job.mk (Job.id job) FAILED (Job.query job) (Job.created_at job) (Some now)
                (Some error) (Job.company_ticker job) (Job.analysis_summary job)
                (Job.sentiment_score job) (Job.key_findings job) (Job.tools_used job)
                (Job.citation_sources job)]> jobs, w').
Proof.
  intros Hjob. unfold set_error. rewrite Hjob.
  destruct (utcnow w) as [now w1]. exists now, w1. split; [reflexivity|].
  unfold commit_job. rewrite to_job_status_data_plain by discriminate. reflexivity.
Qed.

(** X26: the job store stamps final states. If every job in a final
    state (completed or failed) carries its completion time, then so it is
    after any operation of the store: creating a job, setting a status
    (the time is stamped when the status is final), storing a report or an
    error (both stamp the time and make the state final), deleting. And a
    job status read from a row carries a report only if the row is
    completed and names a ticker. *)
Theorem job_store_keeps_settled (jobs : gmap string Job.t) (job_id : string)
  (w : World) :
  (forall k job, jobs !! k = Some job -> settled job) ->
  (forall query k job,
      snd (fst (create_job jobs job_id query w)) !! k = Some job -> settled job)
  /\ (forall status k job,
        snd (fst (update_status jobs job_id status w)) !! k = Some job -> settled job)
  /\ (forall report k job,
        snd (fst (set_report jobs job_id report w)) !! k = Some job
        -> settled job /\ (k = job_id -> Job.status job = COMPLETED))
  /\ (forall error k job,
        snd (fst (set_error jobs job_id error w)) !! k = Some job
        -> settled job /\ (k = job_id -> Job.status job = FAILED))
  /\ (forall k job, snd (delete_job jobs job_id) !! k = Some job -> settled job)
  /\ (forall job w0 d w1,
        _to_job_status_data job w0 = (Ret d, w1) ->
        JobStatusData.report d <> None ->
        Job.status job = COMPLETED /\ Job.company_ticker job <> None).
Proof.
  intros Hall.
  assert (Hcommit : forall job1 w1 k job,
             settled job1 ->
             snd (fst (commit_job jobs job_id job1 w1)) !! k = Some job ->
             settled job /\ (k = job_id -> job = job1)).
  { intros job1 w1 k job Hs H. unfold commit_job in H.
    destruct (_to_job_status_data job1 w1) as [d w2]. cbn [fst snd] in H.
    destruct (decide (job_id = k)) as [<-|Hne].
    - rewrite lookup_insert_eq in H. injection H as <-. auto.
    - rewrite lookup_insert_ne in H by assumption. split; [eauto | congruence]. }
  split; [|split; [|split; [|split; [|split]]]].
  - intros query k job. unfold create_job. destruct (utcnow w) as [now w1].
    destruct (jobs !! job_id) eqn:Hj; cbn [fst snd]; [apply Hall|].
    destruct (_to_job_status_data _ w1) as [d w2]. cbn [fst snd].
    destruct (decide (job_id = k)) as [<-|Hne].
    + rewrite lookup_insert_eq. intros [= <-]. exact I.
    + rewrite lookup_insert_ne by assumption. apply Hall.
  - intros status k job. unfold update_status.
    destruct (jobs !! job_id) as [job0|] eqn:Hj; cbn [fst snd]; [|apply Hall].
    pose proof (Hall _ _ Hj) as Hs0.
    destruct status.
    + intros H. apply Hcommit in H as [H _]; [exact H | exact I].
    + intros H. apply Hcommit in H as [H _]; [exact H | exact I].
    + destruct (utcnow w) as [now w1]. intros H.
      apply Hcommit in H as [H _]; [exact H | discriminate].
    + destruct (utcnow w) as [now w1]. intros H.
      apply Hcommit in H as [H _]; [exact H | discriminate].
  - intros report k job. unfold set_report.
    destruct (jobs !! job_id) as [job0|] eqn:Hj; cbn [fst snd].
    + destruct (utcnow w) as [now w1]. intros H.
      apply Hcommit in H as [H Heq]; [|discriminate].
      split; [exact H|]. intros Hk. now rewrite (Heq Hk).
    + intros H. split; [eauto|]. intros ->. congruence.
  - intros error k job. unfold set_error.
    destruct (jobs !! job_id) as [job0|] eqn:Hj; cbn [fst snd].
    + destruct (utcnow w) as [now w1]. intros H.
      apply Hcommit in H as [H Heq]; [|discriminate].
      split; [exact H|]. intros Hk. now rewrite (Heq Hk).
    + intros H. split; [eauto|]. intros ->. congruence.
  - intros k job. unfold delete_job.
    destruct (jobs !! job_id); cbn [snd]; [|apply Hall].
    intros H. apply lookup_delete_Some in H as [_ H]. eauto.
  - intros job w0 d w1. unfold _to_job_status_data.
    destruct (Job.status job); try (intros [= <- _]; cbn; congruence).
    destruct (Job.company_ticker job) as [ct|]; [|intros [= <- _]; cbn; congruence].
    intros _ _. split; [reflexivity | discriminate].
Qed.

(** X27: the background task settles its job. For a job that exists,
    the task never raises and leaves the job completed or failed, with
    its completion time; the other jobs are untouched. The job is
    completed exactly when a ticker was identified and [run_agent]
    returned a report, and then the row stores that report's fields; it
    is failed with the no-ticker message when no ticker was identified,
    and with the text of the fault when ticker extraction or the agent
    raised. *)
Theorem analysis_task_settles_job (tool_registry : ToolRegistry) (job_id query : string)
  (jobs : gmap string Job.t) (w : World) (job : Job.t) :
  jobs !! job_id = Some job ->
  exists jobs' w' tr job',
    run_analysis_task tool_registry job_id query jobs w = (Ret tt, jobs', w', tr)
    /\ jobs' !! job_id = Some job'
    /\ (forall k, k <> job_id -> jobs' !! k = jobs !! k)
    /\ Job.completed_at job' <> None
    /\ Job.query job' = Job.query job
    /\ Job.created_at job' = Job.created_at job
    /\ match extract_ticker (VStr query) w with
       | (Raise e, _) =>
           Job.status job' = FAILED /\ Job.error job' = Some (exn_msg e)
       | (Ret ticker_result, w1) =>
           match TickerExtractionResult.ticker ticker_result with
           | Some (String c r as ticker) =>
               match run_agent tool_registry query ticker
                       (TickerExtractionResult.company_name ticker_result)
                       10 true 1 w1 with
               | (Ret report, _, _) =>
                   Job.status job' = COMPLETED
                   /\ Job.error job' = Job.error job
                   /\ Job.company_ticker job' = Some ticker
                   /\ Job.analysis_summary job'
                      = Some (AnalysisReport.analysis_summary report)
                   /\ Job.sentiment_score job'
                      = Some (AnalysisReport.sentiment_score report)
                   /\ Job.key_findings job' = Some (AnalysisReport.key_findings report)
                   /\ Job.tools_used job' = Some (AnalysisReport.tools_used report)
                   /\ Job.citation_sources job'
                      = Some (AnalysisReport.citation_sources report)
               | (Raise e, _, _) =>
                   Job.status job' = FAILED /\ Job.error job' = Some (exn_msg e)
               end
           | _ => Job.status job' = FAILED /\ Job.error job' = Some no_ticker_message
           end
       end.
Proof.
  intros Hjob. unfold run_analysis_task, update_status. rewrite Hjob.
  unfold commit_job at 1. rewrite to_job_status_data_plain by discriminate.
  cbn [mbind outcome_bind].
  set (job0 := Job.mk (Job.id job) RUNNING _ _ _ _ _ _ _ _ _ _).
  set (jobs0 := <[job_id := job0]> jobs).
  assert (Hjob0 : jobs0 !! job_id = Some job0) by apply lookup_insert_eq.
  assert (Hother : forall (j : Job.t) k,
             k <> job_id -> <[job_id := j]> jobs0 !! k = jobs !! k).
  { intros j k Hk. subst jobs0. now rewrite !lookup_insert_ne by congruence. }
  assert (Hfail : forall error w1 (tr : list event),
             exists jobs' w' job',
               (let '(res, jobs2, w2) := set_error jobs0 job_id error w1 in
                (_ ← res; Ret tt, jobs2, w2, tr))
               = (Ret tt : outcome unit, jobs', w', tr)
               /\ jobs' !! job_id = Some job'
               /\ (forall k, k <> job_id -> jobs' !! k = jobs !! k)
               /\ Job.completed_at job' <> None
               /\ Job.query job' = Job.query job
               /\ Job.created_at job' = Job.created_at job
               /\ Job.status job' = FAILED /\ Job.error job' = Some error).
  { intros error w1 tr.
    destruct (set_error_row jobs0 job_id error w1 job0 Hjob0) as (now & w2 & _ & ->).
    eexists _, _, _. split; [reflexivity|]. rewrite lookup_insert_eq.
    split; [reflexivity|]. split; [apply Hother|]. cbn. repeat split; discriminate. }
  unfold analysis_body.
  destruct (extract_ticker (VStr query) w) as [[ticker_result|e] w1].
  2:{ destruct (Hfail (exn_msg e) w1 [])
        as (jobs' & w' & job' & H1 & H2 & H3 & H4 & H5 & H6 & H7).
      exists jobs', w', [], job'. auto 10. }
  destruct (TickerExtractionResult.ticker ticker_result) as [[|c r]|].
  - destruct (Hfail no_ticker_message w1 [])
      as (jobs' & w' & job' & H1 & H2 & H3 & H4 & H5 & H6 & H7).
    exists jobs', w', [], job'.
    destruct (set_error jobs0 job_id no_ticker_message w1) as [[res jobs2] w2].
    injection H1 as Hres <- <-.
    destruct res as [x|e]; [|discriminate]. auto 10.
  - destruct (run_agent tool_registry query (String c r) _ 10 true 1 w1)
      as [[[report|e] w2] tr] eqn:Hrun.
    + assert (Hvalid : valid_report report = true
                       /\ AnalysisReport.company_ticker report = String c r).
      { unfold run_agent in Hrun. split.
        - eapply report_of_valid, attempts_loop_report. eassumption.
        - apply attempts_loop_origin in Hrun
            as (rr & final & summary & score & kf & _ & _ & _ & _ & Ht & _).
          exact Ht. }
      destruct Hvalid as [Hvalid Hticker].
      unfold set_report. rewrite Hjob0. destruct (utcnow w2) as [now w3].
      unfold commit_job, _to_job_status_data.
      cbn [Job.status Job.company_ticker Job.analysis_summary Job.sentiment_score
           Job.key_findings Job.tools_used Job.citation_sources].
      rewrite Hticker. cbn [is_empty]. destruct (utcnow w3) as [now2 w4].
      rewrite <- Hticker, (revalidate report now2 Hvalid).
      cbn [mbind outcome_bind].
      eexists _, _, _, _. split; [reflexivity|]. rewrite lookup_insert_eq.
      split; [reflexivity|]. split; [apply Hother|]. cbn.
      rewrite Hticker. repeat split; discriminate.
    + destruct (Hfail (exn_msg e) w2 tr)
        as (jobs' & w' & job' & H1 & H2 & H3 & H4 & H5 & H6 & H7).
      exists jobs', w', tr, job'. auto 10.
  - destruct (Hfail no_ticker_message w1 [])
      as (jobs' & w' & job' & H1 & H2 & H3 & H4 & H5 & H6 & H7).
    exists jobs', w', [], job'.
    destruct (set_error jobs0 job_id no_ticker_message w1) as [[res jobs2] w2].
    injection H1 as Hres <- <-.
    destruct res as [x|e]; [|discriminate]. auto 10.
Qed.

End JobFacts.

(** An error is stored for the pending job: it is failed, with its
    completion time. *)
Lemma job_store_keeps_settled_witness :
  match
    snd (fst (set_error (E := Script.env) pending_jobs "job-1" "boom"
                (Script.mk [] [] 5))) !! "job-1"
  with
  | Some job => settled job /\ Job.status job = FAILED
  | None => False
  end.
Proof.
  assert (Hall : forall k job, pending_jobs !! k = Some job -> settled job).
  { intros k job H. unfold pending_jobs in H.
    apply lookup_insert_Some in H as [[_ <-]|[_ H]]; [exact I|].
    rewrite lookup_empty in H. discriminate. }
  destruct (job_store_keeps_settled (E := Script.env) pending_jobs "job-1"
              (Script.mk [] [] 5) Hall) as (_ & _ & _ & Herr & _).
  specialize (Herr "boom" "job-1").
  destruct (snd (fst (set_error (E := Script.env) pending_jobs "job-1" "boom"
                        (Script.mk [] [] 5))) !! "job-1") as [job|] eqn:Hl.
  - destruct (Herr job eq_refl) as [Hs Hf]. auto.
  - vm_compute in Hl. discriminate.
Defined.

(** The pending job is run: the ticker is found, the model concludes, the
    gate accepts and refines; the job is completed with the refined
    summary. *)
Lemma analysis_task_settles_job_witness :
  match run_analysis_task (E := Script.env) Script.empty_registry "job-1"
          "Analyze Tesla" pending_jobs refine_script with
  | (Ret _, jobs', _, _) =>
      exists job',
        jobs' !! "job-1" = Some job'
        /\ Job.status job' = COMPLETED
        /\ Job.analysis_summary job' = Some "better"
  | (Raise _, _, _, _) => False
  end.
Proof.
  destruct (analysis_task_settles_job (E := Script.env) Script.empty_registry "job-1"
              "Analyze Tesla" pending_jobs refine_script
              (Job.mk "job-1" PENDING "Analyze Tesla" 0 None None None None None
                 None None None) (lookup_insert_eq _ _ _))
    as (jobs' & w' & tr & job' & Hrun & Hl & _ & _ & _ & _ & Hcase).
  rewrite Hrun. exists job'. split; [assumption|].
  vm_compute in Hcase. destruct Hcase as (Hs & _ & _ & Hsum & _). auto.
Defined.

(** ** Monitors and their scheduled jobs *)

Section MonitorJobs.
Context {E : Env}.
Variable monitor_interval_hours : float.

Lemma job_id_inj (a b : string) :
  MonitorScheduler.job_id a = MonitorScheduler.job_id b -> a = b.
Proof.
  unfold MonitorScheduler.job_id. norm_app. intros H. now injection H.
Qed.

Lemma get_job_add (scheduler : gmap string (string * float)) (ticker k : string)
  (i : float) :
  MonitorScheduler.get_job (MonitorScheduler.add_monitor_job scheduler ticker i) k
  = if String.eqb ticker k then Some (k, i) else MonitorScheduler.get_job scheduler k.
Proof.
  unfold MonitorScheduler.get_job, MonitorScheduler.add_monitor_job,
    MonitorScheduler.remove_monitor_job.
  destruct (String.eqb_spec ticker k) as [->|Hne].
  - apply lookup_insert_eq.
  - rewrite lookup_insert_ne, lookup_delete_ne; [reflexivity| |];
      intros H; apply job_id_inj in H; congruence.
Qed.

Lemma get_job_remove (scheduler : gmap string (string * float)) (ticker k : string) :
  MonitorScheduler.get_job (MonitorScheduler.remove_monitor_job scheduler ticker) k
  = if String.eqb ticker k then None else MonitorScheduler.get_job scheduler k.
Proof.
  unfold MonitorScheduler.get_job, MonitorScheduler.remove_monitor_job.
  destruct (String.eqb_spec ticker k) as [->|Hne].
  - apply lookup_delete_eq.
  - rewrite lookup_delete_ne; [reflexivity|].
    intros H; apply job_id_inj in H; congruence.
Qed.

Lemma restore_lookup (l : list MonitorState.t) (k : string) :
  forall scheduler,
    MonitorScheduler.get_job
      (foldl
         (fun scheduler monitor =>
            MonitorScheduler.add_monitor_job scheduler (MonitorState.ticker monitor)
              (MonitorState.interval_hours monitor))
         scheduler l) k
    = latest_job k (MonitorScheduler.get_job scheduler k) l.
Proof.
  induction l as [|m l IH]; intros scheduler; [reflexivity|].
  cbn [foldl]. unfold latest_job. cbn [foldl]. fold (latest_job k).
  rewrite IH, get_job_add. reflexivity.
Qed.

Lemma latest_job_none (k : string) (l : list MonitorState.t) :
  forall acc,
    Forall (fun m => MonitorState.ticker m <> k) l -> latest_job k acc l = acc.
Proof.
  induction l as [|m l IH]; intros acc Hall; [reflexivity|].
  apply Forall_cons in Hall as [Hm Hall].
  unfold latest_job. cbn [foldl]. fold (latest_job k).
  destruct (String.eqb_spec (MonitorState.ticker m) k); [contradiction|].
  now apply IH.
Qed.

Lemma latest_job_some (k : string) (i : float) (l : list MonitorState.t) :
  forall acc,
    Forall (fun m => MonitorState.ticker m = k -> MonitorState.interval_hours m = i) l ->
    acc = Some (k, i) \/ Exists (fun m => MonitorState.ticker m = k) l ->
    latest_job k acc l = Some (k, i).
Proof.
  induction l as [|m l IH]; intros acc Hall Hex.
  - destruct Hex as [->|Hex]; [reflexivity | inversion Hex].
  - apply Forall_cons in Hall as [Hm Hall].
    unfold latest_job. cbn [foldl]. fold (latest_job k).
    apply IH; [assumption|].
    destruct (String.eqb_spec (MonitorState.ticker m) k) as [Heq|Hne].
    + left. now rewrite (Hm Heq).
    + destruct Hex as [->|Hex]; [now left|].
      apply Exists_cons in Hex as [?|?]; [contradiction | now right].
Qed.

(** X28: the scheduled jobs follow the active rows. Say that store and
    scheduler agree when the scheduler holds a job for a ticker exactly
    when the ticker's row is active, firing for that ticker at the row's
    interval. If upper-casing is idempotent, the two monitor routes keep
    store and scheduler in agreement, whether they succeed or answer with
    an error, and keep every row under its own ticker; and at startup,
    restoring the monitors into an empty scheduler brings the scheduler
    into agreement with the store. *)
Theorem monitor_jobs_follow_rows :
  (forall s, str_upper (str_upper s) = str_upper s) ->
  (forall request db scheduler w,
      synced db scheduler -> keyed db ->
      synced (snd (fst (fst (routes.start_monitor monitor_interval_hours request db
                               scheduler w))))
        (snd (fst (routes.start_monitor monitor_interval_hours request db
                     scheduler w)))
      /\ keyed (snd (fst (fst (routes.start_monitor monitor_interval_hours request db
                                 scheduler w)))))
  /\ (forall request db scheduler w,
        synced db scheduler -> keyed db ->
        synced (snd (fst (fst (routes.stop_monitor request db scheduler w))))
          (snd (fst (routes.stop_monitor request db scheduler w)))
        /\ keyed (snd (fst (fst (routes.stop_monitor request db scheduler w)))))
  /\ (forall db, keyed db -> synced db (check_and_restore_monitors db ∅)).
Proof.
  intros Hup. split; [|split].
  - intros request db scheduler w Hsync Hkey. unfold routes.start_monitor.
    set (ticker := str_upper (MonitorStartRequest.ticker request)).
    assert (Hkeyt : str_upper ticker = ticker) by apply Hup.
    destruct (match get_monitor db ticker with
              | Some existing => MonitorState.is_active existing
              | None => false
              end); [auto|].
    set (interval_hours := match MonitorStartRequest.interval_hours request with
                           | Some i => i
                           | None => monitor_interval_hours
                           end).
    destruct (utcnow w) as [now w1].
    unfold create_monitor. rewrite Hkeyt.
    destruct (db !! ticker) as [row|] eqn:Hrow.
    + destruct (utcnow w1) as [ts w3]. cbn [fst snd]. split.
      * intros k. rewrite get_job_add.
        destruct (String.eqb_spec ticker k) as [<-|Hne].
        -- rewrite lookup_insert_eq. reflexivity.
        -- rewrite lookup_insert_ne by assumption. apply Hsync.
      * intros k r. destruct (decide (ticker = k)) as [<-|Hne].
        -- rewrite lookup_insert_eq. intros [= <-]. cbn. eauto.
        -- rewrite lookup_insert_ne by assumption. apply Hkey.
    + destruct (utcnow w1) as [created w2]. destruct (utcnow w2) as [ts w3].
      cbn [fst snd]. split.
      * intros k. rewrite get_job_add.
        destruct (String.eqb_spec ticker k) as [<-|Hne].
        -- rewrite lookup_insert_eq. reflexivity.
        -- rewrite lookup_insert_ne by assumption. apply Hsync.
      * intros k r. destruct (decide (ticker = k)) as [<-|Hne].
        -- rewrite lookup_insert_eq. intros [= <-]. reflexivity.
        -- rewrite lookup_insert_ne by assumption. apply Hkey.
  - intros request db scheduler w Hsync Hkey. unfold routes.stop_monitor.
    set (ticker := str_upper (MonitorStopRequest.ticker request)).
    assert (Hkeyt : str_upper ticker = ticker) by apply Hup.
    unfold get_monitor, stop_monitor. rewrite Hkeyt.
    destruct (db !! ticker) as [row|] eqn:Hrow; cbn [fmap option_fmap option_map];
      [|auto].
    cbn [_to_monitor_state MonitorState.is_active].
    destruct (Monitor.is_active row); cbn [negb]; [|auto].
    destruct (utcnow w) as [ts w1]. cbn [fst snd]. split.
    + intros k. rewrite get_job_remove.
      destruct (String.eqb_spec ticker k) as [<-|Hne].
      * rewrite lookup_insert_eq. reflexivity.
      * rewrite lookup_insert_ne by assumption. apply Hsync.
    + intros k r. destruct (decide (ticker = k)) as [<-|Hne].
      * rewrite lookup_insert_eq. intros [= <-]. cbn. eauto.
      * rewrite lookup_insert_ne by assumption. apply Hkey.
  - intros db Hkey k. unfold check_and_restore_monitors. rewrite restore_lookup.
    change (MonitorScheduler.get_job ∅ k) with (@None (string * float)).
    assert (Hin : forall m,
               m ∈ list_active_monitors db ->
               exists row, db !! MonitorState.ticker m = Some row
                           /\ Monitor.is_active row = true
                           /\ m = _to_monitor_state row).
    { intros m Hm. unfold list_active_monitors in Hm.
      change (map _to_monitor_state ?l) with (_to_monitor_state <$> l) in Hm.
      apply list_elem_of_fmap in Hm as (row & -> & Hr).
      apply list_elem_of_filter in Hr as [Hact Hr].
      change (map snd (map_to_list db)) with (snd <$> map_to_list db) in Hr.
      apply list_elem_of_fmap in Hr as ([k0 r0] & -> & Hr).
      apply elem_of_map_to_list in Hr. cbn [snd] in *.
      exists r0. cbn. rewrite (Hkey _ _ Hr). auto. }
    destruct (db !! k) as [row|] eqn:Hrow.
    + destruct (Monitor.is_active row) eqn:Hact.
      * apply latest_job_some.
        -- apply Forall_forall. intros m Hm Hk.
           destruct (Hin m Hm) as (r & Hr & _ & ->). cbn in *.
           rewrite Hk in Hr. congruence.
        -- right. apply Exists_exists. exists (_to_monitor_state row). split.
           ++ unfold list_active_monitors.
              change (map _to_monitor_state ?l) with (_to_monitor_state <$> l).
              apply list_elem_of_fmap. exists row. split; [reflexivity|].
              apply list_elem_of_filter. split; [assumption|].
              change (map snd (map_to_list db)) with (snd <$> map_to_list db).
              apply list_elem_of_fmap. exists (k, row). split; [reflexivity|].
              now apply elem_of_map_to_list.
           ++ cbn. eauto.
      * apply latest_job_none. apply Forall_forall. intros m Hm Hk.
        destruct (Hin m Hm) as (r & Hr & Hra & ->). cbn in *.
        rewrite Hk in Hr. congruence.
    + apply latest_job_none. apply Forall_forall. intros m Hm Hk.
      destruct (Hin m Hm) as (r & Hr & _). rewrite Hk in Hr. congruence.
Qed.

(** X29: how the two monitor routes answer. Starting a ticker whose
    row is active is refused with status 409, stopping a ticker without
    row with 404 and one whose row is inactive with 400; a refused
    request changes neither the store nor the scheduler and reads no
    clock. Otherwise the route succeeds: a start leaves the row active,
    with the requested interval (the configured one when the request gives
    none) and the next run one interval after the time read, and answers
    with an empty list of seen fingerprints whatever the row holds; a stop
    leaves the row inactive without next run and answers with the seen
    fingerprints of the row. *)
Theorem monitor_routes_answers (db : gmap string Monitor.t)
  (scheduler : gmap string (string * float)) (w : World) :
  (forall request,
      let ticker := str_upper (MonitorStartRequest.ticker request) in
      let interval_hours :=
        match MonitorStartRequest.interval_hours request with
        | Some i => i
        | None => monitor_interval_hours
        end in
      match get_monitor db ticker with
      | Some (MonitorState.mk _ _ _ _ _ true) =>
          routes.start_monitor monitor_interval_hours request db scheduler w
          = (HTTPException 409 ("Monitor for " +:+ ticker +:+ " is already active"),
             db, scheduler, w)
      | _ =>
          exists message timestamp db' w' state,
            routes.start_monitor monitor_interval_hours request db scheduler w
            = (Success message
                 (MonitorData.mk ticker interval_hours
                    (Some (add_hours (fst (utcnow w)) interval_hours)) true [])
                 timestamp,
               db', MonitorScheduler.add_monitor_job scheduler ticker interval_hours, w')
            /\ get_monitor db' ticker = Some state
            /\ MonitorState.is_active state = true
            /\ MonitorState.interval_hours state = interval_hours
            /\ MonitorState.next_run state
               = Some (add_hours (fst (utcnow w)) interval_hours)
      end)
  /\ (forall request,
        let ticker := str_upper (MonitorStopRequest.ticker request) in
        match get_monitor db ticker with
        | None =>
            routes.stop_monitor request db scheduler w
            = (HTTPException 404 ("No monitor found for " +:+ ticker), db, scheduler, w)
        | Some monitor =>
            if MonitorState.is_active monitor then
              exists timestamp db' w' state,
                routes.stop_monitor request db scheduler w
                = (Success ("Stopped monitoring " +:+ ticker)
                     (MonitorData.mk ticker (MonitorState.interval_hours monitor) None
                        false (elements (MonitorState.seen_article_hashes monitor)))
                     timestamp,
                   db', MonitorScheduler.remove_monitor_job scheduler ticker, w')
                /\ get_monitor db' ticker = Some state
                /\ MonitorState.is_active state = false
                /\ MonitorState.next_run state = None
                /\ MonitorState.seen_article_hashes state
                   = MonitorState.seen_article_hashes monitor
            else
              routes.stop_monitor request db scheduler w
              = (HTTPException 400 ("Monitor for " +:+ ticker +:+ " is already stopped"),
                 db, scheduler, w)
        end).
Proof.
  split.
  - intros request ticker interval_hours. unfold routes.start_monitor.
    fold ticker. fold interval_hours.
    assert (Hgo : exists message timestamp db' w' state,
               (let '(now, w1) := utcnow w in
                let next_run := add_hours now interval_hours in
                let '(_, db1, w2) :=
                  create_monitor db ticker interval_hours next_run w1 in
                let scheduler1 :=
                  MonitorScheduler.add_monitor_job scheduler ticker interval_hours in
                let data := MonitorData.mk ticker interval_hours (Some next_run) true [] in
                let '(timestamp, w3) := utcnow w2 in
                (Success
                   ("Started monitoring " +:+ ticker +:+ " every "
                    +:+ py_repr (VFloat interval_hours) +:+ " hours")
                   data timestamp, db1, scheduler1, w3))
               = (Success message
                    (MonitorData.mk ticker interval_hours
                       (Some (add_hours (fst (utcnow w)) interval_hours)) true [])
                    timestamp,
                  db', MonitorScheduler.add_monitor_job scheduler ticker interval_hours,
                  w')
               /\ get_monitor db' ticker = Some state
               /\ MonitorState.is_active state = true
               /\ MonitorState.interval_hours state = interval_hours
               /\ MonitorState.next_run state
                  = Some (add_hours (fst (utcnow w)) interval_hours)).
    { destruct (utcnow w) as [now w1]. cbn [fst].
      pose proof (create_monitor_get db ticker interval_hours
                    (add_hours now interval_hours) w1) as Hc.
      destruct (create_monitor db ticker interval_hours (add_hours now interval_hours) w1)
        as [[state db1] w2].
      destruct Hc as (Hg & Ha & Hi & Hn).
      destruct (utcnow w2) as [ts w3]. eauto 12. }
    destruct (get_monitor db ticker) as [[t i l n s [|]]|]; [reflexivity | exact Hgo..].
  - intros request ticker. unfold routes.stop_monitor. fold ticker.
    destruct (get_monitor db ticker) as [monitor|] eqn:Hget; [|reflexivity].
    destruct (MonitorState.is_active monitor) eqn:Hact; cbn [negb]; [|reflexivity].
    destruct (utcnow w) as [ts w1].
    unfold get_monitor in Hget.
    destruct (db !! str_upper ticker) as [row|] eqn:Hrow; [|discriminate].
    injection Hget as <-.
    eexists ts, _, w1, _. split; [reflexivity|].
    rewrite (stop_monitor_get db ticker row Hrow). cbn. auto.
Qed.

End MonitorJobs.

(** The store of the running example is restored into an empty
    scheduler. *)
Lemma monitor_jobs_follow_rows_witness :
  MonitorScheduler.get_job
    (check_and_restore_monitors (monitors active_stores) ∅) "TSLA"
  = Some ("TSLA", 24%float).
Proof.
  destruct (monitor_jobs_follow_rows (E := Script.env) 24%float (fun s => eq_refl))
    as (_ & _ & Hr).
  rewrite (Hr (monitors active_stores)).
  - unfold active_stores. cbn [monitors]. rewrite lookup_insert_eq. reflexivity.
  - intros k row H. unfold active_stores in H. cbn [monitors] in H.
    apply lookup_insert_Some in H as [[<- <-]|[_ H]]; [reflexivity|].
    rewrite lookup_empty in H. discriminate.
Defined.

(** ** The alert store *)

Section AlertFacts.
Context {E : Env}.

Lemma new_AnalysisReport_valid (report : AnalysisReport.t) (now : datetime) :
  valid_report report = true ->
  new_AnalysisReport (AnalysisReport.company_ticker report)
    (VStr (AnalysisReport.analysis_summary report))
    (AnalysisReport.sentiment_score report) (AnalysisReport.key_findings report)
    (AnalysisReport.tools_used report)
    (map VStr (AnalysisReport.citation_sources report)) now
  = Ret (regenerated report now).
Proof.
  unfold valid_report, new_AnalysisReport. intros Hv.
  rewrite all_str_map_VStr, Hv. reflexivity.
Qed.

Lemma filter_none {A : Type} (f : A -> bool) (l : list A) :
  existsb f l = false -> List.filter f l = [].
Proof.
  induction l as [|a l IH]; [reflexivity|]. cbn.
  destruct (f a); [discriminate|]. exact IH.
Qed.

Lemma existsb_id (alerts : list Alert.t) (alert_id : string) :
  existsb (fun a => String.eqb (Alert.id a) alert_id) alerts = false
  <-> ~ In alert_id (map Alert.id alerts).
Proof.
  induction alerts as [|a l IH]; cbn; [tauto|].
  destruct (String.eqb_spec (Alert.id a) alert_id) as [->|Hne]; cbn.
  - split; [discriminate | tauto].
  - rewrite IH. tauto.
Qed.

(** X30: creating an alert and reading it back. On a table with
    distinct identifiers, [create_alert] under a fresh identifier appends
    one row, stamped with the time read (under an identifier already
    present it raises and the table is unchanged), and the identifiers
    stay distinct. Reading the new alert back with [get_alert] gives its
    identifier, type, upper-cased ticker and trigger time, and a valid
    report comes back with all its fields except [generated_at], which is
    the time of the reading: the table does not store it. Reading any
    other identifier is not affected by the creation. *)
Theorem alert_round_trip (alerts : list Alert.t) (alert_id ticker : string)
  (report : AnalysisReport.t) (alert_type : AlertType) (w : World) :
  NoDup (map Alert.id alerts) ->
  valid_report report = true ->
  let alerts' := snd (fst (create_alert alerts alert_id ticker report alert_type w)) in
  NoDup (map Alert.id alerts')
  /\ if existsb (fun a => String.eqb (Alert.id a) alert_id) alerts
     then (exists e,
              fst (fst (create_alert alerts alert_id ticker report alert_type w))
              = Raise e)
          /\ alerts' = alerts
     else
       alerts'
       = alerts ++ [Alert.mk alert_id alert_type (str_upper ticker) (fst (utcnow w))
                      report]
       /\ (forall w1,
             get_alert alerts' alert_id w1
             = (Ret (Some (AlertData.mk alert_id alert_type (str_upper ticker)
                             (regenerated report (fst (utcnow w1)))
                             (fst (utcnow w)))),
                snd (utcnow w1)))
       /\ (forall other w1,
             other <> alert_id ->
             get_alert alerts' other w1 = get_alert alerts other w1).
Proof.
  intros Hnd Hvalid. unfold create_alert.
  destruct (utcnow w) as [now w0].
  destruct (existsb (fun a => String.eqb (Alert.id a) alert_id) alerts) eqn:Hex;
    cbn [fst snd].
  - split; [assumption|]. split; [eauto | reflexivity].
  - split; [|split; [reflexivity|split]].
    + rewrite map_app. cbn [map Alert.id]. apply NoDup_app.
      split; [assumption|]. split; [|apply NoDup_singleton].
      intros x Hx Hx1. apply list_elem_of_singleton in Hx1 as ->.
      apply existsb_id in Hex. apply Hex. now apply list_elem_of_In.
    + intros w1. unfold get_alert. rewrite List.filter_app, (filter_none _ _ Hex).
      cbn [List.filter Alert.id app]. rewrite String.eqb_refl.
      unfold _to_alert_data. cbn [Alert.report Alert.id Alert.alert_type Alert.ticker
                                  Alert.triggered_at].
      destruct (utcnow w1) as [now2 w2]. cbn [fst snd].
      rewrite (new_AnalysisReport_valid report now2 Hvalid). reflexivity.
    + intros other w1 Hother. unfold get_alert. rewrite List.filter_app.
      cbn [List.filter Alert.id].
      destruct (String.eqb_spec alert_id other); [congruence|].
      now rewrite app_nil_r.
Qed.

End AlertFacts.

(** An alert is created in an empty table at time 5 and read back at
    time 6. *)
Lemma alert_round_trip_witness :
  get_alert (E := Script.env)
    (snd (fst (create_alert (E := Script.env) [] "alert-1" "TSLA" sample_report
                 PROACTIVE_ALERT (Script.mk [] [] 5))))
    "alert-1" (Script.mk [] [] 6)
  = (Ret (Some (AlertData.mk "alert-1" PROACTIVE_ALERT "TSLA"
                  (regenerated sample_report 6) 5)),
     Script.mk [] [] 7).
Proof.
  destruct (alert_round_trip (E := Script.env) [] "alert-1" "TSLA" sample_report
              PROACTIVE_ALERT (Script.mk [] [] 5)) as [_ H].
  - constructor.
  - reflexivity.
  - cbn [existsb] in H. destruct H as (_ & Hget & _).
    exact (Hget (Script.mk [] [] 6)).
Defined.
